(** * heroesprofile-filter: the replay downloader and its caches

    A shallow embedding of [downloader.py]: the identity set-up from the
    configuration ([BattleTags.setup_battle_tags_from_config]) and the two
    download phases of an identity ([BattleTag.download_base_replays],
    [BattleTag.download_advanced_replays]), over an explicit world made of
    the file system, the remote API and the log.

    Python values are one inductive type, Python exceptions are values of
    [exn], and every method is a function in the state-and-exception monad
    [M].  The [json] module is a parameter of the development: a printer
    and a parser over file texts (class [JsonCodec]) with the round-trip
    contract the program relies on (class [JsonLaws]).  [python_json] is
    a printer and a parser that keep the contract; the examples run with
    it. *)

From Stdlib Require Import ZArith Ascii String DecimalPos.
From stdpp Require Import gmap strings list.

Set Warnings "-register-all".


(** ** Python values *)

(** The keys a dict can have here: a string, or one of the other
    hashable values the program can meet ([0], [True], [None]). *)
Inductive key :=
| KStr (s : string)
| KInt (n : Z)
| KBool (b : bool)
| KNone.

(** What [json.load] and [yaml.safe_load] hand to the program.  A [dict]
    keeps insertion order.  [PyDict] is a dict whose keys are all strings
    (the keys of a JSON object); [PyKeyed] is a dict holding a key of
    another kind, which [json.load] never builds and the program makes
    when it stores a record under a replay identifier that is a number.
    Floats are left out: the program never computes with numbers. *)
Inductive value :=
| PyNone
| PyBool (b : bool)
| PyInt (n : Z)
| PyStr (s : string)
| PyList (l : list value)
| PyDict (d : list (string * value))
| PyKeyed (items : list (key * value)).

(** [k in d] for a dict. *)
Fixpoint dict_has {V} (d : list (string * V)) (k : string) : bool :=
  match d with
  | [] => false
  | (k', _) :: d' => if String.eqb k' k then true else dict_has d' k
  end.

(** [d.get(k)], [None] when the key is missing. *)
Fixpoint dict_get {V} (d : list (string * V)) (k : string) : option V :=
  match d with
  | [] => None
  | (k', v) :: d' => if String.eqb k' k then Some v else dict_get d' k
  end.

(** [d[k] = v]: an existing key keeps its place, a new one goes last. *)
Fixpoint dict_set {V} (d : list (string * V)) (k : string) (v : V)
  : list (string * V) :=
  match d with
  | [] => [(k, v)]
  | (k', v') :: d' =>
      if String.eqb k' k then (k', v) :: d' else (k', v') :: dict_set d' k v
  end.

Definition dict_keys {V} (d : list (string * V)) : list string := d.*1.

(** Two keys are the same key when they are equal in Python: [True] and
    [1] are, [0] and ["0"] are not. *)
Definition key_eqb (a b : key) : bool :=
  match a, b with
  | KStr s, KStr t => String.eqb s t
  | KNone, KNone => true
  | KInt x, KInt y => (x =? y)%Z
  | KBool x, KBool y => Bool.eqb x y
  | KBool x, KInt y | KInt y, KBool x => ((if x then 1 else 0) =? y)%Z
  | _, _ => false
  end.

Fixpoint keyed_has {V} (items : list (key * V)) (k : key) : bool :=
  match items with
  | [] => false
  | (k', _) :: items' => if key_eqb k' k then true else keyed_has items' k
  end.

Fixpoint keyed_get {V} (items : list (key * V)) (k : key) : option V :=
  match items with
  | [] => None
  | (k', v) :: items' => if key_eqb k' k then Some v else keyed_get items' k
  end.

(** An existing key stays as it was written ([d[1] = v] keeps a key
    [True]) and keeps its place. *)
Fixpoint keyed_set {V} (items : list (key * V)) (k : key) (v : V)
  : list (key * V) :=
  match items with
  | [] => [(k, v)]
  | (k', v') :: items' =>
      if key_eqb k' k then (k', v) :: items'
      else (k', v') :: keyed_set items' k v
  end.

(** A string-keyed dict seen as a dict of keys of any kind. *)
Definition keyed_of {V} (d : list (string * V)) : list (key * V) :=
  (fun kv => (KStr kv.1, kv.2)) <$> d.

(** The values [json.load] can build: every dict has string keys, each
    once. *)
Fixpoint well_keyed (x : value) : bool :=
  match x with
  | PyList l => forallb well_keyed l
  | PyDict d =>
      bool_decide (NoDup (dict_keys d))
      && forallb (fun kv => well_keyed kv.2) d
  | PyKeyed _ => false
  | _ => true
  end.

(** ** Strings as Python has them *)

(** [needle in hay] for two strings. *)
Fixpoint str_contains (needle hay : string) : bool :=
  String.prefix needle hay
  || match hay with
     | EmptyString => false
     | String _ hay' => str_contains needle hay'
     end.

(** Iterating a string yields its characters, each a string. *)
Fixpoint str_chars (s : string) : list string :=
  match s with
  | EmptyString => []
  | String c s' => String c EmptyString :: str_chars s'
  end.

(** [s.split('#')[0]]: what stands before the first ['#']. *)
Fixpoint split_hash_0 (s : string) : string :=
  match s with
  | EmptyString => EmptyString
  | String c s' =>
      if Ascii.eqb c "#"%char then EmptyString else String c (split_hash_0 s')
  end.

(** [str.isspace] on the ASCII range: TAB to CR, FS to US, and space. *)
Definition is_space (c : ascii) : bool :=
  let n := nat_of_ascii c in
  ((9 <=? n) && (n <=? 13) || (28 <=? n) && (n <=? 32))%nat.

Fixpoint lstrip (s : string) : string :=
  match s with
  | EmptyString => EmptyString
  | String c s' => if is_space c then lstrip s' else s
  end.

(** [rstrip] keeps a character when it or something after it is not
    white space. *)
Fixpoint rstrip (s : string) : string :=
  match s with
  | EmptyString => EmptyString
  | String c s' =>
      match rstrip s' with
      | EmptyString => if is_space c then EmptyString else String c EmptyString
      | r => String c r
      end
  end.

(** [s.strip()] *)
Definition strip (s : string) : string := rstrip (lstrip s).

(** ** Exceptions and results *)

(** The exceptions the program can end with.  [SystemExit] is what
    [sys.exit(1)] raises.  [Unmodelled] marks the one operation whose
    Python meaning this development does not follow, a number used as
    the path of the credential file (it would name a file descriptor):
    set-up stops there and nothing is claimed about it.  The two
    download phases never meet it. *)
Inductive exn :=
| AssertionError
| AttributeError
| KeyError
| IndexError
| TypeError
| JSONDecodeError
| FileNotFoundError
| IsADirectoryError
| RequestException
| SystemExit (code : Z)
| Unmodelled.

Inductive result (A : Type) :=
| Ok (a : A)
| Raise (e : exn).
Arguments Ok {A} a.
Arguments Raise {A} e.

(** ** Operators on values *)

(** Truth value of an object, as [if not base_json] tests it. *)
Definition py_truthy (x : value) : bool :=
  match x with
  | PyNone => false
  | PyBool b => b
  | PyInt n => negb (n =? 0)%Z
  | PyStr s => negb (String.eqb s "")
  | PyList l => match l with [] => false | _ => true end
  | PyDict d => match d with [] => false | _ => true end
  | PyKeyed items => match items with [] => false | _ => true end
  end.

(** [a == b] when [a] is not a container.  [True == 1] holds in Python. *)
Definition scalar_eq (a b : value) : bool :=
  match a, b with
  | PyNone, PyNone => true
  | PyStr s, PyStr t => String.eqb s t
  | PyBool x, PyBool y => Bool.eqb x y
  | PyInt x, PyInt y => (x =? y)%Z
  | PyBool x, PyInt y | PyInt y, PyBool x => ((if x then 1 else 0) =? y)%Z
  | _, _ => false
  end.

(** The items of a dict of either kind. *)
Definition dict_items (x : value) : option (list (key * value)) :=
  match x with
  | PyDict d => Some (keyed_of d)
  | PyKeyed items => Some items
  | _ => None
  end.

(** [a == b] for any two values: lists are equal item by item, dicts
    when they have the same keys with equal values, in any order. *)
Fixpoint py_eq (a b : value) {struct a} : bool :=
  match a with
  | PyList la =>
      match b with
      | PyList lb =>
          (fix each (la lb : list value) : bool :=
             match la, lb with
             | [], [] => true
             | x :: la', y :: lb' => py_eq x y && each la' lb'
             | _, _ => false
             end) la lb
      | _ => false
      end
  | PyDict da =>
      match dict_items b with
      | Some ib =>
          (length da =? length ib)%nat
          && forallb (fun kv => match keyed_get ib (KStr kv.1) with
                                | Some v => py_eq kv.2 v
                                | None => false
                                end) da
      | None => false
      end
  | PyKeyed ia =>
      match dict_items b with
      | Some ib =>
          (length ia =? length ib)%nat
          && forallb (fun kv => match keyed_get ib kv.1 with
                                | Some v => py_eq kv.2 v
                                | None => false
                                end) ia
      | None => false
      end
  | _ => scalar_eq a b
  end.

(** The key a value is when it is hashable; lists and dicts are not. *)
Definition key_of (x : value) : option key :=
  match x with
  | PyNone => Some KNone
  | PyBool b => Some (KBool b)
  | PyInt n => Some (KInt n)
  | PyStr s => Some (KStr s)
  | PyList _ | PyDict _ | PyKeyed _ => None
  end.

Definition value_of_key (k : key) : value :=
  match k with
  | KStr s => PyStr s
  | KInt n => PyInt n
  | KBool b => PyBool b
  | KNone => PyNone
  end.

(** The position a list or string index names, counted from the end
    when it is negative; [True] and [False] index as [1] and [0]. *)
Definition position (len : nat) (i : Z) : option nat :=
  if (0 <=? i)%Z then
    if (i <? Z.of_nat len)%Z then Some (Z.to_nat i) else None
  else
    if (- Z.of_nat len <=? i)%Z then Some (Z.to_nat (Z.of_nat len + i))
    else None.

Definition index_of (x : value) : option Z :=
  match x with
  | PyInt n => Some n
  | PyBool b => Some (if b then 1 else 0)%Z
  | _ => None
  end.

(** The place of the item an index names in a container of [len]
    items. *)
Definition place (len : nat) (x : value) : option nat :=
  match index_of x with
  | Some i => position len i
  | None => None
  end.

(** [item in container] *)
Definition py_contains (container item : value) : result bool :=
  match container, item with
  | PyDict d, PyStr s => Ok (dict_has d s)
  | PyDict d, (PyList _ | PyDict _ | PyKeyed _) => Raise TypeError
  | PyDict d, _ => Ok false
  | PyKeyed items, _ =>
      match key_of item with
      | Some k => Ok (keyed_has items k)
      | None => Raise TypeError
      end
  | PyList l, (PyList _ | PyDict _ | PyKeyed _) => Ok (existsb (py_eq item) l)
  | PyList l, _ => Ok (existsb (scalar_eq item) l)
  | PyStr hay, PyStr needle => Ok (str_contains needle hay)
  | PyStr _, _ => Raise TypeError
  | (PyNone | PyBool _ | PyInt _), _ => Raise TypeError
  end.

(** [container[key]] *)
Definition py_getitem (container key : value) : result value :=
  match container, key with
  | PyDict d, PyStr s =>
      match dict_get d s with Some v => Ok v | None => Raise KeyError end
  | PyDict d, (PyList _ | PyDict _ | PyKeyed _) => Raise TypeError
  | PyDict d, _ => Raise KeyError
  | PyKeyed items, _ =>
      match key_of key with
      | Some k =>
          match keyed_get items k with
          | Some v => Ok v
          | None => Raise KeyError
          end
      | None => Raise TypeError
      end
  | PyList l, (PyInt _ | PyBool _) =>
      match place (length l) key with
      | Some i => match l !! i with Some v => Ok v | None => Raise IndexError end
      | None => Raise IndexError
      end
  | PyStr s, (PyInt _ | PyBool _) =>
      match place (String.length s) key with
      | Some i =>
          match str_chars s !! i with
          | Some c => Ok (PyStr c)
          | None => Raise IndexError
          end
      | None => Raise IndexError
      end
  | _, _ => Raise TypeError
  end.

(** [container[key] = v] *)
Definition py_setitem (container key v : value) : result value :=
  match container, key with
  | PyDict d, PyStr s => Ok (PyDict (dict_set d s v))
  | PyDict d, (PyList _ | PyDict _ | PyKeyed _) => Raise TypeError
  | PyDict d, _ =>
      match key_of key with
      | Some k => Ok (PyKeyed (keyed_of d ++ [(k, v)]))
      | None => Raise TypeError
      end
  | PyKeyed items, _ =>
      match key_of key with
      | Some k => Ok (PyKeyed (keyed_set items k v))
      | None => Raise TypeError
      end
  | PyList l, (PyInt _ | PyBool _) =>
      match place (length l) key with
      | Some i => Ok (PyList (<[i := v]> l))
      | None => Raise IndexError
      end
  | _, _ => Raise TypeError
  end.

(** [for x in container]: the items visited. *)
Definition py_iter (container : value) : result (list value) :=
  match container with
  | PyList l => Ok l
  | PyDict d => Ok (PyStr <$> dict_keys d)
  | PyKeyed items => Ok (value_of_key <$> items.*1)
  | PyStr s => Ok (PyStr <$> str_chars s)
  | _ => Raise TypeError
  end.

(** [container.get(key, default)], which only a dict has. *)
Definition py_get (container : value) (key : string) (default : value)
  : result value :=
  match container with
  | PyDict d => Ok (from_option id default (dict_get d key))
  | PyKeyed items => Ok (from_option id default (keyed_get items (KStr key)))
  | _ => Raise AttributeError
  end.

(** ** The world *)

(** A path holds a regular file with its text, or a directory. *)
Inductive node :=
| NFile (text : string)
| NDir.

(** [requests.get(f"{base}{endpoint}", params=params)] *)
Record request := Request {
  req_base : value;
  req_endpoint : string;
  req_params : list (string * value)
}.

(** What [requests.get] comes back with: a response, or an exception of
    the transport. *)
Inductive reply :=
| Response (status_code : Z) (body : string)
| Failed.

(** The lines the logger receives. *)
Inductive log_record :=
| InfoDownloadingBase (username game_type : string)
| ErrorNotJson (base_file : string)
| InfoDownloadingAdvanced (username game_type : string)
| InfoNoReplays (username game_type : string)
| ErrorUnableToDownload (replay_id : value) (username game_type : string)
| ErrorResponse (res : reply)
| InfoAllDownloaded (username game_type : string)
| InfoDownloaded (replays_cnt : nat).

(** The file system, the remote API (its answer to the [n]-th request of
    the run), the requests sent so far with their answers, and the log.
    [fs] holds what sits at the paths the program opens: the credential
    file and the cache files.  The log file and the directories above the
    cache files are not in it. *)
Record world := World {
  fs : gmap string node;
  remote : nat -> request -> reply;
  sent : list (request * reply);
  logged : list log_record
}.

Definition set_fs (f : gmap string node -> gmap string node) (w : world)
  : world :=
  World (f (fs w)) (remote w) (sent w) (logged w).

(** ** The monad of the program *)

Definition M (A : Type) : Type := world -> result A * world.

#[global] Instance M_ret : MRet M := fun A a w => (Ok a, w).

#[global] Instance M_bind : MBind M := fun A B k m w =>
  match m w with
  | (Ok a, w') => k a w'
  | (Raise e, w') => (Raise e, w')
  end.

Definition raise {A} (e : exn) : M A := fun w => (Raise e, w).

Definition lift {A} (r : result A) : M A := fun w => (r, w).

(** [try: m except (JSONDecodeError, FileNotFoundError): handler] *)
Definition caught (e : exn) : bool :=
  match e with
  | JSONDecodeError | FileNotFoundError => true
  | _ => false
  end.

Definition try_except {A} (m : M A) (handler : M A) : M A :=
  fun w =>
    match m w with
    | (Raise e, w') => if caught e then handler w' else (Raise e, w')
    | (Ok a, w') => (Ok a, w')
    end.

(** [assert b] *)
Definition py_assert (b : bool) : M unit :=
  if b then mret tt else raise AssertionError.

(** [logger.info], [logger.error]: the line goes to the terminal and is
    appended to the log file, [/tmp/heroesprofile-filter.log].  The log
    file is kept apart from [fs]: [logged] is what the run has appended
    to it. *)
Definition logger (r : log_record) : M unit :=
  fun w => (Ok tt, World (fs w) (remote w) (sent w) (logged w ++ [r])).

(** [for x in l: body x] *)
Fixpoint for_each {A} (body : A -> M unit) (l : list A) : M unit :=
  match l with
  | [] => mret tt
  | x :: l' => body x;; for_each body l'
  end.

(** *** Files *)

(** [os.path.exists(p) and os.path.isfile(p)] *)
Definition isfile (p : string) : M bool :=
  fun w =>
    (Ok match fs w !! p with Some (NFile _) => true | _ => false end, w).

(** [open(p, "r")] followed by [read()] *)
Definition open_read (p : string) : M string :=
  fun w =>
    match fs w !! p with
    | Some (NFile text) => (Ok text, w)
    | Some NDir => (Raise IsADirectoryError, w)
    | None => (Raise FileNotFoundError, w)
    end.

(** [open(p, "w")]: the file is created, or emptied. *)
Definition open_write (p : string) : M unit :=
  fun w =>
    match fs w !! p with
    | Some NDir => (Raise IsADirectoryError, w)
    | _ => (Ok tt, set_fs <[p := NFile ""]> w)
    end.

(** [open(p, "a+")], [seek(0)], [read()]: the file is created when
    missing, and kept as it is otherwise. *)
Definition open_append_read (p : string) : M string :=
  fun w =>
    match fs w !! p with
    | Some (NFile text) => (Ok text, w)
    | Some NDir => (Raise IsADirectoryError, w)
    | None => (Ok "", set_fs <[p := NFile ""]> w)
    end.

(** Writing [text] to a file opened with ["w"]. *)
Definition write (p : string) (text : string) : M unit :=
  fun w => (Ok tt, set_fs <[p := NFile text]> w).

(** *** The network *)

Definition requests_get (rq : request) : M reply :=
  fun w =>
    let r := remote w (length (sent w)) rq in
    let w' := World (fs w) (remote w) (sent w ++ [(rq, r)]) (logged w) in
    match r with
    | Failed => (Raise RequestException, w')
    | Response _ _ => (Ok r, w')
    end.

Definition status_code (r : reply) : Z :=
  match r with Response c _ => c | Failed => 0%Z end.

Definition body (r : reply) : string :=
  match r with Response _ b => b | Failed => "" end.

(** [os.path.exists(p)] *)
Definition path_exists (p : string) : M bool :=
  fun w => (Ok (bool_decide (is_Some (fs w !! p))), w).

(** [os.makedirs(p, exist_ok=True)].  The file system of the model is
    flat: it records what sits at the paths the program opens, not the
    directories above them, which are taken to be creatable; the
    directories the call creates are not recorded. *)
Definition makedirs (p : string) : M unit := mret tt.

(** [os.path.isfile(x)] for an attribute [x]: anything but a string or a
    number is refused by [os.stat]; a number would name a descriptor. *)
Definition os_path_isfile (x : value) : M bool :=
  match x with
  | PyStr p => isfile p
  | PyInt _ | PyBool _ => raise Unmodelled
  | _ => raise TypeError
  end.

(** [open(x)] and [read()] for an attribute [x] that [isfile] accepted. *)
Definition open_read_at (x : value) : M string :=
  match x with
  | PyStr p => open_read p
  | PyInt _ | PyBool _ => raise Unmodelled
  | _ => raise TypeError
  end.

(** ** The [json] module *)

(** [json_dumps x] is the text [json.dump(obj=x, fp=fd, indent=2)] writes,
    [json_loads s] what [json.loads(s)] returns, [None] standing for
    [JSONDecodeError]. *)
Class JsonCodec := {
  json_dumps : value -> string;
  json_loads : string -> option value
}.

(** What the program relies on: a dumped value loads back, the empty text
    is not JSON, and loading builds dicts, whose keys are distinct. *)
Class JsonLaws (C : JsonCodec) := {
  json_loads_dumps x : well_keyed x = true -> json_loads (json_dumps x) = Some x;
  json_loads_empty : json_loads "" = None;
  json_loads_well_keyed s x : json_loads s = Some x -> well_keyed x = true
}.

(** [json.loads(s)], also [json.load(fd)] and [res.json()] *)
Definition py_json_loads {codec : JsonCodec} (s : string) : M value :=
  match json_loads s with
  | Some x => mret x
  | None => raise JSONDecodeError
  end.

(** ** The program *)

Definition GAME_TYPES : list (string * string) :=
  [ ("qm", "Quick Match");
    ("sl", "Storm League");
    ("ud", "Unranked Draft");
    ("aram", "ARAM") ].
Arguments GAME_TYPES : simpl never.

(** [GAME_TYPES[game_type]] *)
Definition GAME_TYPES_getitem (game_type : string) : M string :=
  match dict_get GAME_TYPES game_type with
  | Some label => mret label
  | None => raise KeyError
  end.

Module BattleTag.

Record t := Build {
  battletag : value;
  api_token : value;
  api_token_path : value;
  base_url : value;
  mode : value;
  region : value;
  game_type : value
}.

(** [BattleTag(battletag)]: every other attribute starts as [None]. *)
Definition __init__ (battletag : value) : t :=
  Build battletag PyNone PyNone PyNone PyNone PyNone PyNone.

(** [getattr(self, name)] for the names the program uses. *)
Definition getattr (self : t) (name : string) : value :=
  if String.eqb name "battletag" then battletag self
  else if String.eqb name "api_token" then api_token self
  else if String.eqb name "api_token_path" then api_token_path self
  else if String.eqb name "base_url" then base_url self
  else if String.eqb name "mode" then mode self
  else if String.eqb name "region" then region self
  else if String.eqb name "game_type" then game_type self
  else PyNone.

(** [setattr(self, name, v)] for the names the program uses. *)
Definition setattr (self : t) (name : string) (v : value) : t :=
  let '(Build bt tok path url md rg gt) := self in
  if String.eqb name "battletag" then Build v tok path url md rg gt
  else if String.eqb name "api_token" then Build bt v path url md rg gt
  else if String.eqb name "api_token_path" then Build bt tok v url md rg gt
  else if String.eqb name "base_url" then Build bt tok path v md rg gt
  else if String.eqb name "mode" then Build bt tok path url v rg gt
  else if String.eqb name "region" then Build bt tok path url md v gt
  else if String.eqb name "game_type" then Build bt tok path url md rg v
  else self.

Definition is_list (x : value) : bool :=
  match x with PyList _ => true | _ => false end.

(** [self._params()], with [expand] left at [True]. *)
Definition _params (self : t) : list (string * value) :=
  let params :=
    (fun param => (param, getattr self param))
      <$> ["mode"; "region"; "game_type"; "battletag"; "api_token"] in
  let gt := getattr self "game_type" in
  if scalar_eq (PyStr "all") gt then
    dict_set params "game_type" (PyList (PyStr <$> GAME_TYPES.*2))
  else if negb (is_list gt) then
    dict_set params "game_type" (PyList [gt])
  else params.

(** [self.battletag.split('#')[0]]: only a string has [split]. *)
Definition username_of (self : t) : M string :=
  match battletag self with
  | PyStr s => mret (split_hash_0 s)
  | _ => raise AttributeError
  end.

Definition base_file_of (username game_type : string) : string :=
  username +:+ "/base" +:+ "/" +:+ game_type.

Definition adv_file_of (username game_type : string) : string :=
  username +:+ "/advanced" +:+ "/" +:+ game_type.

Section Methods.
Context {codec : JsonCodec}.

(** The body of the loop of [download_base_replays]. *)
Definition base_replays_of (self : t) (params : list (string * value))
    (username game_type : string) : M unit :=
  let base_file := base_file_of username game_type in
  found ← path_exists base_file;
  regular ← isfile base_file;
  (if negb found || negb regular then
     logger (InfoDownloadingBase username game_type);;
     label ← GAME_TYPES_getitem game_type;
     res ← requests_get
             (Request (base_url self) "/Player/Replays"
                (dict_set params "game_type" (PyStr label)));
     py_assert (status_code res =? 200)%Z;;
     open_write base_file;;
     obj ← py_json_loads (body res);
     write base_file (json_dumps obj)
   else mret tt);;
  try_except
    (text ← open_read base_file; py_json_loads text;; mret tt)
    (logger (ErrorNotJson base_file);; raise (SystemExit 1)).

Definition download_base_replays (self : t) : M unit :=
  let params := _params self in
  username ← username_of self;
  makedirs (username +:+ "/base");;
  for_each (base_replays_of self params username) (dict_keys GAME_TYPES).

(** The loop over the replay identifiers of one game type, with the
    dictionary and the counter it updates; [break] returns them as
    they are. *)
Fixpoint fetch_replays (self : t) (params : list (string * value))
    (username game_type : string) (replay_ids : list value)
    (adv_json : value) (replays_cnt : nat) : M (value * nat) :=
  match replay_ids with
  | [] => mret (adv_json, replays_cnt)
  | replay_id :: rest =>
      present ← lift (py_contains adv_json replay_id);
      if present : bool then
        fetch_replays self params username game_type rest
          adv_json replays_cnt
      else
        md ← lift (py_getitem (PyDict params) (PyStr "mode"));
        token ← lift (py_getitem (PyDict params) (PyStr "api_token"));
        res ← requests_get
                (Request (base_url self) "/Replay/Data"
                   [("mode", md); ("api_token", token);
                    ("replayID", replay_id)]);
        if (status_code res =? 200)%Z then
          obj ← py_json_loads (body res);
          v ← lift (py_getitem obj replay_id);
          adv_json' ← lift (py_setitem adv_json replay_id v);
          fetch_replays self params username game_type rest
            adv_json' (S replays_cnt)
        else
          logger (ErrorUnableToDownload replay_id username game_type);;
          logger (ErrorResponse res);;
          mret (adv_json, replays_cnt)
  end.

(** The body of the loop of [download_advanced_replays]; it returns
    [replays_cnt]. *)
Definition advanced_replays_of (self : t) (params : list (string * value))
    (username game_type : string) : M nat :=
  logger (InfoDownloadingAdvanced username game_type);;
  let base_file := base_file_of username game_type in
  let adv_file := adv_file_of username game_type in
  text ← open_append_read adv_file;
  adv_json ← (if String.eqb text "" then mret (PyDict [])
              else py_json_loads text);
  base_text ← open_read base_file;
  open_write adv_file;;
  base_json ← py_json_loads base_text;
  if negb (py_truthy base_json) then
    write adv_file (json_dumps adv_json);;
    logger (InfoNoReplays username game_type);;
    mret 0
  else
    label ← GAME_TYPES_getitem game_type;
    listed ← lift (py_getitem base_json (PyStr label));
    replay_ids ← lift (py_iter listed);
    '(adv_json', replays_cnt) ←
      fetch_replays self params username game_type replay_ids adv_json 0;
    write adv_file (json_dumps adv_json');;
    (if (replays_cnt =? 0)%nat
     then logger (InfoAllDownloaded username game_type)
     else logger (InfoDownloaded replays_cnt));;
    mret replays_cnt.

(** [for x in l: ...], keeping what each round returns. *)
Fixpoint for_each_counting (body : string -> M nat) (l : list string)
  : M (list nat) :=
  match l with
  | [] => mret []
  | x :: l' => n ← body x; ns ← for_each_counting body l'; mret (n :: ns)
  end.

(** It returns the [replays_cnt] of each game type, which the source
    only logs. *)
Definition download_advanced_replays (self : t) : M (list nat) :=
  let params := _params self in
  username ← username_of self;
  makedirs (username +:+ "/advanced");;
  for_each_counting (advanced_replays_of self params username)
    (dict_keys GAME_TYPES).

End Methods.
End BattleTag.

Module BattleTags.
Section Methods.
Context {codec : JsonCodec}.

(** The first [if] of the loop over the properties: the value of the
    general section. *)
Definition set_from_general (config_content : value)
    (tag_obj : BattleTag.t) (ppty : string) : M BattleTag.t :=
  general ← lift (py_get config_content "general" (PyList []));
  in_general ← lift (py_contains general (PyStr ppty));
  if in_general : bool then
    section ← lift (py_getitem config_content (PyStr "general"));
    v ← lift (py_getitem section (PyStr ppty));
    mret (BattleTag.setattr tag_obj ppty v)
  else mret tag_obj.

(** The second [if]: the value of the entry of the identity, looked up
    under the entry itself. *)
Definition set_from_tag (config_content tag : value)
    (tag_obj : BattleTag.t) (ppty : string) : M BattleTag.t :=
  in_tag ← (if BattleTag.is_list tag
            then lift (py_contains tag (PyStr ppty))
            else mret false);
  if in_tag : bool then
    tags ← lift (py_getitem config_content (PyStr "battle_tags"));
    entry ← lift (py_getitem tags tag);
    v ← lift (py_getitem entry (PyStr ppty));
    mret (BattleTag.setattr tag_obj ppty v)
  else mret tag_obj.

(** The third [if]: the credential file is read into the token. *)
Definition read_api_token (tag_obj : BattleTag.t) : M BattleTag.t :=
  regular ← os_path_isfile (BattleTag.api_token_path tag_obj);
  py_assert regular;;
  text ← open_read_at (BattleTag.api_token_path tag_obj);
  mret (BattleTag.setattr tag_obj "api_token" (PyStr (strip text))).

(** One round of the loop over the properties, for the identity
    [tag_obj] made from [tag]. *)
Definition setup_property (config_content tag : value)
    (tag_obj : BattleTag.t) (ppty : string) : M BattleTag.t :=
  tag_obj ← set_from_general config_content tag_obj ppty;
  tag_obj ← set_from_tag config_content tag tag_obj ppty;
  if String.eqb ppty "api_token_path" then read_api_token tag_obj
  else mret tag_obj.

Fixpoint setup_properties (config_content tag : value)
    (tag_obj : BattleTag.t) (ppties : list string) : M BattleTag.t :=
  match ppties with
  | [] => mret tag_obj
  | ppty :: rest =>
      tag_obj' ← setup_property config_content tag tag_obj ppty;
      setup_properties config_content tag tag_obj' rest
  end.

(** The loop over the tags; [battle_tags] is the class attribute, to
    which each identity is appended. *)
Fixpoint setup_tags (config_content : value) (tags : list value)
    (battle_tags : list BattleTag.t) : M (list BattleTag.t) :=
  match tags with
  | [] => mret battle_tags
  | tag :: rest =>
      tag_obj ← setup_properties config_content tag (BattleTag.__init__ tag)
                  ["api_token_path"; "base_url"; "mode"; "region";
                   "game_type"];
      setup_tags config_content rest (battle_tags ++ [tag_obj])
  end.

Definition setup_battle_tags_from_config (config_content : value)
    (battle_tags : list BattleTag.t) : M (list BattleTag.t) :=
  has_general ← lift (py_contains config_content (PyStr "general"));
  py_assert has_general;;
  listed ← lift (py_get config_content "battle_tags" (PyList []));
  tags ← lift (py_iter listed);
  setup_tags config_content tags battle_tags.

(** [BattleTags.download_advanced_replays()], from the configuration
    [read_config] has loaded and an empty [battle_tags]. *)
Definition download_advanced_replays (config_content : value) : M unit :=
  battle_tags ← setup_battle_tags_from_config config_content [];
  for_each
    (fun battle_tag =>
       BattleTag.download_base_replays battle_tag;;
       BattleTag.download_advanced_replays battle_tag;;
       mret tt)
    battle_tags.

End Methods.
End BattleTags.

(** ** A [json] module to run the program with

    The printer writes what [json.dump(..., indent=2)] writes: two spaces
    a level, one item a line, a comma after each item but the last and a
    colon and a space after a key; an empty list or dict stays on one
    line.  The parser reads any layout of white space.  Of the escapes in
    strings it knows the quote, the backslash, and the newline, the tab
    and the carriage return. *)
Module json.

Definition quote_char : ascii := ascii_of_nat 34.
Definition backslash : ascii := ascii_of_nat 92.
Definition newline : ascii := ascii_of_nat 10.
Definition tab : ascii := ascii_of_nat 9.
Definition carriage_return : ascii := ascii_of_nat 13.

Definition escape_char (c : ascii) : string :=
  if Ascii.eqb c quote_char then String backslash (String quote_char "")
  else if Ascii.eqb c backslash then String backslash (String backslash "")
  else if Ascii.eqb c newline then String backslash "n"
  else if Ascii.eqb c tab then String backslash "t"
  else if Ascii.eqb c carriage_return then String backslash "r"
  else String c "".

Fixpoint escape (s : string) : string :=
  match s with
  | EmptyString => ""
  | String c s' => escape_char c +:+ escape s'
  end.

Definition quoted (s : string) : string :=
  String quote_char (escape s +:+ String quote_char "").

Fixpoint print_uint (u : Decimal.uint) : string :=
  match u with
  | Decimal.Nil => ""
  | Decimal.D0 u => String "0" (print_uint u)
  | Decimal.D1 u => String "1" (print_uint u)
  | Decimal.D2 u => String "2" (print_uint u)
  | Decimal.D3 u => String "3" (print_uint u)
  | Decimal.D4 u => String "4" (print_uint u)
  | Decimal.D5 u => String "5" (print_uint u)
  | Decimal.D6 u => String "6" (print_uint u)
  | Decimal.D7 u => String "7" (print_uint u)
  | Decimal.D8 u => String "8" (print_uint u)
  | Decimal.D9 u => String "9" (print_uint u)
  end.

Definition print_int (n : Z) : string :=
  match n with
  | Z0 => "0"
  | Zpos p => print_uint (Pos.to_uint p)
  | Zneg p => String "-" (print_uint (Pos.to_uint p))
  end.

Fixpoint indentation (level : nat) : string :=
  match level with
  | O => ""
  | S level' => "  " +:+ indentation level'
  end.

Definition line (level : nat) : string := String newline (indentation level).

(** A key that is not a string is written as the string of its JSON
    text. *)
Definition key_text (k : key) : string :=
  match k with
  | KStr s => s
  | KInt n => print_int n
  | KBool true => "true"
  | KBool false => "false"
  | KNone => "null"
  end.

Fixpoint print (level : nat) (x : value) : string :=
  match x with
  | PyNone => "null"
  | PyBool true => "true"
  | PyBool false => "false"
  | PyInt n => print_int n
  | PyStr s => quoted s
  | PyList [] => "[]"
  | PyList (x :: l) =>
      "[" +:+ line (S level) +:+ print (S level) x
      +:+ (fix items (l : list value) : string :=
             match l with
             | [] => line level +:+ "]"
             | y :: l' =>
                 "," +:+ line (S level) +:+ print (S level) y +:+ items l'
             end) l
  | PyDict [] => "{}"
  | PyDict ((k, v) :: d) =>
      "{" +:+ line (S level) +:+ quoted k +:+ ": " +:+ print (S level) v
      +:+ (fix members (d : list (string * value)) : string :=
             match d with
             | [] => line level +:+ "}"
             | (k', v') :: d' =>
                 "," +:+ line (S level) +:+ quoted k' +:+ ": "
                 +:+ print (S level) v' +:+ members d'
             end) d
  | PyKeyed [] => "{}"
  | PyKeyed ((k, v) :: items) =>
      "{" +:+ line (S level) +:+ quoted (key_text k) +:+ ": "
      +:+ print (S level) v
      +:+ (fix members (items : list (key * value)) : string :=
             match items with
             | [] => line level +:+ "}"
             | (k', v') :: items' =>
                 "," +:+ line (S level) +:+ quoted (key_text k') +:+ ": "
                 +:+ print (S level) v' +:+ members items'
             end) items
  end.

Definition dumps (x : value) : string := print 0 x.

Definition is_blank (c : ascii) : bool :=
  Ascii.eqb c " " || Ascii.eqb c newline || Ascii.eqb c tab
  || Ascii.eqb c carriage_return.

Fixpoint skip_blanks (s : string) : string :=
  match s with
  | EmptyString => ""
  | String c s' => if is_blank c then skip_blanks s' else s
  end.

Definition unescape_char (c : ascii) : option ascii :=
  if Ascii.eqb c quote_char then Some quote_char
  else if Ascii.eqb c backslash then Some backslash
  else if Ascii.eqb c "n" then Some newline
  else if Ascii.eqb c "t" then Some tab
  else if Ascii.eqb c "r" then Some carriage_return
  else None.

(** What follows an opening quote: the string, and the text after its
    closing quote. *)
Fixpoint read_string (s : string) : option (string * string) :=
  match s with
  | EmptyString => None
  | String c s' =>
      if Ascii.eqb c quote_char then Some ("", s')
      else if Ascii.eqb c backslash then
        match s' with
        | EmptyString => None
        | String e s'' =>
            match unescape_char e, read_string s'' with
            | Some c', Some (str, rest) => Some (String c' str, rest)
            | _, _ => None
            end
        end
      else
        match read_string s' with
        | Some (str, rest) => Some (String c str, rest)
        | None => None
        end
  end.

Definition digit_of (c : ascii) : option (Decimal.uint -> Decimal.uint) :=
  if Ascii.eqb c "0" then Some Decimal.D0
  else if Ascii.eqb c "1" then Some Decimal.D1
  else if Ascii.eqb c "2" then Some Decimal.D2
  else if Ascii.eqb c "3" then Some Decimal.D3
  else if Ascii.eqb c "4" then Some Decimal.D4
  else if Ascii.eqb c "5" then Some Decimal.D5
  else if Ascii.eqb c "6" then Some Decimal.D6
  else if Ascii.eqb c "7" then Some Decimal.D7
  else if Ascii.eqb c "8" then Some Decimal.D8
  else if Ascii.eqb c "9" then Some Decimal.D9
  else None.

(** The digits a text starts with, and the text after them. *)
Fixpoint read_uint (s : string) : Decimal.uint * string :=
  match s with
  | EmptyString => (Decimal.Nil, "")
  | String c s' =>
      match digit_of c with
      | Some d => let '(u, rest) := read_uint s' in (d u, rest)
      | None => (Decimal.Nil, s)
      end
  end.

Definition read_natural (s : string) : option (Z * string) :=
  match read_uint s with
  | (Decimal.Nil, _) => None
  | (u, rest) => Some (Z.of_N (Pos.of_uint u), rest)
  end.

(** [s] minus the [word] it starts with. *)
Fixpoint after (word s : string) : option string :=
  match word, s with
  | EmptyString, _ => Some s
  | String a word', String b s' =>
      if Ascii.eqb a b then after word' s' else None
  | _, _ => None
  end.

(** A value at the head of [s], blanks before it skipped, and the text
    after it.  [fuel] bounds the number of values and items read. *)
Fixpoint read_value (fuel : nat) (s : string) : option (value * string) :=
  match fuel with
  | O => None
  | S fuel' =>
      match skip_blanks s with
      | EmptyString => None
      | String c s' =>
          if Ascii.eqb c "n" then
            rest ← after "ull" s'; Some (PyNone, rest)
          else if Ascii.eqb c "t" then
            rest ← after "rue" s'; Some (PyBool true, rest)
          else if Ascii.eqb c "f" then
            rest ← after "alse" s'; Some (PyBool false, rest)
          else if Ascii.eqb c quote_char then
            '(str, rest) ← read_string s'; Some (PyStr str, rest)
          else if Ascii.eqb c "[" then
            match after "]" (skip_blanks s') with
            | Some rest => Some (PyList [], rest)
            | None => '(l, rest) ← read_items fuel' s'; Some (PyList l, rest)
            end
          else if Ascii.eqb c "{" then
            match after "}" (skip_blanks s') with
            | Some rest => Some (PyDict [], rest)
            | None => '(d, rest) ← read_members fuel' s'; Some (PyDict d, rest)
            end
          else if Ascii.eqb c "-" then
            '(n, rest) ← read_natural s'; Some (PyInt (- n), rest)
          else
            '(n, rest) ← read_natural (String c s'); Some (PyInt n, rest)
      end
  end
with read_items (fuel : nat) (s : string) : option (list value * string) :=
  match fuel with
  | O => None
  | S fuel' =>
      '(x, s1) ← read_value fuel' s;
      match skip_blanks s1 with
      | String c s2 =>
          if Ascii.eqb c "," then
            '(l, rest) ← read_items fuel' s2; Some (x :: l, rest)
          else if Ascii.eqb c "]" then Some ([x], s2)
          else None
      | EmptyString => None
      end
  end
with read_members (fuel : nat) (s : string)
  : option (list (string * value) * string) :=
  match fuel with
  | O => None
  | S fuel' =>
      match skip_blanks s with
      | String q s1 =>
          if Ascii.eqb q quote_char then
            '(k, s2) ← read_string s1;
            match skip_blanks s2 with
            | String colon s3 =>
                if Ascii.eqb colon ":" then
                  '(v, s4) ← read_value fuel' s3;
                  match skip_blanks s4 with
                  | String c s5 =>
                      if Ascii.eqb c "," then
                        '(d, rest) ← read_members fuel' s5;
                        Some ((k, v) :: d, rest)
                      else if Ascii.eqb c "}" then Some ([(k, v)], s5)
                      else None
                  | EmptyString => None
                  end
                else None
            | EmptyString => None
            end
          else None
      | EmptyString => None
      end
  end.

(** A dict as Python builds it from the members read: a key that comes
    again replaces the value and keeps the place.  Every key is read as
    the string that was written for it. *)
Fixpoint as_built (x : value) : value :=
  match x with
  | PyList l => PyList (as_built <$> l)
  | PyDict d =>
      PyDict (fold_left (fun acc kv => dict_set acc kv.1 (as_built kv.2)) d [])
  | PyKeyed items =>
      PyDict (fold_left
                (fun acc kv => dict_set acc (key_text kv.1) (as_built kv.2))
                items [])
  | _ => x
  end.

Definition loads (s : string) : option value :=
  match read_value (S (String.length s)) s with
  | Some (x, rest) =>
      match skip_blanks rest with
      | EmptyString => Some (as_built x)
      | _ => None
      end
  | None => None
  end.

End json.

Definition python_json : JsonCodec :=
  {| json_dumps := json.dumps; json_loads := json.loads |}.

(** * Vocabulary of the statements *)

(** The request log only grows: [w'] has the requests of [w] and then
    [news], and the same remote. *)
Definition sends (w w' : world) (news : list (request * reply)) : Prop :=
  sent w' = sent w ++ news /\ remote w' = remote w.

(** The request of [download_base_replays] for one game type. *)
Definition listing_request (self : BattleTag.t) (params : list (string * value))
    (label : string) : request :=
  Request (BattleTag.base_url self) "/Player/Replays"
    (dict_set params "game_type" (PyStr label)).


Fixpoint has_slash (s : string) : bool :=
  match s with
  | EmptyString => false
  | String c s' => Ascii.eqb c "/" || has_slash s'
  end.

(** What stands after the last slash, and what stands before it. *)
Fixpoint basename (s : string) : string :=
  match s with
  | EmptyString => EmptyString
  | String c s' =>
      if has_slash s' then basename s'
      else if Ascii.eqb c "/" then s' else s
  end.

Fixpoint dirname (s : string) : string :=
  match s with
  | EmptyString => EmptyString
  | String c s' =>
      if has_slash s' then String c (dirname s') else EmptyString
  end.


(** The request of [download_advanced_replays] for one replay. *)
Definition detail_request (self : BattleTag.t) (md token replay_id : value)
  : request :=
  Request (BattleTag.base_url self) "/Replay/Data"
    [("mode", md); ("api_token", token); ("replayID", replay_id)].

(** The Advanced Record Set a cache file holds, as the first step of a
    round loads it: an empty dict when the file is missing or empty. *)
Definition cached_records {codec : JsonCodec} (w : world) (adv_file : string)
  : option value :=
  match fs w !! adv_file with
  | None => Some (PyDict [])
  | Some (NFile text) =>
      if String.eqb text "" then Some (PyDict []) else json_loads text
  | Some NDir => None
  end.

(** The world with one more request answered. *)
Definition answered (w : world) (rq : request) : world :=
  World (fs w) (remote w)
    (sent w ++ [(rq, remote w (length (sent w)) rq)]) (logged w).

(** The world with more lines in the log. *)
Definition logging (w : world) (lines : list log_record) : world :=
  World (fs w) (remote w) (sent w) (logged w ++ lines).

(** The world with [text] in the file [p]. *)
Definition holding (w : world) (p text : string) : world :=
  World (<[p := NFile text]> (fs w)) (remote w) (sent w) (logged w).



(** A request that was answered with another status than 200. *)
Definition refused (answer : request * reply) : bool :=
  match answer.2 with
  | Response c _ => negb (c =? 200)%Z
  | Failed => false
  end.



(** A status of the 2xx class. *)
Definition is_2xx (c : Z) : bool := (200 <=? c)%Z && (c <? 300)%Z.


(** The full fetch of one identity, Phase 1 and then Phase 2, as the
    loop of [BattleTags.download_advanced_replays] runs it; it returns the
    fetched-counts of Phase 2. *)
Definition fetch_identity {codec : JsonCodec} (battle_tag : BattleTag.t)
  : M (list nat) :=
  BattleTag.download_base_replays battle_tag;;
  BattleTag.download_advanced_replays battle_tag.



(** [replay_id] is in the identifier list the Base Listing [base_json]
    has under [label]. *)
Definition listed_in (base_json : value) (label replay_id : string) : Prop :=
  exists listed replay_ids,
    py_getitem base_json (PyStr label) = Ok listed
    /\ py_iter listed = Ok replay_ids
    /\ PyStr replay_id ∈ replay_ids.

(** The subset invariant on the files of the cache: every key of a
    persisted Advanced Record Set is in the identifier list of the Base
    Listing of the same identity and game type. *)
Definition subset_invariant {codec : JsonCodec} (files : gmap string node)
  : Prop :=
  forall username game_type label text d replay_id,
    dict_get GAME_TYPES game_type = Some label ->
    files !! BattleTag.adv_file_of username game_type = Some (NFile text) ->
    json_loads text = Some (PyDict d) ->
    replay_id ∈ dict_keys d ->
    exists base_text base_json,
      files !! BattleTag.base_file_of username game_type
      = Some (NFile base_text)
      /\ json_loads base_text = Some base_json
      /\ listed_in base_json label replay_id.

(** No cache file is there. *)
Definition no_cache (files : gmap string node) : Prop :=
  forall username game_type,
    game_type ∈ dict_keys GAME_TYPES ->
    files !! BattleTag.base_file_of username game_type = None
    /\ files !! BattleTag.adv_file_of username game_type = None.

(** The files any sequence of runs can leave, starting without cache
    files.  A run is set-up, which writes no file, and then the full
    fetch of one identity after the other; so a step is the full fetch of
    one identity: any identity, in any world that has the files reached
    so far (any remote, any requests sent and lines logged before it),
    and however the fetch ends. *)
Inductive reachable {codec : JsonCodec} : gmap string node -> Prop :=
| reachable_start files :
    no_cache files -> reachable files
| reachable_fetch w battle_tag r w' :
    reachable (fs w) ->
    fetch_identity battle_tag w = (r, w') ->
    reachable (fs w').

Definition is_str (x : value) : bool :=
  match x with PyStr _ => true | _ => false end.

(** The replay identifiers the listing of [username] and [game_type]
    has under [label] are all strings, as far as the listing is there
    and names any. *)
Definition lists_strings {codec : JsonCodec} (files : gmap string node)
    (username game_type label : string) : Prop :=
  forall base_text base_json listed replay_ids,
    files !! BattleTag.base_file_of username game_type
    = Some (NFile base_text) ->
    json_loads base_text = Some base_json ->
    py_getitem base_json (PyStr label) = Ok listed ->
    py_iter listed = Ok replay_ids ->
    forallb is_str replay_ids = true.

(** [lists_strings], computed. *)
Definition strings_listed {codec : JsonCodec} (files : gmap string node)
    (username game_type label : string) : bool :=
  match files !! BattleTag.base_file_of username game_type with
  | Some (NFile base_text) =>
      match json_loads base_text with
      | Some base_json =>
          match py_getitem base_json (PyStr label) with
          | Ok listed =>
              match py_iter listed with
              | Ok replay_ids => forallb is_str replay_ids
              | Raise _ => true
              end
          | Raise _ => true
          end
      | None => true
      end
  | _ => true
  end.

(** The subset invariant, for the listings whose identifiers are
    strings. *)
Definition subset_invariant_of_strings {codec : JsonCodec}
    (files : gmap string node) : Prop :=
  forall username game_type label text d replay_id,
    dict_get GAME_TYPES game_type = Some label ->
    lists_strings files username game_type label ->
    files !! BattleTag.adv_file_of username game_type = Some (NFile text) ->
    json_loads text = Some (PyDict d) ->
    replay_id ∈ dict_keys d ->
    exists base_text base_json,
      files !! BattleTag.base_file_of username game_type
      = Some (NFile base_text)
      /\ json_loads base_text = Some base_json
      /\ listed_in base_json label replay_id.

(** What the files of one identity and game type look like in a cache
    the program has made: the listing is missing, empty, or a dumped
    value; the advanced file is missing, empty, or a dumped dict whose
    keys are listed, unless the listing names an identifier that is not
    a string. *)
Definition base_ok {codec : JsonCodec} (files : gmap string node)
    (username game_type : string) : Prop :=
  files !! BattleTag.base_file_of username game_type = None
  \/ files !! BattleTag.base_file_of username game_type = Some (NFile "")
  \/ exists base_json,
       well_keyed base_json = true
       /\ files !! BattleTag.base_file_of username game_type
          = Some (NFile (json_dumps base_json)).

Definition adv_ok {codec : JsonCodec} (files : gmap string node)
    (username game_type label : string) : Prop :=
  files !! BattleTag.adv_file_of username game_type = None
  \/ files !! BattleTag.adv_file_of username game_type = Some (NFile "")
  \/ exists d,
       well_keyed (PyDict d) = true
       /\ files !! BattleTag.adv_file_of username game_type
          = Some (NFile (json_dumps (PyDict d)))
       /\ forall replay_id, replay_id ∈ dict_keys d ->
            exists base_json,
              well_keyed base_json = true
              /\ files !! BattleTag.base_file_of username game_type
                 = Some (NFile (json_dumps base_json))
              /\ listed_in base_json label replay_id.

(** The listing is a dumped value that names, under [label], an
    identifier that is not a string. *)
Definition lists_other {codec : JsonCodec} (files : gmap string node)
    (username game_type label : string) : Prop :=
  exists base_json listed replay_ids,
    well_keyed base_json = true
    /\ files !! BattleTag.base_file_of username game_type
       = Some (NFile (json_dumps base_json))
    /\ py_getitem base_json (PyStr label) = Ok listed
    /\ py_iter listed = Ok replay_ids
    /\ forallb is_str replay_ids = false.

Definition cache_ok {codec : JsonCodec} (files : gmap string node) : Prop :=
  forall username game_type label,
    dict_get GAME_TYPES game_type = Some label ->
    base_ok files username game_type
    /\ (adv_ok files username game_type label
        \/ lists_other files username game_type label).

(** A remote that answers a request the same way each time. *)
Definition stateless (w : world) : Prop :=
  forall n m rq, remote w n rq = remote w m rq.

(** What the general section gives to an attribute, if anything. *)
Definition general_value (config_content : value) (ppty : string)
    (v : value) : Prop :=
  exists section,
    py_getitem config_content (PyStr "general") = Ok section
    /\ py_getitem section (PyStr ppty) = Ok v.

(** An identity whose token is the trimmed text of the file at its
    [api_token_path], which is the path of the general section. *)
Definition credential_read (config_content : value) (w : world)
    (tag_obj : BattleTag.t) : Prop :=
  exists path text,
    general_value config_content "api_token_path" (PyStr path)
    /\ BattleTag.api_token_path tag_obj = PyStr path
    /\ fs w !! path = Some (NFile text)
    /\ BattleTag.api_token tag_obj = PyStr (strip text).

(** A computation that leaves the world as it found it, however it
    ends. *)
Definition reads_only {A} (m : M A) : Prop :=
  forall w r w', m w = (r, w') -> w' = w.

(** ** What the printer writes, by parts *)

(** The items of a list after the first, and the closing bracket. *)
Definition print_items (level : nat) : list value -> string :=
  fix items (l : list value) : string :=
    match l with
    | [] => json.line level +:+ "]"
    | y :: l' =>
        "," +:+ json.line (S level) +:+ json.print (S level) y +:+ items l'
    end.

(** The members of a dict after the first, and the closing brace. *)
Definition print_members (level : nat) : list (string * value) -> string :=
  fix members (d : list (string * value)) : string :=
    match d with
    | [] => json.line level +:+ "}"
    | (k', v') :: d' =>
        "," +:+ json.line (S level) +:+ json.quoted k' +:+ ": "
        +:+ json.print (S level) v' +:+ members d'
    end.

(** The fuel that reading a value back takes. *)
Fixpoint weight (x : value) : nat :=
  match x with
  | PyList l => S (sum_list ((fun y => S (weight y)) <$> l))
  | PyDict d => S (sum_list ((fun kv => S (weight kv.2)) <$> d))
  | _ => 1
  end.

(** A text before which a number ends: it does not start with a
    digit. *)
Definition ends_number (rest : string) : Prop :=
  json.read_uint rest = (Decimal.Nil, rest).

(** A value that the parser reads back from what the printer writes,
    whatever follows. *)
Definition reads_back (x : value) : Prop :=
  forall level fuel rest,
    weight x <= fuel -> ends_number rest ->
    json.read_value fuel (json.print level x +:+ rest) = Some (x, rest).

(** ** What set-up makes *)

(** What the general section holds under [ppty], if it is a mapping
    that has it. *)
Definition general_lookup (config_content : value) (ppty : string)
  : option value :=
  match py_getitem config_content (PyStr "general") with
  | Ok section =>
      match py_getitem section (PyStr ppty) with
      | Ok v => Some v
      | Raise _ => None
      end
  | Raise _ => None
  end.

(** The option of the general section, [None] when it is not given. *)
Definition general_option (config_content : value) (ppty : string) : value :=
  from_option id PyNone (general_lookup config_content ppty).

(** The identity of the entry [tag], with the options of the general
    section and the credential read from [path]. *)
Definition resolved (config_content token path tag : value) : BattleTag.t :=
  BattleTag.Build tag token path
    (general_option config_content "base_url")
    (general_option config_content "mode")
    (general_option config_content "region")
    (general_option config_content "game_type").

(** ** A cache that is complete *)

(** For every game type the listing of [username] parses and is empty,
    or every identifier it lists is a key of the advanced file. *)
Definition complete {codec : JsonCodec} (files : gmap string node)
    (username : string) : Prop :=
  forall game_type label,
    dict_get GAME_TYPES game_type = Some label ->
    exists base_text base_json d,
      files !! BattleTag.base_file_of username game_type
      = Some (NFile base_text)
      /\ json_loads base_text = Some base_json
      /\ files !! BattleTag.adv_file_of username game_type
         = Some (NFile (json_dumps (PyDict d)))
      /\ well_keyed (PyDict d) = true
      /\ (py_truthy base_json = false
          \/ exists listed replay_ids,
               py_getitem base_json (PyStr label) = Ok listed
               /\ py_iter listed = Ok replay_ids
               /\ forall x, x ∈ replay_ids ->
                    py_contains (PyDict d) x = Ok true).

(** ** Computations the development follows to their end *)

(** A computation that never ends with [Unmodelled]. *)
Definition modelled {A} (m : M A) : Prop :=
  forall w r w', m w = (r, w') -> r <> Raise Unmodelled.
(** * Worlds to run the program in *)

(** An identity as the set-up leaves it. *)
Definition foo : BattleTag.t :=
  BattleTag.Build (PyStr "Foo#1234") (PyStr "secret") (PyStr "/a")
    (PyStr "https://api.example") (PyStr "json") (PyStr "1") (PyStr "all").

(** A remote that refuses every request. *)
Definition remote_down : nat -> request -> reply :=
  fun _ _ => Response 500 "".

(** A cache in which the quick-match listing exists and is empty. *)
Definition world_empty_listing : world :=
  World {["Foo/base/qm" := NFile ""]} remote_down [] [].

(** A listing of replays under the label of a game type. *)
Definition listing_of (label : string) (replay_ids : list string) : value :=
  PyDict [(label, PyList (PyStr <$> replay_ids))].

(** The record of a replay, and the body of the answer that carries it. *)
Definition record_of (replay_id : string) : value :=
  PyDict [("game_map", PyStr "Sky Temple"); ("replay", PyStr replay_id)].

Definition detail_body (replay_id : string) : string :=
  json.dumps (PyDict [(replay_id, record_of replay_id)]).

(** A remote whose [n]-th answer has the status [status n]; it answers a
    detail request with the record asked for and a listing request with a
    listing of three replays. *)
Definition remote_with (status : nat -> Z) : nat -> request -> reply :=
  fun n rq =>
    match dict_get (req_params rq) "replayID",
          dict_get (req_params rq) "game_type" with
    | Some (PyStr x), _ => Response (status n) (detail_body x)
    | _, Some (PyStr label) =>
        Response (status n) (json.dumps (listing_of label ["r1"; "r2"; "r3"]))
    | _, _ => Failed
    end.

(** The quick-match listing of three replays is in the cache, no record
    is; the remote answers the first request with [first] and every later
    one with 500. *)
Definition world_one_then_down (first : Z) : world :=
  World
    {["Foo/base/qm" :=
        NFile (json.dumps (listing_of "Quick Match" ["r1"; "r2"; "r3"]))]}
    (remote_with (fun n => if (n <? 1)%nat then first else 500%Z)) [] [].

(** One record is in the cache, and the listing of the game type has
    another label than that of the game type. *)
Definition world_other_label : world :=
  World
    {["Foo/base/qm" := NFile (json.dumps (listing_of "Storm League" ["r2"]));
      "Foo/advanced/qm" :=
        NFile (json.dumps (PyDict [("r1", record_of "r1")]))]}
    remote_down [] [].

(** One record of three is in the cache, and the remote cannot be
    reached. *)
Definition world_unreachable : world :=
  World
    {["Foo/base/qm" :=
        NFile (json.dumps (listing_of "Quick Match" ["r1"; "r2"; "r3"]));
      "Foo/advanced/qm" :=
        NFile (json.dumps (PyDict [("r1", record_of "r1")]))]}
    (fun _ _ => Failed) [] [].

(** Nothing is in the cache, and every answer has the status [status]. *)
Definition world_fresh (status : Z) : world :=
  World ∅ (remote_with (fun _ => status)) [] [].

(** The general section of a configuration. *)
Definition config_general : value :=
  PyDict [("api_token_path", PyStr "/a");
          ("base_url", PyStr "https://api.example");
          ("mode", PyStr "json"); ("region", PyStr "1");
          ("game_type", PyStr "all")].

(** Two identities that inherit the general options. *)
Definition config_plain : value :=
  PyDict [("general", config_general);
          ("battle_tags", PyList [PyStr "Foo#1234"; PyStr "Bar#5678"])].

(** No [battle_tags] at all. *)
Definition config_without_tags : value :=
  PyDict [("general", config_general)].

(** An identity with an override block, [battle_tags] being a mapping
    from the handle to the block. *)
Definition config_override_mapping : value :=
  PyDict [("general", config_general);
          ("battle_tags",
           PyDict [("Foo#1234", PyDict [("api_token_path", PyStr "/b")])])].

(** The same, [battle_tags] being a sequence of one-key mappings. *)
Definition config_override_sequence : value :=
  PyDict [("general", config_general);
          ("battle_tags",
           PyList [PyDict [("Foo#1234",
                            PyDict [("api_token_path", PyStr "/b")])]])].

(** An identity written as a list that names the property. *)
Definition config_override_list : value :=
  PyDict [("general", config_general);
          ("battle_tags",
           PyList [PyList [PyStr "Foo#1234"; PyStr "api_token_path"]])].

(** Two credential files, each ending in a newline. *)
Definition world_credentials : world :=
  World {["/a" := NFile (String.append "token-a" (String json.newline ""));
          "/b" := NFile (String.append "token-b" (String json.newline ""))]}
    remote_down [] [].

(** A credential file of blanks. *)
Definition world_blank_credential : world :=
  World {["/a" := NFile (String " " (String json.tab (String json.newline "")))]}
    remote_down [] [].

(** The identity of [Foo#1234] with the general options and the token
    of the file ["/a"]. *)
Definition foo_from_general (tag token : value) : BattleTag.t :=
  BattleTag.Build tag token (PyStr "/a") (PyStr "https://api.example")
    (PyStr "json") (PyStr "1") (PyStr "all").

(** A remote that serves the listings and refuses every detail
    request. *)
Definition remote_details_down : nat -> request -> reply :=
  fun n rq =>
    match dict_get (req_params rq) "replayID" with
    | Some _ => Response 500 ""
    | None => remote_with (fun _ => 200%Z) n rq
    end.

(** A new run over the files of [w]: nothing sent or logged yet. *)
Definition restarted (w : world) : world := World (fs w) (remote w) [] [].

(** The world after the first full fetch of [foo] from an empty cache,
    with a remote that serves everything. *)
Definition after_first_fetch : world :=
  (fetch_identity (codec := python_json) foo (world_fresh 200)).2.

(** The same with a remote that refuses the detail requests. *)
Definition after_refused_fetch : world :=
  (fetch_identity (codec := python_json) foo
     (World ∅ remote_details_down [] [])).2.


(** The world after a run for the two identities of [config_plain],
    started with the credential files only: the remote serves the four
    listings and two records of [Foo], and refuses everything after
    that. *)
Definition after_partial_run : world :=
  (BattleTags.download_advanced_replays (codec := python_json) config_plain
     (World (fs world_credentials)
        (remote_with (fun n => if (n <? 6)%nat then 200%Z else 500%Z))
        [] [])).2.

(** One record of three is in the cache, and the remote answers every
    request with the status [status] and an object without members. *)
Definition world_without_record (status : Z) : world :=
  World (fs world_unreachable)
    (fun _ _ => Response status (json.dumps (PyDict []))) [] [].

(** Nothing is in the cache, and the remote answers every request with
    status 200 and a page that is not JSON. *)
Definition world_html_answers : world :=
  World ∅ (fun _ _ => Response 200 "<html>") [] [].

(** The quick-match listing is in the cache, and the storm-league file
    holds a text that is not JSON. *)
Definition world_unparsed_listing : world :=
  World
    {["Foo/base/qm" :=
        NFile (json.dumps (listing_of "Quick Match" ["r1"]));
      "Foo/base/sl" := NFile "oops"]}
    (remote_with (fun _ => 200%Z)) [] [].

(** One record is in the advanced file, and there is no listing. *)
Definition world_records_without_listing : world :=
  World
    {["Foo/advanced/qm" :=
        NFile (json.dumps (PyDict [("r1", record_of "r1")]))]}
    remote_down [] [].

(** The advanced file holds a text that is not JSON, beside the
    listing. *)
Definition world_unparsed_records : world :=
  World
    {["Foo/base/qm" :=
        NFile (json.dumps (listing_of "Quick Match" ["r1"; "r2"; "r3"]));
      "Foo/advanced/qm" := NFile "oops"]}
    (remote_with (fun _ => 200%Z)) [] [].

(** A general section that names no credential file. *)
Definition config_without_credential : value :=
  PyDict [("general", PyDict [("base_url", PyStr "https://api.example")]);
          ("battle_tags", PyList [PyStr "Foo#1234"])].

(** Another player with the same name before the ['#'], with a token
    and an address of their own. *)
Definition foo_namesake : BattleTag.t :=
  BattleTag.Build (PyStr "Foo#9999") (PyStr "other-secret") (PyStr "/b")
    (PyStr "https://other.example") (PyStr "json") (PyStr "2") (PyStr "all").

(** The quick-match listing is in the cache, and the remote serves
    every request. *)
Definition world_one_listing : world :=
  World (fs (world_one_then_down 200)) (remote_with (fun _ => 200%Z)) [] [].

(** A remote whose listings name one replay by the number [0] and whose
    details are arrays, the record being the item [0] of the array. *)
Definition remote_numbered : nat -> request -> reply :=
  fun _ rq =>
    match dict_get (req_params rq) "replayID",
          dict_get (req_params rq) "game_type" with
    | Some _, _ => Response 200 (json.dumps (PyList [PyStr "rec"]))
    | _, Some (PyStr label) =>
        Response 200 (json.dumps (PyDict [(label, PyList [PyInt 0])]))
    | _, _ => Failed
    end.

(** The world after the first full fetch of [foo] from an empty cache
    with that remote. *)
Definition after_numbered_fetch : world :=
  (fetch_identity (codec := python_json) foo
     (World ∅ remote_numbered [] [])).2.



(** A run with the two identities of [config_plain], started with the
    credential files only, with the remote [remote_numbered]. *)
Definition after_numbered_run : world :=
  (BattleTags.download_advanced_replays (codec := python_json) config_plain
     (World (fs world_credentials) remote_numbered [] [])).2.

(** The quick-match listing is in the cache and names no replay. *)
Definition world_nothing_listed : world :=
  World {["Foo/base/qm" := NFile (json.dumps (listing_of "Quick Match" []))]}
    remote_down [] [].
(** * Properties *)

(** ** Running the monad *)

Lemma bind_run {A B} (m : M A) (k : A -> M B) (w : world) :
  (m ≫= k) w =
  match m w with
  | (Ok a, w') => k a w'
  | (Raise e, w') => (Raise e, w')
  end.
Proof. reflexivity. Qed.

Lemma sends_refl w : sends w w [].
Proof. split; [by rewrite app_nil_r | done]. Qed.

Lemma sends_trans w1 w2 w3 l1 l2 :
  sends w1 w2 l1 -> sends w2 w3 l2 -> sends w1 w3 (l1 ++ l2).
Proof.
  intros [H1 R1] [H2 R2]. split; [|congruence].
  by rewrite H2, H1, app_assoc.
Qed.

Ltac unfold_run :=
  unfold path_exists, isfile, try_except, open_read, open_write,
    open_append_read, write, py_json_loads, GAME_TYPES_getitem, requests_get,
    py_assert, logger, makedirs, lift, raise, set_fs,
    mbind, M_bind, mret, M_ret in *.

Ltac no_sends := split; simpl; [by rewrite ?app_nil_r | done].

(** ** Dictionaries *)

Lemma dict_get_elem_of {V} (d : list (string * V)) k v :
  dict_get d k = Some v -> (k, v) ∈ d.
Proof.
  induction d as [|[k' v'] d IH]; simpl; [done|].
  destruct (String.eqb_spec k' k) as [->|Hne].
  - intros [= ->]. apply list_elem_of_here.
  - intros Hd. apply list_elem_of_further. auto.
Qed.

Lemma dict_has_get {V} (d : list (string * V)) k :
  dict_has d k = match dict_get d k with Some _ => true | None => false end.
Proof.
  induction d as [|[k' v'] d IH]; simpl; [done|].
  by destruct (String.eqb k' k).
Qed.

Lemma dict_has_keys {V} (d : list (string * V)) k :
  dict_has d k = true <-> k ∈ dict_keys d.
Proof.
  unfold dict_keys. induction d as [|[k' v'] d IH]; simpl.
  - split; [done|]. by intros ?%elem_of_nil.
  - rewrite elem_of_cons. destruct (String.eqb_spec k' k) as [->|Hne].
    + split; auto.
    + rewrite IH. split; [auto|]. by intros [->|?].
Qed.

Lemma dict_get_set_eq {V} (d : list (string * V)) k v :
  dict_get (dict_set d k v) k = Some v.
Proof.
  induction d as [|[k' v'] d IH]; simpl.
  - by rewrite String.eqb_refl.
  - destruct (String.eqb k' k) eqn:Hk; simpl; by rewrite Hk.
Qed.

Lemma dict_get_set_ne {V} (d : list (string * V)) k k' v :
  k <> k' -> dict_get (dict_set d k v) k' = dict_get d k'.
Proof.
  intros Hne. induction d as [|[k0 v0] d IH]; simpl.
  - by destruct (String.eqb_spec k k').
  - destruct (String.eqb_spec k0 k) as [->|Hk]; simpl.
    + by destruct (String.eqb_spec k k').
    + by rewrite IH.
Qed.

Lemma dict_has_set {V} (d : list (string * V)) k k' v :
  dict_has (dict_set d k v) k' = String.eqb k k' || dict_has d k'.
Proof.
  induction d as [|[k0 v0] d IH]; simpl.
  - by destruct (String.eqb k k').
  - destruct (String.eqb_spec k0 k) as [->|Hk]; simpl.
    + by destruct (String.eqb k k').
    + rewrite IH. destruct (String.eqb k0 k'); [by rewrite orb_true_r|done].
Qed.

Lemma dict_set_fresh {V} (d : list (string * V)) k v :
  dict_has d k = false -> dict_set d k v = d ++ [(k, v)].
Proof.
  induction d as [|[k0 v0] d IH]; simpl; [done|].
  destruct (String.eqb k0 k); [done|]. intros Hd. by rewrite IH.
Qed.

Lemma dict_has_app {V} (d d' : list (string * V)) k :
  dict_has (d ++ d') k = dict_has d k || dict_has d' k.
Proof.
  induction d as [|[k0 v0] d IH]; simpl; [done|].
  by destruct (String.eqb k0 k).
Qed.

(** ** Keys of any kind *)

Lemma key_eqb_refl k : key_eqb k k = true.
Proof.
  destruct k as [s|n|b|]; simpl; [apply String.eqb_refl|apply Z.eqb_refl| |done].
  by destruct b.
Qed.

Lemma keyed_has_get {V} (items : list (key * V)) k :
  keyed_has items k
  = match keyed_get items k with Some _ => true | None => false end.
Proof.
  induction items as [|[k' v'] items IH]; simpl; [done|].
  by destruct (key_eqb k' k).
Qed.

Lemma keyed_has_app {V} (items items' : list (key * V)) k :
  keyed_has (items ++ items') k = keyed_has items k || keyed_has items' k.
Proof.
  induction items as [|[k0 v0] items IH]; simpl; [done|].
  by destruct (key_eqb k0 k).
Qed.

Lemma keyed_has_of {V} (d : list (string * V)) k :
  keyed_has (keyed_of d) k
  = match k with KStr s => dict_has d s | _ => false end.
Proof.
  unfold keyed_of. induction d as [|[k0 v0] d IH]; [by destruct k|].
  rewrite fmap_cons. cbn [keyed_has fst snd]. rewrite IH. by destruct k.
Qed.

Lemma keyed_has_set_keeps {V} (items : list (key * V)) k v k' :
  keyed_has items k' = true -> keyed_has (keyed_set items k v) k' = true.
Proof.
  induction items as [|[k0 v0] items IH]; simpl; [done|].
  destruct (key_eqb k0 k); simpl; [done|].
  destruct (key_eqb k0 k'); auto.
Qed.

Lemma keyed_has_set_self {V} (items : list (key * V)) k v :
  keyed_has (keyed_set items k v) k = true.
Proof.
  induction items as [|[k0 v0] items IH]; simpl.
  - by rewrite key_eqb_refl.
  - destruct (key_eqb k0 k) eqn:Hk; simpl; by rewrite Hk.
Qed.

(** ** Dicts that are given an item *)

Definition is_dict (x : value) : bool :=
  match x with PyDict _ | PyKeyed _ => true | _ => false end.

Lemma py_setitem_is_dict adv_json replay_id v adv_json' :
  is_dict adv_json = true ->
  py_setitem adv_json replay_id v = Ok adv_json' ->
  is_dict adv_json' = true.
Proof.
  destruct adv_json; try done; intros _;
    destruct replay_id; simpl; try done; by intros [= <-].
Qed.

(** Only a dict takes an item under a string. *)
Lemma py_setitem_str_is_dict adv_json key v adv_json' :
  py_setitem adv_json (PyStr key) v = Ok adv_json' ->
  is_dict adv_json = true.
Proof. by destruct adv_json. Qed.

(** A dict that has been given an item still has what it had. *)
Lemma py_contains_setitem adv_json replay_id v adv_json' x b :
  is_dict adv_json = true ->
  py_setitem adv_json replay_id v = Ok adv_json' ->
  py_contains adv_json x = Ok b ->
  exists b', py_contains adv_json' x = Ok b' /\ (b = true -> b' = true).
Proof.
  destruct adv_json as [| | | | |d|items]; try done; intros _.
  - destruct replay_id as [| | |key| | |]; simpl; try done; intros [= <-];
      destruct x as [| | |t| | |]; simpl; try done; intros [= <-];
      eexists; (split; [done|]);
      rewrite ?keyed_has_app, ?keyed_has_of, ?dict_has_set; try done;
      intros ->; by rewrite ?orb_true_r.
  - unfold py_setitem, py_contains.
    destruct (key_of replay_id) as [k|]; [|done]. intros [= <-].
    destruct (key_of x) as [kx|]; [|done]. intros [= <-].
    eexists. split; [done|]. apply keyed_has_set_keeps.
Qed.

Lemma py_contains_setitem_false adv_json replay_id v adv_json' x :
  is_dict adv_json = true ->
  py_setitem adv_json replay_id v = Ok adv_json' ->
  py_contains adv_json' x = Ok false ->
  py_contains adv_json x = Ok false.
Proof.
  intros Hd Hset Hc.
  assert (exists b, py_contains adv_json x = Ok b) as [b Hb].
  { destruct adv_json as [| | | | |d|items]; try done.
    - destruct replay_id as [| | |key| | |]; simpl in Hset; try done;
        injection Hset as <-; destruct x; simpl in *; try done; eauto.
    - unfold py_setitem, py_contains in *.
      destruct (key_of replay_id); [|done]. injection Hset as <-.
      destruct (key_of x); [|done]. eauto. }
  destruct (py_contains_setitem _ _ _ _ _ _ Hd Hset Hb) as (b' & Hb' & Himp).
  rewrite Hb' in Hc. injection Hc as ->. destruct b; [|done].
  by specialize (Himp eq_refl).
Qed.

Lemma py_contains_setitem_self adv_json replay_id v adv_json' :
  is_dict adv_json = true ->
  py_setitem adv_json replay_id v = Ok adv_json' ->
  py_contains adv_json' replay_id = Ok true.
Proof.
  destruct adv_json as [| | | | |d|items]; try done; intros _.
  - destruct replay_id as [| | |key| | |]; simpl; try done; intros [= <-];
      simpl; rewrite ?keyed_has_app, ?keyed_has_of, ?dict_has_set; simpl;
      rewrite ?Z.eqb_refl, ?String.eqb_refl; try done; by destruct b.
  - unfold py_setitem, py_contains.
    destruct (key_of replay_id) as [k|]; [|done]. intros [= <-].
    by rewrite keyed_has_set_self.
Qed.

Lemma position_empty i : position 0 i = None.
Proof.
  unfold position. change (Z.of_nat 0) with 0%Z. change (- 0)%Z with 0%Z.
  destruct (Z.leb_spec 0 i); [|done].
  destruct (Z.ltb_spec i 0); [lia|done].
Qed.

Lemma py_getitem_truthy x key v :
  py_getitem x key = Ok v -> py_truthy x = true.
Proof.
  destruct x as [| | |s|l|d|items]; destruct key; simpl; try done;
    try (by destruct d); try (by destruct items).
  all: try (destruct l; [unfold place; simpl; by rewrite position_empty|done]).
  all: destruct s; [unfold place; simpl; by rewrite position_empty|done].
Qed.

Lemma GAME_TYPES_cases game_type label :
  dict_get GAME_TYPES game_type = Some label ->
  (game_type, label) ∈ GAME_TYPES.
Proof. apply dict_get_elem_of. Qed.

Lemma GAME_TYPES_key game_type label :
  dict_get GAME_TYPES game_type = Some label ->
  game_type ∈ dict_keys GAME_TYPES.
Proof.
  intros Hg%dict_get_elem_of. unfold dict_keys.
  by apply (list_elem_of_fmap_2 fst) in Hg.
Qed.

Lemma GAME_TYPES_label_inj g g' label :
  dict_get GAME_TYPES g = Some label ->
  dict_get GAME_TYPES g' = Some label ->
  g = g'.
Proof.
  intros Hg%dict_get_elem_of Hg'%dict_get_elem_of. revert Hg Hg'.
  unfold GAME_TYPES. rewrite !elem_of_cons, !elem_of_nil.
  intros [[= -> ->]|[[= -> ->]|[[= -> ->]|[[= -> ->]|[]]]]];
    intros [[= ->]|[[= ->]|[[= ->]|[[= ->]|[]]]]]; reflexivity.
Qed.

(** ** Loops *)

Lemma for_each_cons {A} (body : A -> M unit) x l w :
  for_each body (x :: l) w =
  match body x w with
  | (Ok _, w1) => for_each body l w1
  | (Raise e, w1) => (Raise e, w1)
  end.
Proof. reflexivity. Qed.

Lemma for_each_counting_cons {codec : JsonCodec} (body : string -> M nat)
    x l w :
  BattleTag.for_each_counting body (x :: l) w =
  match body x w with
  | (Ok n, w1) =>
      match BattleTag.for_each_counting body l w1 with
      | (Ok ns, w2) => (Ok (n :: ns), w2)
      | (Raise e, w2) => (Raise e, w2)
      end
  | (Raise e, w1) => (Raise e, w1)
  end.
Proof.
  cbn [BattleTag.for_each_counting]. unfold mbind, M_bind, mret, M_ret.
  destruct (body x w) as [[n|e] w1]; [|done].
  by destruct (BattleTag.for_each_counting body l w1) as [[ns|e] w2].
Qed.

(** ** Paths of the cache *)

Lemma append_cons (x : ascii) (a b : string) :
  String x a +:+ b = String x (a +:+ b).
Proof. reflexivity. Qed.

Lemma append_nil (b : string) : "" +:+ b = b.
Proof. reflexivity. Qed.

Lemma append_assoc (a b c : string) : (a +:+ b) +:+ c = a +:+ b +:+ c.
Proof.
  induction a as [|x a IH]; [done|]. by rewrite !append_cons, IH.
Qed.

Lemma has_slash_append (a b : string) :
  has_slash (a +:+ String "/" b) = true.
Proof.
  induction a as [|x a IH]; [done|]. rewrite append_cons. simpl.
  rewrite IH. by destruct (Ascii.eqb x "/").
Qed.

Lemma basename_append (a b : string) :
  has_slash b = false -> basename (a +:+ String "/" b) = b.
Proof.
  intros Hb. induction a as [|x a IH]; rewrite ?append_cons, ?append_nil; simpl.
  - by rewrite Hb.
  - by rewrite has_slash_append.
Qed.

Lemma dirname_append (a b : string) :
  has_slash b = false -> dirname (a +:+ String "/" b) = a.
Proof.
  intros Hb. induction a as [|x a IH]; rewrite ?append_cons, ?append_nil; simpl.
  - by rewrite Hb.
  - by rewrite has_slash_append, IH.
Qed.

Lemma game_type_no_slash (game_type : string) :
  game_type ∈ dict_keys GAME_TYPES -> has_slash game_type = false.
Proof.
  unfold dict_keys, GAME_TYPES. simpl. rewrite !elem_of_cons, elem_of_nil.
  intros [->|[->|[->|[->|[]]]]]; reflexivity.
Qed.

Lemma base_file_of_split (username game_type : string) :
  BattleTag.base_file_of username game_type
  = (username +:+ String "/" "base") +:+ String "/" game_type.
Proof. unfold BattleTag.base_file_of. by rewrite append_assoc. Qed.

Lemma adv_file_of_split (username game_type : string) :
  BattleTag.adv_file_of username game_type
  = (username +:+ String "/" "advanced") +:+ String "/" game_type.
Proof. unfold BattleTag.adv_file_of. by rewrite append_assoc. Qed.

Lemma base_file_of_inj u g u' g' :
  has_slash g = false -> has_slash g' = false ->
  BattleTag.base_file_of u g = BattleTag.base_file_of u' g' ->
  u = u' /\ g = g'.
Proof.
  intros Hg Hg'. rewrite !base_file_of_split. intros Heq.
  pose proof (f_equal basename Heq) as Hb.
  pose proof (f_equal dirname Heq) as Hd.
  rewrite !basename_append in Hb by done.
  rewrite !dirname_append in Hd by done.
  apply (f_equal dirname) in Hd. rewrite !dirname_append in Hd by done.
  done.
Qed.

Lemma adv_file_of_inj u g u' g' :
  has_slash g = false -> has_slash g' = false ->
  BattleTag.adv_file_of u g = BattleTag.adv_file_of u' g' ->
  u = u' /\ g = g'.
Proof.
  intros Hg Hg'. rewrite !adv_file_of_split. intros Heq.
  pose proof (f_equal basename Heq) as Hb.
  pose proof (f_equal dirname Heq) as Hd.
  rewrite !basename_append in Hb by done.
  rewrite !dirname_append in Hd by done.
  apply (f_equal dirname) in Hd. rewrite !dirname_append in Hd by done.
  done.
Qed.

Lemma base_adv_distinct u g u' g' :
  has_slash g = false -> has_slash g' = false ->
  BattleTag.base_file_of u g <> BattleTag.adv_file_of u' g'.
Proof.
  intros Hg Hg'. rewrite base_file_of_split, adv_file_of_split. intros Heq.
  pose proof (f_equal dirname Heq) as Hd.
  rewrite !dirname_append in Hd by done.
  apply (f_equal basename) in Hd. rewrite !basename_append in Hd by done.
  discriminate.
Qed.

Lemma base_adv_same_user u g :
  BattleTag.base_file_of u g <> BattleTag.adv_file_of u g.
Proof.
  unfold BattleTag.base_file_of, BattleTag.adv_file_of. intros Heq.
  apply (inj (String.append u)) in Heq. discriminate Heq.
Qed.
(** ** Well-keyed values and the contract of [json] *)

Lemma well_keyed_dict d :
  well_keyed (PyDict d) = true
  <-> NoDup (dict_keys d) /\ forall k v, (k, v) ∈ d -> well_keyed v = true.
Proof.
  cbn [well_keyed]. rewrite andb_true_iff, bool_decide_eq_true, forallb_forall.
  split; intros [Hk Hv]; split; try done.
  - intros k v Hin. by apply (Hv (k, v)), list_elem_of_In.
  - intros [k v] Hin. by apply (Hv k v), list_elem_of_In.
Qed.

Lemma well_keyed_list l :
  well_keyed (PyList l) = true <-> forall x, x ∈ l -> well_keyed x = true.
Proof.
  cbn [well_keyed]. rewrite forallb_forall.
  split; intros Hl x Hx; by apply Hl, list_elem_of_In.
Qed.

Lemma well_keyed_getitem x key v :
  well_keyed x = true -> py_getitem x key = Ok v -> well_keyed v = true.
Proof.
  destruct x as [| | |s|l|d|items]; try done.
  - intros _. destruct key; simpl; try done;
      destruct (place _ _); try done; by destruct (_ !! _); [intros [= <-]|].
  - intros Hwk. pose proof (proj1 (well_keyed_list l) Hwk) as Hl.
    destruct key; simpl; try done;
      (destruct (place _ _) as [i|]; [|done]);
      (destruct (l !! i) as [y|] eqn:Hy; [|done]); intros [= <-];
      eapply Hl, list_elem_of_lookup_2, Hy.
  - destruct key as [| | |key| | |]; simpl; try done.
    fold (well_keyed (PyDict d)). intros [_ Hd]%well_keyed_dict.
    destruct (dict_get d key) as [v'|] eqn:Hget; [|done].
    intros [= <-]. eapply Hd, dict_get_elem_of, Hget.
Qed.

Lemma dict_keys_cons {V} (k : string) (v : V) d :
  dict_keys ((k, v) :: d) = k :: dict_keys d.
Proof. reflexivity. Qed.

Lemma dict_keys_set {V} (d : list (string * V)) k v :
  dict_keys (dict_set d k v)
  = if dict_has d k then dict_keys d else dict_keys d ++ [k].
Proof.
  induction d as [|[k0 v0] d IH]; [done|].
  cbn [dict_set dict_has]. destruct (String.eqb k0 k); [done|].
  rewrite !dict_keys_cons, IH. by destruct (dict_has d k).
Qed.

Lemma dict_set_elem_of {V} (d : list (string * V)) k v k' v' :
  (k', v') ∈ dict_set d k v -> (k', v') ∈ d \/ (k', v') = (k, v).
Proof.
  induction d as [|[k0 v0] d IH]; simpl.
  - intros ->%list_elem_of_singleton. by right.
  - destruct (String.eqb_spec k0 k) as [->|Hne];
      rewrite !elem_of_cons; intros [Heq|Hin]; auto.
    destruct (IH Hin); auto.
Qed.

(** A record stored under a string keeps the value one that
    [json.load] can build. *)
Lemma well_keyed_setitem x key v x' :
  well_keyed x = true -> well_keyed v = true ->
  py_setitem x (PyStr key) v = Ok x' -> well_keyed x' = true.
Proof.
  destruct x as [| | | | |d|]; simpl; try done.
  fold (well_keyed (PyDict d)). intros [Hk Hd]%well_keyed_dict Hv [= <-].
  apply well_keyed_dict. split.
  - rewrite dict_keys_set. destruct (dict_has d key) eqn:Hs; [done|].
    apply NoDup_app. split; [done|]. split; [|apply NoDup_singleton].
    intros x Hx ->%list_elem_of_singleton.
    apply dict_has_keys in Hx. congruence.
  - intros k' v' [Hin|[= -> ->]]%dict_set_elem_of; eauto.
Qed.

Section Laws.
Context {codec : JsonCodec} {laws : JsonLaws codec}.

Lemma json_dumps_not_empty x :
  well_keyed x = true -> String.eqb (json_dumps x) "" = false.
Proof.
  intros Hx. destruct (String.eqb_spec (json_dumps x) "") as [Heq|]; [|done].
  pose proof (json_loads_dumps x Hx) as Hload.
  rewrite Heq, json_loads_empty in Hload. done.
Qed.

Lemma cached_records_dumped w p x :
  fs w !! p = Some (NFile (json_dumps x)) -> well_keyed x = true ->
  cached_records w p = Some x.
Proof.
  intros Hf Hx. unfold cached_records.
  by rewrite Hf, json_dumps_not_empty, json_loads_dumps.
Qed.

Lemma cached_records_well_keyed w p x :
  cached_records w p = Some x -> well_keyed x = true.
Proof.
  unfold cached_records. destruct (fs w !! p) as [[text|]|]; try done.
  - destruct (String.eqb text ""); [by intros [= <-]|].
    apply json_loads_well_keyed.
  - by intros [= <-].
Qed.


End Laws.

Lemma dict_keys_app {V} (d d' : list (string * V)) :
  dict_keys (d ++ d') = dict_keys d ++ dict_keys d'.
Proof. unfold dict_keys. apply fmap_app. Qed.




(** ** The laws of the [json] module *)

(** Induction on values, the items of a list and the values of a dict
    included. *)
Section ValueInduction.
Variable P : value -> Prop.
Hypothesis HNone : P PyNone.
Hypothesis HBool : forall b, P (PyBool b).
Hypothesis HInt : forall n, P (PyInt n).
Hypothesis HStr : forall s, P (PyStr s).
Hypothesis HList : forall l, Forall P l -> P (PyList l).
Hypothesis HDict : forall d, Forall (fun kv => P kv.2) d -> P (PyDict d).
Hypothesis HKeyed :
  forall items, Forall (fun kv => P kv.2) items -> P (PyKeyed items).

Fixpoint value_nested_ind (x : value) : P x :=
  match x with
  | PyNone => HNone
  | PyBool b => HBool b
  | PyInt n => HInt n
  | PyStr s => HStr s
  | PyList l =>
      HList l
        ((fix all (l : list value) : Forall P l :=
            match l with
            | [] => @List.Forall_nil _ P
            | y :: l' =>
                @List.Forall_cons _ P y l' (value_nested_ind y) (all l')
            end) l)
  | PyDict d =>
      HDict d
        ((fix all (d : list (string * value))
            : Forall (fun kv => P kv.2) d :=
            match d with
            | [] => @List.Forall_nil _ (fun kv => P kv.2)
            | kv :: d' =>
                @List.Forall_cons _ (fun kv => P kv.2) kv d'
                  (value_nested_ind kv.2) (all d')
            end) d)
  | PyKeyed items =>
      HKeyed items
        ((fix all (items : list (key * value))
            : Forall (fun kv => P kv.2) items :=
            match items with
            | [] => @List.Forall_nil _ (fun kv => P kv.2)
            | kv :: items' =>
                @List.Forall_cons _ (fun kv => P kv.2) kv items'
                  (value_nested_ind kv.2) (all items')
            end) items)
  end.

End ValueInduction.

Lemma append_nil_r (s : string) : s +:+ "" = s.
Proof. induction s as [|c s IH]; [done|]. by rewrite append_cons, IH. Qed.

Lemma length_append (a b : string) :
  String.length (a +:+ b) = String.length a + String.length b.
Proof.
  induction a as [|c a IH]; [done|]. rewrite append_cons. simpl. by rewrite IH.
Qed.

(** *** Blanks *)

Lemma skip_blanks_indentation n s :
  json.skip_blanks (json.indentation n +:+ s) = json.skip_blanks s.
Proof.
  induction n as [|n IH]; [done|].
  cbn [json.indentation]. rewrite append_assoc, !append_cons, append_nil.
  exact IH.
Qed.

Lemma skip_blanks_line n s :
  json.skip_blanks (json.line n +:+ s) = json.skip_blanks s.
Proof.
  unfold json.line. rewrite append_cons.
  exact (skip_blanks_indentation n s).
Qed.

Lemma skip_blanks_head c t :
  json.is_blank c = false -> json.skip_blanks (String c t) = String c t.
Proof. intros Hc. cbn [json.skip_blanks]. by rewrite Hc. Qed.

Lemma read_value_blanks fuel s t :
  json.skip_blanks s = json.skip_blanks t ->
  json.read_value fuel s = json.read_value fuel t.
Proof. intros Heq. destruct fuel; [done|]. cbn [json.read_value]. by rewrite Heq. Qed.

Lemma read_members_blanks fuel s t :
  json.skip_blanks s = json.skip_blanks t ->
  json.read_members fuel s = json.read_members fuel t.
Proof.
  intros Heq. destruct fuel; [done|]. cbn [json.read_members]. by rewrite Heq.
Qed.

Lemma read_items_blanks fuel s t :
  json.skip_blanks s = json.skip_blanks t ->
  json.read_items fuel s = json.read_items fuel t.
Proof.
  intros Heq. destruct fuel; [done|]. cbn [json.read_items].
  by rewrite (read_value_blanks fuel s t Heq).
Qed.

(** *** Strings *)

Lemma read_string_escape s rest :
  json.read_string (json.escape s +:+ String json.quote_char rest)
  = Some (s, rest).
Proof.
  induction s as [|c s IH].
  - rewrite append_nil. cbn [json.read_string]. by rewrite Ascii.eqb_refl.
  - cbn [json.escape]. rewrite append_assoc. unfold json.escape_char.
    destruct (Ascii.eqb_spec c json.quote_char) as [->|Hquote];
      [rewrite !append_cons, append_nil; cbn; by rewrite IH|].
    destruct (Ascii.eqb_spec c json.backslash) as [->|Hslash];
      [rewrite !append_cons, append_nil; cbn; by rewrite IH|].
    destruct (Ascii.eqb_spec c json.newline) as [->|Hnewline];
      [rewrite !append_cons, append_nil; cbn; by rewrite IH|].
    destruct (Ascii.eqb_spec c json.tab) as [->|Htab];
      [rewrite !append_cons, append_nil; cbn; by rewrite IH|].
    destruct (Ascii.eqb_spec c json.carriage_return) as [->|Hreturn];
      [rewrite !append_cons, append_nil; cbn; by rewrite IH|].
    rewrite append_cons, append_nil. cbn [json.read_string].
    apply Ascii.eqb_neq in Hquote, Hslash. by rewrite Hquote, Hslash, IH.
Qed.

(** *** Numbers *)

Lemma read_uint_print u rest :
  ends_number rest ->
  json.read_uint (json.print_uint u +:+ rest) = (u, rest).
Proof.
  intros Hrest.
  induction u as [|u IH|u IH|u IH|u IH|u IH|u IH|u IH|u IH|u IH|u IH];
    [exact Hrest|..];
    cbn [json.print_uint]; rewrite append_cons; cbn; by rewrite IH.
Qed.

Lemma read_natural_print u rest :
  u <> Decimal.Nil -> ends_number rest ->
  json.read_natural (json.print_uint u +:+ rest)
  = Some (Z.of_N (Pos.of_uint u), rest).
Proof.
  intros Hu Hrest. unfold json.read_natural.
  rewrite (read_uint_print u rest Hrest). by destruct u.
Qed.

Lemma read_value_digits fuel u rest :
  u <> Decimal.Nil -> ends_number rest ->
  json.read_value (S fuel) (json.print_uint u +:+ rest)
  = Some (PyInt (Z.of_N (Pos.of_uint u)), rest).
Proof.
  intros Hu Hrest.
  transitivity ('(n, r) ← json.read_natural (json.print_uint u +:+ rest);
                Some (PyInt n, r)).
  - by destruct u.
  - by rewrite (read_natural_print u rest Hu Hrest).
Qed.

Lemma read_value_int fuel level n rest :
  ends_number rest ->
  json.read_value (S fuel) (json.print level (PyInt n) +:+ rest)
  = Some (PyInt n, rest).
Proof.
  intros Hrest. cbn [json.print]. destruct n as [|p|p].
  - exact (read_value_digits fuel (Decimal.D0 Decimal.Nil) rest
             ltac:(done) Hrest).
  - cbn [json.print_int].
    rewrite (read_value_digits fuel (Pos.to_uint p) rest
               (Unsigned.to_uint_nonnil p) Hrest).
    by rewrite Unsigned.of_to.
  - cbn [json.print_int]. rewrite append_cons.
    transitivity ('(n, r) ← json.read_natural
                               (json.print_uint (Pos.to_uint p) +:+ rest);
                  Some (PyInt (- n), r)); [reflexivity|].
    rewrite (read_natural_print _ rest (Unsigned.to_uint_nonnil p) Hrest).
    by rewrite Unsigned.of_to.
Qed.

(** *** Values *)

Lemma print_list_cons level x l :
  json.print level (PyList (x :: l))
  = "[" +:+ json.line (S level) +:+ json.print (S level) x
    +:+ print_items level l.
Proof. reflexivity. Qed.

Lemma print_dict_cons level k v d :
  json.print level (PyDict ((k, v) :: d))
  = "{" +:+ json.line (S level) +:+ json.quoted k +:+ ": "
    +:+ json.print (S level) v +:+ print_members level d.
Proof. reflexivity. Qed.

(** What is printed starts with a character that is not a blank and
    not a closing bracket. *)
Lemma print_opens level x rest :
  exists c t,
    json.print level x +:+ rest = String c t
    /\ json.is_blank c = false /\ Ascii.eqb "]" c = false.
Proof.
  destruct x as [|[]|[|p|p]|s|[|x l]|[|[k v] d]|[|[k v] items]];
    try (eexists _, _; split; [reflexivity|split; reflexivity]).
  cbn [json.print json.print_int].
  pose proof (Unsigned.to_uint_nonnil p) as Hp.
  destruct (Pos.to_uint p); try done;
    eexists _, _; (split; [reflexivity|split; reflexivity]).
Qed.

Lemma ends_number_items level l rest :
  ends_number (print_items level l +:+ rest).
Proof. by destruct l. Qed.

Lemma ends_number_members level d rest :
  ends_number (print_members level d +:+ rest).
Proof. by destruct d as [|[k v] d]. Qed.

Lemma read_items_print l :
  Forall reads_back l ->
  forall x level fuel rest,
  reads_back x ->
  S (weight x) + sum_list ((fun y => S (weight y)) <$> l) <= fuel ->
  json.read_items fuel
    (json.line (S level) +:+ json.print (S level) x
     +:+ print_items level l +:+ rest)
  = Some (x :: l, rest).
Proof.
  induction 1 as [|y l Hy Hl IH]; intros x level fuel rest Hx Hfuel;
    (destruct fuel as [|fuel]; [simpl in Hfuel; lia|]);
    cbn [json.read_items];
    rewrite (read_value_blanks fuel _ _ (skip_blanks_line _ _)).
  - rewrite Hx by (by simpl in Hfuel; lia || apply ends_number_items).
    cbn [print_items]. rewrite append_assoc.
    cbn. by rewrite skip_blanks_line.
  - rewrite Hx by (by simpl in Hfuel; lia || apply ends_number_items).
    cbn [print_items]. rewrite !append_assoc, append_cons, append_nil.
    cbn [mbind option_bind]. rewrite skip_blanks_head by reflexivity. cbn.
    rewrite IH; [done|done|]. rewrite fmap_cons in Hfuel.
    simpl in Hfuel. lia.
Qed.

Lemma quoted_append k t :
  json.quoted k +:+ t
  = String json.quote_char (json.escape k +:+ String json.quote_char t).
Proof.
  unfold json.quoted. by rewrite append_cons, append_assoc, append_cons, append_nil.
Qed.

Lemma read_value_space fuel t :
  json.read_value fuel (String " " t) = json.read_value fuel t.
Proof. by apply read_value_blanks. Qed.

Lemma read_members_print d :
  Forall (fun kv => reads_back kv.2) d ->
  forall k v level fuel rest,
  reads_back v ->
  S (weight v) + sum_list ((fun kv => S (weight kv.2)) <$> d) <= fuel ->
  json.read_members fuel
    (json.line (S level) +:+ json.quoted k +:+ ": "
     +:+ json.print (S level) v +:+ print_members level d +:+ rest)
  = Some ((k, v) :: d, rest).
Proof.
  induction 1 as [|[k' v'] d Hv' Hd IH]; intros k v level fuel rest Hv Hfuel;
    (destruct fuel as [|fuel]; [simpl in Hfuel; lia|]);
    cbn [json.read_members];
    rewrite skip_blanks_line, quoted_append, skip_blanks_head by reflexivity;
    rewrite Ascii.eqb_refl, read_string_escape;
    cbn [mbind option_bind];
    rewrite !append_cons, append_nil, skip_blanks_head by reflexivity;
    rewrite Ascii.eqb_refl, read_value_space.
  - rewrite Hv by (by simpl in Hfuel; lia || apply ends_number_members).
    cbn [print_members mbind option_bind]. rewrite append_assoc.
    rewrite skip_blanks_line, append_cons, append_nil.
    rewrite skip_blanks_head by reflexivity. done.
  - rewrite Hv by (by simpl in Hfuel; lia || apply ends_number_members).
    cbn [print_members mbind option_bind].
    rewrite !append_assoc, append_cons, append_nil.
    rewrite skip_blanks_head by reflexivity.
    change (Ascii.eqb "," ",") with true. cbv iota.
    rewrite IH; [done|done|]. rewrite fmap_cons in Hfuel.
    simpl in Hfuel. lia.
Qed.

Lemma read_value_quote fuel t :
  json.read_value (S fuel) (String json.quote_char t)
  = '(str, rest) ← json.read_string t; Some (PyStr str, rest).
Proof. reflexivity. Qed.

Lemma read_value_bracket fuel t :
  json.read_value (S fuel) (String "[" t)
  = match json.after "]" (json.skip_blanks t) with
    | Some rest => Some (PyList [], rest)
    | None => '(l, rest) ← json.read_items fuel t; Some (PyList l, rest)
    end.
Proof. reflexivity. Qed.

Lemma read_value_brace fuel t :
  json.read_value (S fuel) (String "{" t)
  = match json.after "}" (json.skip_blanks t) with
    | Some rest => Some (PyDict [], rest)
    | None => '(d, rest) ← json.read_members fuel t; Some (PyDict d, rest)
    end.
Proof. reflexivity. Qed.

(** The parser reads back what the printer writes for a value with
    string keys. *)
Lemma reads_back_all x : well_keyed x = true -> reads_back x.
Proof.
  induction x as [|b|n|s|l IH|d IH|items IH] using value_nested_ind;
    [| | | | | |done]; intros Hwk;
    [| | | |
     assert (Forall reads_back l) as IH'
       by (pose proof (proj1 (well_keyed_list l) Hwk) as Hl;
           rewrite Forall_forall in IH |- *; intros y Hy; auto);
     clear IH; rename IH' into IH
     |
     assert (Forall (fun kv => reads_back kv.2) d) as IH'
       by (destruct (proj1 (well_keyed_dict d) Hwk) as [_ Hd];
           rewrite Forall_forall in IH |- *; intros [k v] Hkv;
           apply (IH (k, v) Hkv); eauto);
     clear IH; rename IH' into IH];
    intros level fuel rest Hfuel Hrest;
    (destruct fuel as [|fuel]; [simpl in Hfuel; lia|]).
  - reflexivity.
  - by destruct b.
  - by apply read_value_int.
  - cbn [json.print].
    by rewrite quoted_append, read_value_quote, read_string_escape.
  - destruct IH as [|x l Hx Hl]; [reflexivity|].
    rewrite print_list_cons, !append_assoc, append_cons, append_nil.
    rewrite read_value_bracket, skip_blanks_line.
    destruct (print_opens (S level) x (print_items level l +:+ rest))
      as (c & t & Heq & Hblank & Hclose).
    rewrite Heq, skip_blanks_head by done. cbn [json.after].
    rewrite Hclose, <- Heq.
    rewrite read_items_print; [done|done|done|].
    cbn [weight] in Hfuel. rewrite fmap_cons in Hfuel. simpl in Hfuel. lia.
  - destruct IH as [|[k v] d Hv Hd]; [reflexivity|].
    rewrite print_dict_cons, !append_assoc, append_cons, append_nil.
    rewrite read_value_brace, skip_blanks_line, quoted_append.
    rewrite skip_blanks_head by reflexivity.
    change (json.after "}" (String json.quote_char ?t)) with (@None string).
    rewrite <- quoted_append.
    rewrite read_members_print; [done|done|done|].
    cbn [weight] in Hfuel. rewrite fmap_cons in Hfuel. simpl in Hfuel. lia.
Qed.

(** *** Fuel *)

Lemma print_uint_length u :
  u <> Decimal.Nil -> 1 <= String.length (json.print_uint u).
Proof. destruct u; [done|..]; simpl; lia. Qed.

Lemma print_items_length level l :
  Forall (fun y => forall level, weight y <= String.length (json.print level y))
    l ->
  sum_list ((fun y => S (weight y)) <$> l)
  <= String.length (print_items level l).
Proof.
  induction 1 as [|y l Hy Hl IH]; [simpl; lia|].
  cbn [print_items]. rewrite fmap_cons, !length_append.
  specialize (Hy (S level)). simpl. simpl in IH. lia.
Qed.

Lemma print_members_length level d :
  Forall (fun kv => forall level,
            weight kv.2 <= String.length (json.print level kv.2)) d ->
  sum_list ((fun kv => S (weight kv.2)) <$> d)
  <= String.length (print_members level d).
Proof.
  induction 1 as [|[k v] d Hv Hd IH]; [simpl; lia|].
  cbn [print_members]. rewrite fmap_cons, !length_append.
  specialize (Hv (S level)). simpl in *. lia.
Qed.

Lemma weight_length x :
  forall level, weight x <= String.length (json.print level x).
Proof.
  induction x as [|b|n|s|l IH|d IH|items IH] using value_nested_ind;
    intros level;
    [| | | | | |destruct items as [|[k v] items];
                [simpl; lia|cbn [json.print weight]; rewrite append_cons;
                            simpl; lia]].
  - simpl. lia.
  - destruct b; simpl; lia.
  - destruct n as [|p|p]; [simpl; lia|..]; cbn [weight json.print json.print_int];
      pose proof (print_uint_length _ (Unsigned.to_uint_nonnil p));
      simpl; lia.
  - simpl. lia.
  - destruct IH as [|x l Hx Hl]; [simpl; lia|].
    rewrite print_list_cons, !length_append. cbn [weight].
    rewrite fmap_cons. pose proof (print_items_length level l Hl).
    specialize (Hx (S level)). simpl in *. lia.
  - destruct IH as [|[k v] d Hv Hd]; [simpl; lia|].
    rewrite print_dict_cons, !length_append. cbn [weight].
    rewrite fmap_cons. pose proof (print_members_length level d Hd).
    specialize (Hv (S level)). simpl in *. lia.
Qed.

(** *** Dicts as they are built *)

Lemma as_built_members (d : list (string * value)) :
  Forall (fun kv => json.as_built kv.2 = kv.2) d ->
  forall acc,
  NoDup (dict_keys (acc ++ d)) ->
  fold_left (fun acc kv => dict_set acc kv.1 (json.as_built kv.2)) d acc
  = acc ++ d.
Proof.
  induction 1 as [|[k v] d Hv Hd IH]; intros acc Hkeys; [by rewrite app_nil_r|].
  cbn [fold_left fst snd]. simpl in Hv. rewrite Hv.
  rewrite dict_set_fresh.
  - rewrite IH; rewrite <- app_assoc; done.
  - rewrite dict_keys_app, dict_keys_cons in Hkeys.
    apply NoDup_app in Hkeys as (_ & Hfresh & _).
    destruct (dict_has acc k) eqn:Hhas; [|done].
    apply dict_has_keys in Hhas. destruct (Hfresh k Hhas).
    apply list_elem_of_here.
Qed.

Lemma as_built_well_keyed x : well_keyed x = true -> json.as_built x = x.
Proof.
  induction x as [|b|n|s|l IH|d IH|items IH] using value_nested_ind;
    try done.
  - intros Hwk. pose proof (proj1 (well_keyed_list l) Hwk) as Hl.
    cbn [json.as_built]. f_equal. clear Hwk.
    induction IH as [|x l Hx _ IH]; [done|]. rewrite fmap_cons.
    rewrite Hx by apply Hl, list_elem_of_here.
    rewrite IH; [done|]. intros y Hy. by apply Hl, list_elem_of_further.
  - intros Hwk. destruct (proj1 (well_keyed_dict d) Hwk) as [Hkeys Hd].
    cbn [json.as_built]. f_equal.
    rewrite as_built_members; [done| |done].
    apply Forall_forall. intros [k v] Hin.
    rewrite Forall_forall in IH. apply (IH (k, v) Hin). by eapply Hd.
Qed.

Lemma built_members_well_keyed {K} (text : K -> string)
    (d : list (K * value)) :
  Forall (fun kv => well_keyed (json.as_built kv.2) = true) d ->
  forall acc,
  well_keyed (PyDict acc) = true ->
  well_keyed
    (PyDict (fold_left
               (fun acc kv => dict_set acc (text kv.1) (json.as_built kv.2))
               d acc)) = true.
Proof.
  induction 1 as [|[k v] d Hv Hd IH]; intros acc Hacc; [done|].
  cbn [fold_left fst snd]. apply IH.
  by apply (well_keyed_setitem (PyDict acc) (text k) (json.as_built v)).
Qed.

Lemma well_keyed_as_built x : well_keyed (json.as_built x) = true.
Proof.
  induction x as [|b|n|s|l IH|d IH|items IH] using value_nested_ind;
    try done.
  - cbn [json.as_built]. apply well_keyed_list.
    intros y (x & -> & Hx)%list_elem_of_fmap.
    rewrite Forall_forall in IH. by apply IH.
  - cbn [json.as_built]. by apply (built_members_well_keyed id).
  - cbn [json.as_built]. by apply (built_members_well_keyed json.key_text).
Qed.

(** The [json] module the examples run with keeps the laws. *)
Lemma python_json_laws : JsonLaws python_json.
Proof.
  split.
  - intros x Hx. cbn [json_dumps json_loads python_json].
    unfold json.loads, json.dumps.
    pose proof (reads_back_all x Hx 0 (S (String.length (json.print 0 x))) "")
      as Hread.
    rewrite append_nil_r in Hread. rewrite Hread.
    + cbn [json.skip_blanks]. by rewrite as_built_well_keyed.
    + pose proof (weight_length x 0). lia.
    + reflexivity.
  - reflexivity.
  - intros s x. cbn [json_loads python_json]. unfold json.loads.
    destruct (json.read_value _ s) as [[y rest]|]; [|done].
    destruct (json.skip_blanks rest); [|done].
    intros [= <-]. apply well_keyed_as_built.
Qed.
(** ** Phase 1: the base listings *)

Section Phase1.
Context {codec : JsonCodec}.

(** A listing in the cache is left alone: no request, no write. *)
Lemma base_replays_of_cached self params username game_type w text :
  fs w !! BattleTag.base_file_of username game_type = Some (NFile text) ->
  exists r w',
    BattleTag.base_replays_of self params username game_type w = (r, w')
    /\ fs w' = fs w /\ sends w w' []
    /\ (r = Ok tt \/ r = Raise (SystemExit 1)).
Proof.
  intros Hf. unfold BattleTag.base_replays_of. unfold_run.
  rewrite !Hf. simpl. rewrite !Hf. simpl.
  destruct (json_loads text); simpl.
  - eexists _, _. split; [reflexivity|]. split; [done|]. split; [apply sends_refl|]. by left.
  - eexists _, _. split; [reflexivity|]. split; [done|].
    split; [|by right]. split; simpl; [by rewrite app_nil_r | done].
Qed.

(** Whatever happens, one round touches the listing of its own game type
    only, and sends at most the request for that listing. *)
Lemma base_replays_of_frame self params username game_type w r w' :
  BattleTag.base_replays_of self params username game_type w = (r, w') ->
  (forall p, p <> BattleTag.base_file_of username game_type ->
             fs w' !! p = fs w !! p)
  /\ exists news,
      sends w w' news
      /\ forall rq rp, (rq, rp) ∈ news ->
           exists label, dict_get GAME_TYPES game_type = Some label
                         /\ rq = listing_request self params label
                         /\ forall text, fs w !! BattleTag.base_file_of username game_type
                                         <> Some (NFile text).
Proof.
  destruct (fs w !! BattleTag.base_file_of username game_type) as [[text|]|] eqn:Hf.
  - intros Hrun.
    destruct (base_replays_of_cached self params username game_type w text Hf)
      as (r0 & w0 & Hrun0 & Hfs & Hs & _).
    rewrite Hrun0 in Hrun. inversion Hrun; subst. split.
    + intros. by rewrite Hfs.
    + exists []. split; [done|]. intros ?? Hin. by apply elem_of_nil in Hin.
  - unfold BattleTag.base_replays_of. unfold_run.
    destruct (dict_get GAME_TYPES game_type) as [label|] eqn:Hl;
      rewrite !Hf; simpl.
    2:{ intros Hrun; inversion Hrun; subst; simpl. split; [done|].
        exists []. split; [no_sends|]. intros ?? Hin. by apply elem_of_nil in Hin. }
    fold (listing_request self params label).
    destruct (remote w _ _) as [c b|] eqn:Hr; simpl;
      [destruct (c =? 200)%Z; simpl; rewrite ?Hf; simpl|];
      (intros Hrun; inversion Hrun; subst; simpl; split; [done|];
       eexists [_]; split; [by split|];
       intros ?? [= -> ->]%list_elem_of_singleton; exists label; by rewrite ?Hf).
  - unfold BattleTag.base_replays_of. unfold_run.
    destruct (dict_get GAME_TYPES game_type) as [label|] eqn:Hl;
      rewrite !Hf; simpl.
    2:{ intros Hrun; inversion Hrun; subst; simpl. split; [done|].
        exists []. split; [no_sends|]. intros ?? Hin. by apply elem_of_nil in Hin. }
    fold (listing_request self params label).
    destruct (remote w _ _) as [c b|] eqn:Hr; simpl;
      [destruct (c =? 200)%Z; simpl; rewrite ?Hf; simpl;
       [destruct (json_loads b) as [obj|]; simpl; rewrite ?lookup_insert_eq; simpl;
        [destruct (json_loads (json_dumps obj)); simpl|]|]|];
      (intros Hrun; inversion Hrun; subst; simpl; split;
       [intros; by rewrite ?lookup_insert_ne by done|];
       eexists [_]; split; [by split|];
       intros ?? [= -> ->]%list_elem_of_singleton; exists label; by rewrite ?Hf).
Qed.

(** The rounds over [game_types] leave alone a listing that is in the
    cache, and send nothing for its game type. *)
Lemma base_rounds_fetch_once self params username game_types :
  forall w r w' game_type label text,
  for_each (BattleTag.base_replays_of self params username) game_types w
    = (r, w') ->
  (forall g, g ∈ game_types -> g ∈ dict_keys GAME_TYPES) ->
  dict_get GAME_TYPES game_type = Some label ->
  fs w !! BattleTag.base_file_of username game_type = Some (NFile text) ->
  fs w' !! BattleTag.base_file_of username game_type = Some (NFile text)
  /\ exists news,
       sends w w' news
       /\ forall rq rp, (rq, rp) ∈ news ->
            dict_get (req_params rq) "game_type" <> Some (PyStr label).
Proof.
  induction game_types as [|g gs IH]; intros w r w' game_type label text.
  - intros [= <- <-] _ _ Hf. split; [done|]. exists []. split; [apply sends_refl|].
    by intros ?? ?%elem_of_nil.
  - rewrite for_each_cons. intros Hrun Hkeys Hlabel Hf.
    destruct (BattleTag.base_replays_of self params username g w)
      as [r1 w1] eqn:Hround.
    assert (fs w1 !! BattleTag.base_file_of username game_type
            = Some (NFile text)
            /\ exists news, sends w w1 news
                 /\ forall rq rp, (rq, rp) ∈ news ->
                      dict_get (req_params rq) "game_type"
                      <> Some (PyStr label)) as (Hf1 & news1 & Hs1 & Hn1).
    { destruct (decide (g = game_type)) as [->|Hne].
      - destruct (base_replays_of_cached self params username game_type
                    w text Hf) as (r0 & w0 & Hrun0 & Hfs & Hs & _).
        rewrite Hrun0 in Hround. injection Hround as <- <-.
        rewrite Hfs. split; [done|]. exists []. split; [done|].
        by intros ?? ?%elem_of_nil.
      - destruct (base_replays_of_frame _ _ _ _ _ _ _ Hround)
          as (Hframe & news & Hs & Hn).
        split.
        + rewrite Hframe; [done|]. intros Heq.
          apply base_file_of_inj in Heq as [_ ->]; [done| |].
          * apply game_type_no_slash. eapply GAME_TYPES_key, Hlabel.
          * apply game_type_no_slash, Hkeys, list_elem_of_here.
        + exists news. split; [done|]. intros rq rp Hin.
          destruct (Hn rq rp Hin) as (label' & Hl' & -> & _). simpl.
          rewrite dict_get_set_eq. intros [= ->].
          apply Hne. eapply GAME_TYPES_label_inj; eauto. }
    destruct r1 as [[]|e].
    + destruct (IH w1 r w' game_type label text Hrun) as (Hf' & news & Hs & Hn);
        [intros; apply Hkeys; by apply list_elem_of_further|done|done|].
      split; [done|]. exists (news1 ++ news).
      split; [by eapply sends_trans|].
      intros rq rp [?|?]%elem_of_app; eauto.
    + injection Hrun as <- <-. split; [done|]. eauto.
Qed.



(** A listing in the cache that parses: the round does nothing. *)
Lemma base_replays_of_cached_ok self params username game_type w text obj :
  fs w !! BattleTag.base_file_of username game_type = Some (NFile text) ->
  json_loads text = Some obj ->
  BattleTag.base_replays_of self params username game_type w = (Ok tt, w).
Proof.
  intros Hf Hobj. unfold BattleTag.base_replays_of. unfold_run.
  rewrite !Hf. simpl. rewrite !Hf. simpl. by rewrite Hobj.
Qed.

(** A round that ends normally leaves a listing that parses. *)
Lemma base_replays_of_ok self params username game_type w w' :
  BattleTag.base_replays_of self params username game_type w = (Ok tt, w') ->
  exists text obj,
    fs w' !! BattleTag.base_file_of username game_type = Some (NFile text)
    /\ json_loads text = Some obj.
Proof.
  destruct (fs w !! BattleTag.base_file_of username game_type)
    as [[text|]|] eqn:Hf.
  - unfold BattleTag.base_replays_of. unfold_run.
    rewrite !Hf. simpl. rewrite !Hf. simpl.
    destruct (json_loads text) as [obj|] eqn:Hobj; simpl; [|done].
    intros [= <-]. eauto.
  - unfold BattleTag.base_replays_of. unfold_run.
    destruct (dict_get GAME_TYPES game_type) as [label|] eqn:Hl;
      rewrite !Hf; simpl; [|done].
    destruct (remote w _ _) as [c b|] eqn:Hr; simpl; [|done].
    destruct (c =? 200)%Z; simpl; rewrite ?Hf; simpl; done.
  - unfold BattleTag.base_replays_of. unfold_run.
    destruct (dict_get GAME_TYPES game_type) as [label|] eqn:Hl;
      rewrite !Hf; simpl; [|done].
    destruct (remote w _ _) as [c b|] eqn:Hr; simpl; [|done].
    destruct (c =? 200)%Z; simpl; rewrite ?Hf; simpl; [|done].
    destruct (json_loads b) as [obj|]; simpl; rewrite ?lookup_insert_eq;
      simpl; [|done].
    destruct (json_loads (json_dumps obj)) as [obj'|] eqn:Hobj'; simpl;
      [|done].
    intros [= <-]. simpl. rewrite lookup_insert_eq. eauto.
Qed.

(** The rounds of Phase 1 touch listings of their game types only. *)
Lemma base_rounds_frame self params username game_types :
  forall w r w',
  for_each (BattleTag.base_replays_of self params username) game_types w
  = (r, w') ->
  (forall p, (forall g, g ∈ game_types ->
                p <> BattleTag.base_file_of username g) ->
             fs w' !! p = fs w !! p)
  /\ exists news, sends w w' news.
Proof.
  induction game_types as [|g gs IH]; intros w r w'.
  - intros [= <- <-]. split; [done|]. exists []. apply sends_refl.
  - rewrite for_each_cons.
    destruct (BattleTag.base_replays_of self params username g w)
      as [r1 w1] eqn:Hround.
    destruct (base_replays_of_frame _ _ _ _ _ _ _ Hround)
      as (Hframe & news1 & Hs1 & _).
    destruct r1 as [[]|e].
    + intros (Hframe' & news & Hs)%IH. split.
      * intros p Hp. rewrite Hframe', Hframe; [done| |].
        -- apply Hp, list_elem_of_here.
        -- intros g' Hg'. by apply Hp, list_elem_of_further.
      * exists (news1 ++ news). by eapply sends_trans.
    + intros [= <- <-]. split; [|by exists news1].
      intros p Hp. apply Hframe, Hp, list_elem_of_here.
Qed.

(** After the rounds of Phase 1 have ended normally, every listing is in
    the cache and parses. *)
Lemma base_rounds_ok self params username game_types :
  forall w w',
  for_each (BattleTag.base_replays_of self params username) game_types w
  = (Ok tt, w') ->
  (forall g, g ∈ game_types -> g ∈ dict_keys GAME_TYPES) ->
  forall g, g ∈ game_types ->
  exists text obj,
    fs w' !! BattleTag.base_file_of username g = Some (NFile text)
    /\ json_loads text = Some obj.
Proof.
  induction game_types as [|g gs IH]; intros w w' Hrun Hkeys g0 Hg0.
  - by apply elem_of_nil in Hg0.
  - rewrite for_each_cons in Hrun.
    destruct (BattleTag.base_replays_of self params username g w)
      as [[[]|e] w1] eqn:Hround; [|done].
    destruct (decide (g0 ∈ gs)) as [Hin|Hnotin].
    + eapply IH; [done| |done]. intros. by apply Hkeys, list_elem_of_further.
    + apply elem_of_cons in Hg0 as [->|?]; [|done].
      destruct (base_replays_of_ok _ _ _ _ _ _ Hround) as (text & obj & Hf & ?).
      destruct (base_rounds_frame _ _ _ _ _ _ _ Hrun) as [Hframe _].
      exists text, obj. split; [|done]. rewrite Hframe; [done|].
      intros g' Hg' Heq. apply base_file_of_inj in Heq as [_ ->]; [done| |].
      * apply game_type_no_slash, Hkeys, list_elem_of_here.
      * by apply game_type_no_slash, Hkeys, list_elem_of_further.
Qed.

(** When every listing is in the cache and parses, Phase 1 does
    nothing. *)
Lemma base_rounds_cached self params username game_types w :
  (forall g, g ∈ game_types ->
     exists text obj,
       fs w !! BattleTag.base_file_of username g = Some (NFile text)
       /\ json_loads text = Some obj) ->
  for_each (BattleTag.base_replays_of self params username) game_types w
  = (Ok tt, w).
Proof.
  induction game_types as [|g gs IH]; intros Hall; [done|].
  rewrite for_each_cons.
  destruct (Hall g) as (text & obj & Hf & Hobj); [apply list_elem_of_here|].
  rewrite (base_replays_of_cached_ok _ _ _ _ _ _ _ Hf Hobj).
  apply IH. intros. by apply Hall, list_elem_of_further.
Qed.

Lemma download_base_replays_run self tag w :
  BattleTag.battletag self = PyStr tag ->
  BattleTag.download_base_replays self w
  = for_each
      (BattleTag.base_replays_of self (BattleTag._params self)
         (split_hash_0 tag))
      (dict_keys GAME_TYPES) w.
Proof.
  intros Htag. unfold BattleTag.download_base_replays, BattleTag.username_of.
  rewrite Htag. reflexivity.
Qed.

End Phase1.

(** C4. Base-listing fetch-once: when the base-listing cache file of a
    game type is a regular file, whatever it holds, Phase 1
    ([download_base_replays]) sends no request for the listing of that
    game type and leaves the file as it is, whatever the remote would
    answer; so a listing is requested only when no regular file is
    there. *)
Theorem base_listing_fetch_once {codec : JsonCodec} (self : BattleTag.t)
    (tag : string) (w : world) (game_type label text : string) :
  BattleTag.battletag self = PyStr tag ->
  dict_get GAME_TYPES game_type = Some label ->
  fs w !! BattleTag.base_file_of (split_hash_0 tag) game_type
    = Some (NFile text) ->
  let w' := (BattleTag.download_base_replays self w).2 in
  fs w' !! BattleTag.base_file_of (split_hash_0 tag) game_type
    = Some (NFile text)
  /\ exists news,
       sends w w' news
       /\ forall rq rp, (rq, rp) ∈ news ->
            dict_get (req_params rq) "game_type" <> Some (PyStr label).
Proof.
  intros Htag Hlabel Hf. rewrite (download_base_replays_run self tag w Htag).
  destruct (for_each _ _ w) as [r w'] eqn:Hrun. cbn [snd].
  eapply base_rounds_fetch_once; eauto.
Qed.

Lemma base_listing_fetch_once_witness :
  let w' := (BattleTag.download_base_replays (codec := python_json) foo
               world_empty_listing).2 in
  fs w' !! "Foo/base/qm" = Some (NFile "")
  /\ exists news,
       sends world_empty_listing w' news
       /\ forall rq rp, (rq, rp) ∈ news ->
            dict_get (req_params rq) "game_type"
            <> Some (PyStr "Quick Match").
Proof.
  apply (base_listing_fetch_once (codec := python_json) foo "Foo#1234"
           world_empty_listing "qm" "Quick Match" "");
    vm_compute; reflexivity.
Defined.

(** ** Phase 2: the advanced records *)

Section Phase2.
Context {codec : JsonCodec}.

(** One round of the loop over the replay identifiers. *)
Lemma fetch_replays_cons self params username game_type replay_id rest
    adv_json replays_cnt w :
  BattleTag.fetch_replays self params username game_type (replay_id :: rest)
    adv_json replays_cnt w
  = match py_contains adv_json replay_id with
    | Raise e => (Raise e, w)
    | Ok true =>
        BattleTag.fetch_replays self params username game_type rest
          adv_json replays_cnt w
    | Ok false =>
        match py_getitem (PyDict params) (PyStr "mode") with
        | Raise e => (Raise e, w)
        | Ok md =>
            match py_getitem (PyDict params) (PyStr "api_token") with
            | Raise e => (Raise e, w)
            | Ok token =>
                let rq := detail_request self md token replay_id in
                let w1 := answered w rq in
                match remote w (length (sent w)) rq with
                | Failed => (Raise RequestException, w1)
                | Response c b =>
                    if (c =? 200)%Z then
                      match json_loads b with
                      | None => (Raise JSONDecodeError, w1)
                      | Some obj =>
                          match py_getitem obj replay_id with
                          | Raise e => (Raise e, w1)
                          | Ok v =>
                              match py_setitem adv_json replay_id v with
                              | Raise e => (Raise e, w1)
                              | Ok adv_json' =>
                                  BattleTag.fetch_replays self params username
                                    game_type rest adv_json' (S replays_cnt) w1
                              end
                          end
                      end
                    else
                      (Ok (adv_json, replays_cnt),
                       logging w1
                         [ErrorUnableToDownload replay_id username game_type;
                          ErrorResponse (Response c b)])
                end
            end
        end
    end.
Proof.
  cbn [BattleTag.fetch_replays]. unfold_run. unfold answered, logging.
  destruct (py_contains adv_json replay_id) as [[]|]; try reflexivity.
  destruct (py_getitem (PyDict params) (PyStr "mode")) as [md|];
    try reflexivity.
  destruct (py_getitem (PyDict params) (PyStr "api_token")) as [token|];
    try reflexivity.
  unfold detail_request. cbn [fs remote sent logged].
  destruct (remote w _ _) as [c b|]; try reflexivity.
  cbn [status_code body].
  destruct (c =? 200)%Z.
  - destruct (json_loads b) as [obj|]; try reflexivity.
  - cbn. by rewrite <- app_assoc.
Qed.

(** The loop writes no file, and requests only identifiers of the
    listing; when it was given a dict, only identifiers the dict does
    not have. *)
Lemma fetch_replays_frame self params username game_type replay_ids :
  forall adv_json replays_cnt w r w',
  BattleTag.fetch_replays self params username game_type replay_ids
    adv_json replays_cnt w = (r, w') ->
  fs w' = fs w
  /\ exists news,
       sends w w' news
       /\ forall rq rp, (rq, rp) ∈ news ->
            exists replay_id,
              replay_id ∈ replay_ids
              /\ dict_get (req_params rq) "replayID" = Some replay_id
              /\ (is_dict adv_json = true ->
                  py_contains adv_json replay_id = Ok false).
Proof.
  induction replay_ids as [|replay_id rest IH]; intros adv_json cnt w r w'.
  - intros [= <- <-]. split; [done|]. exists []. split; [apply sends_refl|].
    by intros ?? ?%elem_of_nil.
  - rewrite fetch_replays_cons.
    destruct (py_contains adv_json replay_id) as [[]|] eqn:Hin.
    + intros (Hfs & news & Hs & Hn)%IH. split; [done|]. exists news.
      split; [done|]. intros rq rp (x & ? & ? & ?)%Hn. exists x.
      split; [by apply list_elem_of_further|done].
    + destruct (py_getitem (PyDict params) (PyStr "mode")) as [md|];
        [|intros [= <- <-]; split; [done|]; exists []; split;
          [apply sends_refl|by intros ?? ?%elem_of_nil]].
      destruct (py_getitem (PyDict params) (PyStr "api_token")) as [token|];
        [|intros [= <- <-]; split; [done|]; exists []; split;
          [apply sends_refl|by intros ?? ?%elem_of_nil]].
      cbn zeta.
      set (rq := detail_request self md token replay_id).
      assert (forall w1 : world, fs w1 = fs (answered w rq) ->
                sent w1 = sent (answered w rq) -> remote w1 = remote w ->
                fs w1 = fs w
                /\ exists news, sends w w1 news
                     /\ forall rq' rp, (rq', rp) ∈ news ->
                          exists x, x ∈ replay_id :: rest
                            /\ dict_get (req_params rq') "replayID" = Some x
                            /\ (is_dict adv_json = true ->
                                py_contains adv_json x = Ok false)) as Hone.
      { intros w1 Hfs1 Hs1 Hr1. split; [done|]. eexists [_].
        split; [split; [rewrite Hs1; reflexivity|done]|]. intros ?? [= -> ->]%list_elem_of_singleton.
        exists replay_id. split; [apply list_elem_of_here|done]. }
      destruct (remote w _ _) as [c b|] eqn:Hrp;
        [|intros [= <- <-]; by apply Hone].
      destruct (c =? 200)%Z; [|intros [= <- <-]; by apply Hone].
      destruct (json_loads b) as [obj|]; [|intros [= <- <-]; by apply Hone].
      destruct (py_getitem obj replay_id) as [v|];
        [|intros [= <- <-]; by apply Hone].
      destruct (py_setitem adv_json replay_id v) as [adv_json'|] eqn:Hset;
        [|intros [= <- <-]; by apply Hone].
      intros (Hfs & news & Hs & Hn)%IH.
      destruct (Hone (answered w rq)) as (_ & news1 & Hs1 & Hn1); [done..|].
      split; [done|]. exists (news1 ++ news).
      split; [by eapply sends_trans|].
      intros rq' rp [?|Hin']%elem_of_app; [eauto|].
      destruct (Hn _ _ Hin') as (x & ? & ? & Hx). exists x.
      split; [by apply list_elem_of_further|]. split; [done|].
      intros Hd. eapply py_contains_setitem_false; [done|done|].
      apply Hx. by eapply py_setitem_is_dict.
    + intros [= <- <-]. split; [done|]. exists []. split; [apply sends_refl|].
      by intros ?? ?%elem_of_nil.
Qed.


(** Identifiers the dict has are passed over. *)
Lemma fetch_replays_skip self params username game_type pre replay_ids
    adv_json replays_cnt w :
  (forall x, x ∈ pre -> py_contains adv_json x = Ok true) ->
  BattleTag.fetch_replays self params username game_type (pre ++ replay_ids)
    adv_json replays_cnt w
  = BattleTag.fetch_replays self params username game_type replay_ids
      adv_json replays_cnt w.
Proof.
  induction pre as [|x pre IH]; intros Hpre; [done|].
  rewrite <- app_comm_cons, fetch_replays_cons.
  rewrite (Hpre x) by apply list_elem_of_here.
  apply IH. intros y Hy. by apply Hpre, list_elem_of_further.
Qed.

Lemma params_mode self :
  dict_get (BattleTag._params self) "mode" = Some (BattleTag.mode self).
Proof.
  unfold BattleTag._params.
  destruct (scalar_eq _ _); [by rewrite dict_get_set_ne|].
  destruct (negb _); [by rewrite dict_get_set_ne|done].
Qed.

Lemma params_api_token self :
  dict_get (BattleTag._params self) "api_token"
  = Some (BattleTag.api_token self).
Proof.
  unfold BattleTag._params.
  destruct (scalar_eq _ _); [by rewrite dict_get_set_ne|].
  destruct (negb _); [by rewrite dict_get_set_ne|done].
Qed.

(** A round whose cache loads and whose listing parses, told by its
    loop: the advanced file is emptied before the loop and written after
    it. *)
Lemma advanced_replays_of_run self params username game_type w
    adv_json base_text base_json :
  cached_records w (BattleTag.adv_file_of username game_type) = Some adv_json ->
  fs w !! BattleTag.base_file_of username game_type = Some (NFile base_text) ->
  json_loads base_text = Some base_json ->
  let adv_file := BattleTag.adv_file_of username game_type in
  let w0 := holding (logging w [InfoDownloadingAdvanced username game_type])
              adv_file "" in
  BattleTag.advanced_replays_of self params username game_type w
  = if negb (py_truthy base_json) then
      (Ok 0, logging (holding w0 adv_file (json_dumps adv_json))
                [InfoNoReplays username game_type])
    else
      match dict_get GAME_TYPES game_type with
      | None => (Raise KeyError, w0)
      | Some label =>
          match py_getitem base_json (PyStr label) with
          | Raise e => (Raise e, w0)
          | Ok listed =>
              match py_iter listed with
              | Raise e => (Raise e, w0)
              | Ok replay_ids =>
                  match BattleTag.fetch_replays self params username game_type
                          replay_ids adv_json 0 w0 with
                  | (Raise e, w1) => (Raise e, w1)
                  | (Ok (adv_json', replays_cnt), w1) =>
                      (Ok replays_cnt,
                       logging (holding w1 adv_file (json_dumps adv_json'))
                         [if (replays_cnt =? 0)%nat
                          then InfoAllDownloaded username game_type
                          else InfoDownloaded replays_cnt])
                  end
              end
          end
      end.
Proof.
  intros Hadv Hbase Hjson adv_file w0. subst w0 adv_file.
  pose proof (base_adv_same_user username game_type) as Hne.
  unfold BattleTag.advanced_replays_of, cached_records in *.
  unfold_run. unfold holding, logging. cbn [fs remote sent logged].
  assert (forall (A : Type) (x y : result A) (u v : world),
            x = y -> u = v -> (x, u) = (y, v)) as Hpair by (by intros; subst).
  destruct (fs w !! BattleTag.adv_file_of username game_type)
    as [[text|]|] eqn:Hf; [|done|];
    [destruct (String.eqb text "") eqn:Htext;
     [injection Hadv as <-|]|injection Hadv as <-];
    cbn [fs remote sent logged];
    repeat (rewrite ?Hbase, ?Hf, ?Hjson, ?Hadv, ?Htext, ?String.eqb_refl,
              ?lookup_insert_eq, ?lookup_insert_ne by done;
            cbn [fs remote sent logged]);
    rewrite ?insert_insert_eq.
  all: destruct (negb (py_truthy base_json));
    [cbn [fs remote sent logged]; by rewrite ?insert_insert_eq|].
  all: destruct (dict_get GAME_TYPES game_type); [|done].
  all: destruct (py_getitem base_json _); [|done].
  all: destruct (py_iter _); [|done].
  all: destruct (BattleTag.fetch_replays _ _ _ _ _ _ _ _)
         as [[[adv_json' replays_cnt]|e] w1]; [|done].
  all: destruct (replays_cnt =? 0)%nat; reflexivity.
Qed.



(** A round whose listing does not parse: the advanced file has been
    emptied by then. *)
Lemma advanced_replays_of_corrupt self params username game_type w
    adv_json base_text :
  cached_records w (BattleTag.adv_file_of username game_type) = Some adv_json ->
  fs w !! BattleTag.base_file_of username game_type = Some (NFile base_text) ->
  json_loads base_text = None ->
  BattleTag.advanced_replays_of self params username game_type w
  = (Raise JSONDecodeError,
     holding (logging w [InfoDownloadingAdvanced username game_type])
       (BattleTag.adv_file_of username game_type) "").
Proof.
  intros Hadv Hbase Hjson.
  pose proof (base_adv_same_user username game_type) as Hne.
  unfold BattleTag.advanced_replays_of, cached_records in *.
  unfold_run. unfold holding, logging. cbn [fs remote sent logged].
  destruct (fs w !! BattleTag.adv_file_of username game_type)
    as [[text|]|] eqn:Hf; [|done|];
    [destruct (String.eqb text "") eqn:Htext;
     [injection Hadv as <-|]|injection Hadv as <-];
    cbn [fs remote sent logged];
    repeat (rewrite ?Hbase, ?Hf, ?Hjson, ?Hadv, ?Htext, ?String.eqb_refl,
              ?lookup_insert_eq, ?lookup_insert_ne by done;
            cbn [fs remote sent logged]);
    by rewrite ?insert_insert_eq.
Qed.

(** A round whose cache does not load, or whose listing cannot be
    opened, ends with an exception before the advanced file is emptied;
    the file has been created if it was missing. *)
Lemma advanced_replays_of_early self params username game_type w :
  let adv_file := BattleTag.adv_file_of username game_type in
  cached_records w adv_file = None
  \/ (forall text, fs w !! BattleTag.base_file_of username game_type
                   <> Some (NFile text)) ->
  exists e w',
    BattleTag.advanced_replays_of self params username game_type w
    = (Raise e, w')
    /\ sent w' = sent w /\ remote w' = remote w
    /\ (fs w' = fs w
        \/ (fs w !! adv_file = None /\ fs w' = <[adv_file := NFile ""]> (fs w))).
Proof.
  intros adv_file Hearly.
  pose proof (base_adv_same_user username game_type) as Hne.
  unfold BattleTag.advanced_replays_of, cached_records in *.
  unfold_run. subst adv_file.
  destruct (fs w !! BattleTag.base_file_of username game_type)
    as [[base_text|]|] eqn:Hb;
    (destruct (fs w !! BattleTag.adv_file_of username game_type)
       as [[text|]|] eqn:Hf;
     [destruct (String.eqb text "") eqn:Htext;
      [|destruct (json_loads text) as [adv_json|] eqn:Hadv]| |]);
    try (destruct Hearly as [?|Hbase]; [done|]);
    try (by destruct (Hbase base_text));
    repeat (rewrite ?Hb, ?Hf, ?Hadv, ?Htext, ?String.eqb_refl,
              ?lookup_insert_eq, ?lookup_insert_ne by done;
            cbn [fs remote sent logged]);
    eexists _, _; (split; [reflexivity|]); cbn [fs remote sent logged]; auto.
Qed.

(** Whatever happens, a round touches the advanced file of its own game
    type only, and keeps the remote. *)
Lemma advanced_replays_of_frame self params username game_type w r w' :
  BattleTag.advanced_replays_of self params username game_type w = (r, w') ->
  (forall p, p <> BattleTag.adv_file_of username game_type ->
             fs w' !! p = fs w !! p)
  /\ exists news, sends w w' news.
Proof.
  intros Hrun.
  destruct (cached_records w (BattleTag.adv_file_of username game_type))
    as [adv_json|] eqn:Hadv.
  2:{ destruct (advanced_replays_of_early self params username game_type w)
        as (e & w1 & Hrun1 & Hs & Hr & Hfs); [by left|].
      rewrite Hrun1 in Hrun. injection Hrun as <- <-. split.
      - intros p Hp. destruct Hfs as [->|[_ ->]]; [done|].
        by rewrite lookup_insert_ne.
      - exists []. split; [by rewrite app_nil_r|done]. }
  destruct (fs w !! BattleTag.base_file_of username game_type)
    as [[base_text|]|] eqn:Hbase.
  2,3: destruct (advanced_replays_of_early self params username game_type w)
        as (e & w1 & Hrun1 & Hs & Hr & Hfs);
        [right; intros text; by rewrite Hbase|];
      rewrite Hrun1 in Hrun; injection Hrun as <- <-; (split;
      [intros p Hp; destruct Hfs as [->|[_ ->]]; [done|];
       by rewrite lookup_insert_ne
      |exists []; split; [by rewrite app_nil_r|done]]).
  destruct (json_loads base_text) as [base_json|] eqn:Hjson.
  2:{ rewrite (advanced_replays_of_corrupt _ _ _ _ _ _ _ Hadv Hbase Hjson)
        in Hrun. injection Hrun as <- <-. split.
      - intros p Hp. cbn. by rewrite lookup_insert_ne.
      - exists []. split; [by rewrite app_nil_r|done]. }
  rewrite (advanced_replays_of_run _ _ _ _ _ _ _ _ Hadv Hbase Hjson) in Hrun.
  assert (forall w1 : world,
            (forall p, p <> BattleTag.adv_file_of username game_type ->
                       fs w1 !! p = fs w !! p) ->
            sent w1 = sent w -> remote w1 = remote w ->
            (forall p, p <> BattleTag.adv_file_of username game_type ->
                       fs w1 !! p = fs w !! p)
            /\ exists news, sends w w1 news) as Hnone.
  { intros w1 Hfs Hs Hr. split; [done|]. exists [].
    split; [by rewrite app_nil_r|done]. }
  assert (forall text p, p <> BattleTag.adv_file_of username game_type ->
            <[BattleTag.adv_file_of username game_type := NFile text]> (fs w)
              !! p = fs w !! p) as Hother.
  { intros. by rewrite lookup_insert_ne. }
  destruct (negb (py_truthy base_json)).
  { injection Hrun as <- <-. apply Hnone; cbn; try done.
    intros. by rewrite !lookup_insert_ne. }
  destruct (dict_get GAME_TYPES game_type) as [label|];
    [|injection Hrun as <- <-; apply Hnone; cbn; auto].
  destruct (py_getitem base_json (PyStr label)) as [listed|];
    [|injection Hrun as <- <-; apply Hnone; cbn; auto].
  destruct (py_iter listed) as [replay_ids|];
    [|injection Hrun as <- <-; apply Hnone; cbn; auto].
  destruct (BattleTag.fetch_replays _ _ _ _ _ _ _ _) as [r1 w1] eqn:Hloop.
  apply fetch_replays_frame in Hloop as (Hfs & news & [Hs Hr] & _).
  destruct r1 as [[adv_json' replays_cnt]|e]; injection Hrun as <- <-.
  - split.
    + intros p Hp. cbn. rewrite lookup_insert_ne, Hfs by done. cbn. auto.
    + exists news. by split.
  - split.
    + intros p Hp. rewrite Hfs. cbn. auto.
    + exists news. by split.
Qed.

End Phase2.

(** C6.  Empty-listing handling, and the case the code misses.  When
    the parsed Base Listing is empty (it has the truth value false, as
    [{}] has), or has the label of the game type with nothing to iterate
    under it, the round writes back the Advanced Record Set it loaded,
    sends no request, returns the fetched-count 0 and ends normally, as
    the claim says.  When the listing is an object that is not empty and
    lacks the label of the game type, the round does not do so: it ends
    with [KeyError], having sent nothing, and leaves the advanced file
    emptied. *)
Theorem empty_listing_round {codec : JsonCodec} (self : BattleTag.t)
    (params : list (string * value)) (username game_type : string)
    (w : world) (adv_json : value) (base_text : string) (base_json : value) :
  let adv_file := BattleTag.adv_file_of username game_type in
  let round := BattleTag.advanced_replays_of self params username game_type in
  cached_records w adv_file = Some adv_json ->
  fs w !! BattleTag.base_file_of username game_type = Some (NFile base_text) ->
  json_loads base_text = Some base_json ->
  ((py_truthy base_json = false
    \/ exists label listed,
         dict_get GAME_TYPES game_type = Some label
         /\ py_getitem base_json (PyStr label) = Ok listed
         /\ py_iter listed = Ok []) ->
   exists w',
     round w = (Ok 0, w')
     /\ fs w' !! adv_file = Some (NFile (json_dumps adv_json))
     /\ sent w' = sent w)
  /\ (forall label d,
        dict_get GAME_TYPES game_type = Some label ->
        base_json = PyDict d ->
        d <> [] ->
        dict_has d label = false ->
        exists w',
          round w = (Raise KeyError, w')
          /\ fs w' !! adv_file = Some (NFile "")
          /\ sent w' = sent w).
Proof.
  intros adv_file round Hadv Hbase Hjson. subst round.
  rewrite (advanced_replays_of_run _ _ _ _ _ _ _ _ Hadv Hbase Hjson).
  split.
  - intros [Hfalse|(label & listed & Hlabel & Hlisted & Hiter)].
    + rewrite Hfalse. eexists. split; [reflexivity|].
      cbn [fs sent holding logging]. by rewrite lookup_insert_eq.
    + rewrite (py_getitem_truthy _ _ _ Hlisted), Hlabel, Hlisted, Hiter.
      eexists. split; [reflexivity|].
      cbn [fs sent holding logging]. by rewrite lookup_insert_eq.
  - intros label d Hlabel -> Hd Hhas. rewrite Hlabel.
    cbn [py_truthy py_getitem]. rewrite dict_has_get in Hhas.
    destruct d; [done|]. cbn [negb].
    destruct (dict_get _ label); [done|].
    eexists. split; [reflexivity|].
    cbn [fs sent holding logging]. by rewrite lookup_insert_eq.
Qed.

Lemma empty_listing_round_witness :
  let w := world_nothing_listed in
  let round :=
    BattleTag.advanced_replays_of (codec := python_json) foo
      (BattleTag._params foo) "Foo" "qm" in
  (exists w',
     round w = (Ok 0, w')
     /\ fs w' !! "Foo/advanced/qm" = Some (NFile (json.dumps (PyDict [])))
     /\ sent w' = sent w)
  /\ (exists w',
        round world_other_label = (Raise KeyError, w')
        /\ fs w' !! "Foo/advanced/qm" = Some (NFile "")
        /\ sent w' = sent world_other_label).
Proof.
  cbv zeta. split.
  - destruct (empty_listing_round (codec := python_json) foo
                (BattleTag._params foo) "Foo" "qm" world_nothing_listed
                (PyDict []) (json.dumps (listing_of "Quick Match" []))
                (listing_of "Quick Match" [])) as [Hempty _];
      [vm_compute; reflexivity..|].
    apply Hempty. right. exists "Quick Match", (PyList []). by repeat split.
  - destruct (empty_listing_round (codec := python_json) foo
                (BattleTag._params foo) "Foo" "qm" world_other_label
                (PyDict [("r1", record_of "r1")])
                (json.dumps (listing_of "Storm League" ["r2"]))
                (listing_of "Storm League" ["r2"])) as [_ Habsent];
      [vm_compute; reflexivity..|].
    apply (Habsent "Quick Match" [("Storm League", PyList [PyStr "r2"])]);
      [reflexivity|reflexivity|discriminate|reflexivity].
Defined.

(** The cached records are gone: the listing read for [qm] has the
    label of another game type only, the cache holds one record, the
    round ends with [KeyError] and the advanced file is left empty. *)
Lemma label_absent_raises :
  let w := world_other_label in
  let run :=
    BattleTag.advanced_replays_of (codec := python_json) foo
      (BattleTag._params foo) "Foo" "qm" w in
  (exists base_text d,
     fs w !! "Foo/base/qm" = Some (NFile base_text)
     /\ json.loads base_text = Some (PyDict d)
     /\ dict_has d "Quick Match" = false)
  /\ cached_records (codec := python_json) w "Foo/advanced/qm"
     = Some (PyDict [("r1", record_of "r1")])
  /\ run.1 = Raise KeyError
  /\ fs run.2 !! "Foo/advanced/qm" = Some (NFile "").
Proof.
  cbv zeta. split.
  { eexists _, _. split; [vm_compute; reflexivity|].
    split; vm_compute; reflexivity. }
  repeat split; vm_compute; reflexivity.
Qed.

(** C10, amended.  The advanced cache file is emptied before the loop
    over the replay identifiers and written after it: when a round whose
    cache and listing could be opened ends with an exception (of the
    transport, of a body with status 200 that does not parse or lacks the
    replay identifier, ...), the last write is skipped and the file is
    left empty, whatever records it held. *)
Theorem advanced_cache_emptied_on_error {codec : JsonCodec}
    (self : BattleTag.t) (params : list (string * value))
    (username game_type : string) (w w' : world) (adv_json : value)
    (base_text : string) (e : exn) :
  let adv_file := BattleTag.adv_file_of username game_type in
  cached_records w adv_file = Some adv_json ->
  fs w !! BattleTag.base_file_of username game_type = Some (NFile base_text) ->
  BattleTag.advanced_replays_of self params username game_type w
  = (Raise e, w') ->
  fs w' = <[adv_file := NFile ""]> (fs w).
Proof.
  intros adv_file Hadv Hbase.
  destruct (json_loads base_text) as [base_json|] eqn:Hjson.
  - rewrite (advanced_replays_of_run _ _ _ _ _ _ _ _ Hadv Hbase Hjson).
    destruct (negb (py_truthy base_json)); [done|].
    destruct (dict_get GAME_TYPES game_type) as [label|];
      [|by intros [= _ <-]].
    destruct (py_getitem base_json (PyStr label)) as [listed|];
      [|by intros [= _ <-]].
    destruct (py_iter listed) as [replay_ids|]; [|by intros [= _ <-]].
    destruct (BattleTag.fetch_replays _ _ _ _ _ _ _ _) as [r1 w1] eqn:Hloop.
    apply fetch_replays_frame in Hloop as (Hfs & _).
    destruct r1 as [[adv_json' replays_cnt]|e1]; [done|].
    by intros [= _ <-].
  - rewrite (advanced_replays_of_corrupt _ _ _ _ _ _ _ Hadv Hbase Hjson).
    by intros [= _ <-].
Qed.

Lemma advanced_cache_emptied_on_error_witness :
  let run :=
    BattleTag.advanced_replays_of (codec := python_json) foo
      (BattleTag._params foo) "Foo" "qm" world_unreachable in
  cached_records (codec := python_json) world_unreachable "Foo/advanced/qm"
  = Some (PyDict [("r1", record_of "r1")])
  /\ run.1 = Raise RequestException
  /\ fs run.2 = <["Foo/advanced/qm" := NFile ""]> (fs world_unreachable).
Proof.
  cbv zeta.
  assert ((BattleTag.advanced_replays_of (codec := python_json) foo
             (BattleTag._params foo) "Foo" "qm" world_unreachable).1
          = Raise RequestException) as Hraised by (vm_compute; reflexivity).
  split; [vm_compute; reflexivity|]. split; [done|].
  destruct (BattleTag.advanced_replays_of _ _ _ _ _) as [r w'] eqn:Hrun.
  simpl in Hraised. subst r.
  apply (advanced_cache_emptied_on_error (codec := python_json) foo
           (BattleTag._params foo) "Foo" "qm" world_unreachable w'
           (PyDict [("r1", record_of "r1")])
           (json.dumps (listing_of "Quick Match" ["r1"; "r2"; "r3"]))
           RequestException).
  - vm_compute. reflexivity.
  - vm_compute. reflexivity.
  - exact Hrun.
Defined.

(** C10 as stated fails for its second example: a detail answer of the
    2xx class whose body lacks the replay identifier is an error with the
    status 200 only.  With the status 201 the round ends normally and the
    file keeps the record it held. *)
Lemma created_without_record_keeps_cache :
  let round := fun status =>
    BattleTag.advanced_replays_of (codec := python_json) foo
      (BattleTag._params foo) "Foo" "qm" (world_without_record status) in
  let held := NFile (json.dumps (PyDict [("r1", record_of "r1")])) in
  fs (world_without_record 201) !! "Foo/advanced/qm" = Some held
  /\ is_2xx 201 = true
  /\ (round 201%Z).1 = Ok 0
  /\ fs (round 201%Z).2 !! "Foo/advanced/qm" = Some held
  /\ (round 200%Z).1 = Raise KeyError
  /\ fs (round 200%Z).2 !! "Foo/advanced/qm" = Some (NFile "").
Proof. cbv zeta. repeat split; vm_compute; reflexivity. Qed.

(** ** Resuming after a refusal *)

Section Resume.
Context {codec : JsonCodec} {laws : JsonLaws codec}.


End Resume.




(** ** Running the fetch again *)

Section Again.
Context {codec : JsonCodec} {laws : JsonLaws codec}.

Lemma strings_listed_spec files username game_type label :
  strings_listed files username game_type label = true
  <-> lists_strings files username game_type label.
Proof.
  unfold strings_listed, lists_strings. split.
  - intros Hb base_text base_json listed replay_ids Hf Hj Hl Hi.
    by rewrite Hf, Hj, Hl, Hi in Hb.
  - intros Hs.
    destruct (files !! _) as [[base_text|]|]; try done.
    destruct (json_loads base_text) as [base_json|] eqn:Hj; [|done].
    destruct (py_getitem base_json _) as [listed|] eqn:Hl; [|done].
    destruct (py_iter listed) as [replay_ids|] eqn:Hi; [|done].
    by eapply Hs.
Qed.

Lemma lists_strings_transfer files files' username game_type label :
  files' !! BattleTag.base_file_of username game_type
  = files !! BattleTag.base_file_of username game_type ->
  lists_strings files username game_type label ->
  lists_strings files' username game_type label.
Proof. unfold lists_strings. intros ->. done. Qed.

(** What the loop returns has what the loop was given, and is well keyed
    if that was, when the identifiers are strings. *)
Lemma fetch_replays_grows self params username game_type replay_ids :
  forall adv_json replays_cnt w adv_json' replays_cnt' w',
  forallb is_str replay_ids = true ->
  BattleTag.fetch_replays self params username game_type replay_ids
    adv_json replays_cnt w = (Ok (adv_json', replays_cnt'), w') ->
  (forall x, py_contains adv_json x = Ok true ->
             py_contains adv_json' x = Ok true)
  /\ (well_keyed adv_json = true -> well_keyed adv_json' = true).
Proof.
  induction replay_ids as [|replay_id rest IH];
    intros adv_json cnt w adv_json' cnt' w' Hstr.
  - by intros [= <- <- <-].
  - cbn [forallb] in Hstr. apply andb_true_iff in Hstr as [Hid Hstr].
    destruct replay_id as [| | |key| | |]; try done. clear Hid.
    set (replay_id := PyStr key).
    rewrite fetch_replays_cons.
    destruct (py_contains adv_json replay_id) as [[]|]; [by apply IH| |done].
    destruct (py_getitem (PyDict params) (PyStr "mode")) as [md|]; [|done].
    destruct (py_getitem (PyDict params) (PyStr "api_token")) as [token|];
      [|done].
    cbn zeta. destruct (remote w _ _) as [c b|]; [|done].
    destruct (c =? 200)%Z; [|by intros [= <- <- <-]].
    destruct (json_loads b) as [obj|] eqn:Hobj; [|done].
    destruct (py_getitem obj replay_id) as [v|] eqn:Hv; [|done].
    destruct (py_setitem adv_json replay_id v) as [adv1|] eqn:Hset; [|done].
    intros [Hgrow Hwk]%IH; [|done]. split.
    + intros x Hx.
      destruct (py_contains_setitem _ _ _ _ x true
                  (py_setitem_str_is_dict _ _ _ _ Hset) Hset Hx)
        as (b' & Hb' & Hb).
      apply Hgrow. by rewrite Hb', Hb.
    + intros Hadv. apply Hwk. eapply well_keyed_setitem; [done| |done].
      eapply well_keyed_getitem; [|done]. by eapply json_loads_well_keyed.
Qed.

(** The loop run again on what it returned, with a remote that answers
    as before, when the identifiers are strings: it returns the same dict
    and adds nothing to the counter; it sends again every request that
    was refused, and nothing else. *)
Lemma fetch_replays_again self params username game_type replay_ids :
  forall adv_json replays_cnt w adv_json' replays_cnt' w' news1,
  forallb is_str replay_ids = true ->
  stateless w ->
  BattleTag.fetch_replays self params username game_type replay_ids
    adv_json replays_cnt w = (Ok (adv_json', replays_cnt'), w') ->
  sends w w' news1 ->
  forall cnt2 w2,
  remote w2 = remote w ->
  exists w3,
    BattleTag.fetch_replays self params username game_type replay_ids
      adv_json' cnt2 w2 = (Ok (adv_json', cnt2), w3)
    /\ fs w3 = fs w2 /\ sends w2 w3 (List.filter refused news1)
    /\ forall rq rp, (rq, rp) ∈ news1 -> req_endpoint rq = "/Replay/Data".
Proof.
  induction replay_ids as [|replay_id rest IH];
    intros adv_json cnt w adv_json' cnt' w' news1 Hstr Hstateless.
  - intros [= <- <- <-] [Hs _] cnt2 w2 _. exists w2.
    rewrite <- (app_nil_r (sent w)) in Hs at 1.
    apply app_inv_head in Hs as <-.
    split; [done|]. split; [done|]. split; [apply sends_refl|].
    by intros ?? ?%elem_of_nil.
  - cbn [forallb] in Hstr. apply andb_true_iff in Hstr as [Hid Hstr].
    destruct replay_id as [| | |key| | |]; try done. clear Hid.
    set (replay_id := PyStr key).
    rewrite fetch_replays_cons.
    destruct (py_contains adv_json replay_id) as [[]|] eqn:Hin; [| |done].
    + intros Hrun Hs cnt2 w2 Hr.
      destruct (fetch_replays_grows _ _ _ _ _ _ _ _ _ _ _ Hstr Hrun)
        as [Hgrow _].
      destruct (IH _ _ _ _ _ _ _ Hstr Hstateless Hrun Hs cnt2 w2 Hr)
        as (w3 & Hrun2 & ?).
      exists w3. rewrite fetch_replays_cons, (Hgrow _ Hin). done.
    + destruct (py_getitem (PyDict params) (PyStr "mode")) as [md|] eqn:Hmd;
        [|done].
      destruct (py_getitem (PyDict params) (PyStr "api_token")) as [token|]
        eqn:Htoken; [|done].
      cbn zeta. set (rq := detail_request self md token replay_id).
      destruct (remote w (length (sent w)) rq) as [c b|] eqn:Hrp; [|done].
      destruct (c =? 200)%Z eqn:Hc.
      * destruct (json_loads b) as [obj|] eqn:Hobj; [|done].
        destruct (py_getitem obj replay_id) as [v|] eqn:Hv; [|done].
        destruct (py_setitem adv_json replay_id v) as [adv1|] eqn:Hset;
          [|done].
        intros Hrun [Hs Hremote] cnt2 w2 Hr.
        destruct (fetch_replays_grows _ _ _ _ _ _ _ _ _ _ _ Hstr Hrun)
          as [Hgrow _].
        destruct (fetch_replays_frame _ _ _ _ _ _ _ _ _ _ Hrun)
          as (_ & news1' & [Hs' Hr'] & _).
        assert (stateless (answered w rq)) as Hstateless' by done.
        destruct (IH _ _ _ _ _ _ news1' Hstr Hstateless' Hrun (conj Hs' Hr')
                    cnt2 w2 Hr) as (w3 & Hrun2 & Hfs & Hs2 & Hn).
        assert (news1 = (rq, Response c b) :: news1') as ->.
        { cbn in Hs'. rewrite Hrp, Hs, <- app_assoc in Hs'.
          by apply app_inv_head in Hs'. }
        exists w3. rewrite fetch_replays_cons.
        rewrite (Hgrow _ (py_contains_setitem_self _ _ _ _
                            (py_setitem_str_is_dict _ _ _ _ Hset) Hset)).
        split; [done|]. split; [done|]. split.
        { cbn [List.filter refused snd]. by rewrite Hc. }
        intros rq' rp [[= -> ->]|Hin']%elem_of_cons; [done|eauto].
      * intros [= <- <- <-] [Hs Hremote] cnt2 w2 Hr.
        assert (news1 = [(rq, Response c b)]) as ->.
        { cbn in Hs. rewrite Hrp in Hs. by apply app_inv_head in Hs. }
        exists (logging (answered w2 rq)
                  [ErrorUnableToDownload replay_id username game_type;
                   ErrorResponse (Response c b)]).
        rewrite fetch_replays_cons, Hin, Hmd, Htoken. cbn zeta. fold rq.
        rewrite Hr, (Hstateless _ (length (sent w))), Hrp, Hc.
        split; [done|]. split; [done|]. split.
        { cbn [List.filter refused snd]. rewrite Hc.
          split; [|done]. cbn. by rewrite Hr,
            (Hstateless _ (length (sent w))), Hrp. }
        by intros rq' rp [= -> ->]%list_elem_of_singleton.
Qed.

(** A round that ends normally has loaded its cache and its listing. *)
Lemma advanced_replays_of_ok_inv self params username game_type w c w' :
  BattleTag.advanced_replays_of self params username game_type w
  = (Ok c, w') ->
  exists adv_json base_text base_json,
    cached_records w (BattleTag.adv_file_of username game_type)
    = Some adv_json
    /\ fs w !! BattleTag.base_file_of username game_type
       = Some (NFile base_text)
    /\ json_loads base_text = Some base_json.
Proof.
  intros Hrun.
  destruct (cached_records w (BattleTag.adv_file_of username game_type))
    as [adv_json|] eqn:Hadv.
  2:{ destruct (advanced_replays_of_early self params username game_type w)
        as (e & w1 & Hrun1 & _); [by left|]. congruence. }
  destruct (fs w !! BattleTag.base_file_of username game_type)
    as [[base_text|]|] eqn:Hbase.
  2,3: destruct (advanced_replays_of_early self params username game_type w)
         as (e & w1 & Hrun1 & _);
         [right; intros text; by rewrite Hbase|congruence].
  destruct (json_loads base_text) as [base_json|] eqn:Hjson.
  2:{ rewrite (advanced_replays_of_corrupt _ _ _ _ _ _ _ Hadv Hbase Hjson)
        in Hrun. done. }
  by exists adv_json, base_text, base_json.
Qed.

(** A round run again on the files a normal round has left, with a
    remote that answers as before, when the listing names strings: it
    returns 0, leaves the files as they are, and sends again the request
    that was refused, if one was. *)
Lemma advanced_replays_of_again self params username game_type wa c wb
    news1 :
  (forall label, dict_get GAME_TYPES game_type = Some label ->
     lists_strings (fs wa) username game_type label) ->
  stateless wa ->
  BattleTag.advanced_replays_of self params username game_type wa
  = (Ok c, wb) ->
  sends wa wb news1 ->
  forall w2,
  remote w2 = remote wa ->
  fs w2 !! BattleTag.adv_file_of username game_type
  = fs wb !! BattleTag.adv_file_of username game_type ->
  fs w2 !! BattleTag.base_file_of username game_type
  = fs wa !! BattleTag.base_file_of username game_type ->
  exists w3,
    BattleTag.advanced_replays_of self params username game_type w2
    = (Ok 0, w3)
    /\ fs w3 = fs w2 /\ sends w2 w3 (List.filter refused news1)
    /\ forall rq rp, (rq, rp) ∈ news1 -> req_endpoint rq = "/Replay/Data".
Proof.
  intros Hstrings Hstateless Hrun [Hs1 Hr1] w2 Hr2 Hadv2 Hbase2.
  destruct (advanced_replays_of_ok_inv _ _ _ _ _ _ _ Hrun)
    as (adv_json & base_text & base_json & Hadv & Hbase & Hjson).
  pose proof (cached_records_well_keyed _ _ _ Hadv) as Hwk.
  rewrite (advanced_replays_of_run _ _ _ _ _ _ _ _ Hadv Hbase Hjson) in Hrun.
  rewrite Hbase in Hbase2.
  destruct (negb (py_truthy base_json)) eqn:Htruthy.
  - injection Hrun as <- <-. cbn in Hadv2. rewrite lookup_insert_eq in Hadv2.
    pose proof (cached_records_dumped _ _ _ Hadv2 Hwk) as Hcached.
    rewrite (advanced_replays_of_run _ _ _ _ _ _ _ _ Hcached Hbase2 Hjson).
    rewrite Htruthy. cbn in Hs1.
    rewrite <- (app_nil_r (sent wa)) in Hs1 at 1.
    apply app_inv_head in Hs1 as <-.
    eexists. split; [reflexivity|]. cbn.
    split; [by rewrite insert_insert_eq, insert_id|].
    split; [split; [by rewrite app_nil_r|done]|].
    by intros ?? ?%elem_of_nil.
  - destruct (dict_get GAME_TYPES game_type) as [label|] eqn:Hlabel; [|done].
    destruct (py_getitem base_json (PyStr label)) as [listed|] eqn:Hlisted;
      [|done].
    destruct (py_iter listed) as [replay_ids|] eqn:Hiter; [|done].
    pose proof (Hstrings label eq_refl _ _ _ _ Hbase Hjson Hlisted Hiter)
      as Hstr.
    destruct (BattleTag.fetch_replays _ _ _ _ _ _ _ _)
      as [[[adv_json' replays_cnt]|e] w1] eqn:Hloop; [|done].
    injection Hrun as <- <-. cbn in Hadv2, Hs1, Hr1.
    rewrite lookup_insert_eq in Hadv2.
    destruct (fetch_replays_grows _ _ _ _ _ _ _ _ _ _ _ Hstr Hloop)
      as [_ Hwk'].
    pose proof (cached_records_dumped _ _ _ Hadv2 (Hwk' Hwk)) as Hcached.
    rewrite (advanced_replays_of_run _ _ _ _ _ _ _ _ Hcached Hbase2 Hjson).
    rewrite Htruthy, Hlabel, Hlisted, Hiter.
    set (w0 := holding (logging w2 _) _ _).
    match type of Hloop with
    | BattleTag.fetch_replays _ _ _ _ _ _ _ ?wa0 = _ =>
        assert (stateless wa0) as Hstateless0 by exact Hstateless;
        assert (sends wa0 w1 news1) as Hsends0 by (by split);
        assert (remote w0 = remote wa0) as Hremote0 by exact Hr2
    end.
    destruct (fetch_replays_again _ _ _ _ _ _ _ _ _ _ _ news1 Hstr Hstateless0
                Hloop Hsends0 0 w0 Hremote0)
      as (w3 & Hloop2 & Hfs3 & [Hs3 Hr3] & Hn).
    rewrite Hloop2. eexists. split; [reflexivity|]. cbn.
    split; [by rewrite Hfs3; cbn; rewrite insert_insert_eq, insert_id|].
    split; [by split|done].
Qed.

(** The rounds of Phase 2 touch advanced files of their game types
    only. *)
Lemma advanced_rounds_frame self params username game_types :
  forall w r w',
  BattleTag.for_each_counting
    (BattleTag.advanced_replays_of self params username) game_types w
  = (r, w') ->
  (forall p, (forall g, g ∈ game_types ->
                p <> BattleTag.adv_file_of username g) ->
             fs w' !! p = fs w !! p)
  /\ exists news, sends w w' news.
Proof.
  induction game_types as [|g gs IH]; intros w r w'.
  - intros [= <- <-]. split; [done|]. exists []. apply sends_refl.
  - rewrite for_each_counting_cons.
    destruct (BattleTag.advanced_replays_of self params username g w)
      as [r1 w1] eqn:Hround.
    destruct (advanced_replays_of_frame _ _ _ _ _ _ _ Hround)
      as (Hframe & news1 & Hs1).
    destruct r1 as [n|e].
    + destruct (BattleTag.for_each_counting _ gs w1) as [r2 w2] eqn:Hrest.
      destruct (IH _ _ _ Hrest) as (Hframe' & news & Hs).
      intros Hrun.
      assert (w' = w2) as -> by (destruct r2; by injection Hrun).
      split.
      * intros p Hp. rewrite Hframe', Hframe; [done| |].
        -- apply Hp, list_elem_of_here.
        -- intros g' Hg'. by apply Hp, list_elem_of_further.
      * exists (news1 ++ news). by eapply sends_trans.
    + intros [= <- <-]. split; [|by exists news1].
      intros p Hp. apply Hframe, Hp, list_elem_of_here.
Qed.

(** Phase 2 run again on the files it has left, with a remote that
    answers as before, when the listings name strings. *)
Lemma advanced_rounds_again self params username game_types :
  forall wa counts wz news1,
  NoDup game_types ->
  (forall g, g ∈ game_types -> g ∈ dict_keys GAME_TYPES) ->
  (forall g label, g ∈ game_types -> dict_get GAME_TYPES g = Some label ->
     lists_strings (fs wa) username g label) ->
  stateless wa ->
  BattleTag.for_each_counting
    (BattleTag.advanced_replays_of self params username) game_types wa
  = (Ok counts, wz) ->
  sends wa wz news1 ->
  forall w2,
  remote w2 = remote wa ->
  (forall g, g ∈ game_types ->
     fs w2 !! BattleTag.adv_file_of username g
     = fs wz !! BattleTag.adv_file_of username g
     /\ fs w2 !! BattleTag.base_file_of username g
        = fs wa !! BattleTag.base_file_of username g) ->
  exists w3,
    BattleTag.for_each_counting
      (BattleTag.advanced_replays_of self params username) game_types w2
    = (Ok (replicate (length game_types) 0), w3)
    /\ fs w3 = fs w2 /\ sends w2 w3 (List.filter refused news1)
    /\ forall rq rp, (rq, rp) ∈ news1 -> req_endpoint rq = "/Replay/Data".
Proof.
  induction game_types as [|g gs IH];
    intros wa counts wz news1 Hnodup Hkeys Hstrings Hstateless Hrun Hs w2 Hr2
      Hfiles.
  - injection Hrun as <- <-. destruct Hs as [Hs _].
    rewrite <- (app_nil_r (sent wa)) in Hs at 1.
    apply app_inv_head in Hs as <-.
    exists w2. split; [done|]. split; [done|].
    split; [apply sends_refl|]. by intros ?? ?%elem_of_nil.
  - rewrite for_each_counting_cons in Hrun.
    destruct (BattleTag.advanced_replays_of self params username g wa)
      as [[c|e] wb] eqn:Hround; [|done].
    destruct (BattleTag.for_each_counting _ gs wb) as [[counts'|e] wz']
      eqn:Hrest; [|done].
    injection Hrun as <- <-.
    apply NoDup_cons in Hnodup as [Hnotin Hnodup].
    destruct (advanced_replays_of_frame _ _ _ _ _ _ _ Hround)
      as (Hframe_g & newsA & HsA).
    destruct (advanced_rounds_frame _ _ _ _ _ _ _ Hrest)
      as (Hframe_rest & newsB & HsB).
    assert (news1 = newsA ++ newsB) as ->.
    { destruct Hs as [Hs _], HsA as [HsA _], HsB as [HsB _].
      rewrite HsB, HsA, <- app_assoc in Hs. by apply app_inv_head in Hs. }
    assert (forall g', g' ∈ gs ->
              BattleTag.adv_file_of username g
              <> BattleTag.adv_file_of username g') as Hdistinct.
    { intros g' Hg' Heq. apply adv_file_of_inj in Heq as [_ ->]; [done| |].
      - apply game_type_no_slash, Hkeys, list_elem_of_here.
      - by apply game_type_no_slash, Hkeys, list_elem_of_further. }
    destruct (Hfiles g) as [Hadv_g Hbase_g]; [apply list_elem_of_here|].
    rewrite Hframe_rest in Hadv_g by done.
    destruct (advanced_replays_of_again _ _ _ _ _ _ _ newsA
                (fun label => Hstrings g label (list_elem_of_here _ _))
                Hstateless Hround HsA w2 Hr2 Hadv_g Hbase_g)
      as (w3 & Hround2 & Hfs3 & Hs3 & Hn3).
    assert (stateless wb) as Hstateless_b.
    { intros n m rq. destruct HsA as [_ ->]. apply Hstateless. }
    assert (forall g', g' ∈ gs ->
              fs wb !! BattleTag.base_file_of username g'
              = fs wa !! BattleTag.base_file_of username g') as Hbase_b.
    { intros g' Hg'. apply Hframe_g. apply base_adv_distinct.
      - by apply game_type_no_slash, Hkeys, list_elem_of_further.
      - apply game_type_no_slash, Hkeys, list_elem_of_here. }
    destruct (IH wb counts' wz' newsB Hnodup) with (w2 := w3)
      as (w4 & Hrest2 & Hfs4 & Hs4 & Hn4); try done.
    { intros. by apply Hkeys, list_elem_of_further. }
    { intros g' label Hg' Hlabel.
      eapply lists_strings_transfer; [by apply Hbase_b|].
      by apply Hstrings; [apply list_elem_of_further|]. }
    { destruct Hs3 as [_ ->], HsA as [_ ->]. done. }
    { intros g' Hg'. rewrite Hfs3.
      destruct (Hfiles g') as [Ha Hb]; [by apply list_elem_of_further|].
      split; [done|]. rewrite Hb. symmetry. by apply Hbase_b. }
    exists w4. rewrite for_each_counting_cons, Hround2, Hrest2.
    split; [done|]. split; [congruence|].
    split; [rewrite List.filter_app; by eapply sends_trans|].
    intros rq rp [Hin|Hin]%elem_of_app; eauto.
Qed.

End Again.

Section FetchIdentity.
Context {codec : JsonCodec}.

Lemma download_advanced_replays_run self tag w :
  BattleTag.battletag self = PyStr tag ->
  BattleTag.download_advanced_replays self w
  = BattleTag.for_each_counting
      (BattleTag.advanced_replays_of self (BattleTag._params self)
         (split_hash_0 tag))
      (dict_keys GAME_TYPES) w.
Proof.
  intros Htag.
  unfold BattleTag.download_advanced_replays, BattleTag.username_of.
  rewrite Htag. reflexivity.
Qed.

(** The fetch of an identity whose handle is not a string ends with an
    exception at once. *)
Lemma fetch_identity_handle self w r w' :
  fetch_identity self w = (r, w') ->
  (exists tag, BattleTag.battletag self = PyStr tag)
  \/ (r = Raise AttributeError /\ w' = w).
Proof.
  unfold fetch_identity, BattleTag.download_base_replays,
    BattleTag.username_of.
  destruct (BattleTag.battletag self); eauto;
    intros [= <- <-]; by right.
Qed.

Lemma fetch_identity_run self tag w :
  BattleTag.battletag self = PyStr tag ->
  fetch_identity self w
  = match for_each
            (BattleTag.base_replays_of self (BattleTag._params self)
               (split_hash_0 tag)) (dict_keys GAME_TYPES) w with
    | (Ok _, wa) =>
        BattleTag.for_each_counting
          (BattleTag.advanced_replays_of self (BattleTag._params self)
             (split_hash_0 tag)) (dict_keys GAME_TYPES) wa
    | (Raise e, wa) => (Raise e, wa)
    end.
Proof.
  intros Htag. unfold fetch_identity. rewrite bind_run.
  rewrite (download_base_replays_run self tag w Htag).
  destruct (for_each _ _ w) as [[[]|e] wa]; [|done].
  apply download_advanced_replays_run, Htag.
Qed.

(** A round of Phase 1 that ends normally has sent nothing that was
    refused. *)
Lemma base_replays_of_served self params username game_type w w' :
  BattleTag.base_replays_of self params username game_type w = (Ok tt, w') ->
  exists news, sends w w' news /\ List.filter refused news = [].
Proof.
  destruct (fs w !! BattleTag.base_file_of username game_type)
    as [[text|]|] eqn:Hf.
  - intros Hrun.
    destruct (base_replays_of_cached self params username game_type w text Hf)
      as (r0 & w0 & Hrun0 & _ & Hs & _).
    rewrite Hrun0 in Hrun. injection Hrun as -> ->. by exists [].
  - unfold BattleTag.base_replays_of. unfold_run.
    destruct (dict_get GAME_TYPES game_type) as [label|] eqn:Hl;
      rewrite !Hf; simpl; [|done].
    destruct (remote w _ _) as [c b|] eqn:Hr; simpl; [|done].
    destruct (c =? 200)%Z; simpl; rewrite ?Hf; simpl; done.
  - unfold BattleTag.base_replays_of. unfold_run.
    destruct (dict_get GAME_TYPES game_type) as [label|] eqn:Hl;
      rewrite !Hf; simpl; [|done].
    destruct (remote w _ _) as [c b|] eqn:Hr; simpl; [|done].
    destruct (c =? 200)%Z eqn:Hc; simpl; rewrite ?Hf; simpl; [|done].
    destruct (json_loads b) as [obj|]; simpl; rewrite ?lookup_insert_eq;
      simpl; [|done].
    destruct (json_loads (json_dumps obj)) as [obj'|] eqn:Hobj'; simpl;
      [|done].
    intros [= <-]. eexists [_]. split; [by split|].
    cbn [List.filter refused snd]. by rewrite Hc.
Qed.

Lemma base_rounds_served self params username game_types :
  forall w w',
  for_each (BattleTag.base_replays_of self params username) game_types w
  = (Ok tt, w') ->
  exists news, sends w w' news /\ List.filter refused news = [].
Proof.
  induction game_types as [|g gs IH]; intros w w'.
  - intros [= <-]. exists []. split; [apply sends_refl|done].
  - rewrite for_each_cons.
    destruct (BattleTag.base_replays_of self params username g w)
      as [[[]|e] w1] eqn:Hround; [|done].
    destruct (base_replays_of_served _ _ _ _ _ _ Hround)
      as (news1 & Hs1 & Hn1).
    intros (news & Hs & Hn)%IH. exists (news1 ++ news).
    split; [by eapply sends_trans|]. by rewrite List.filter_app, Hn1, Hn.
Qed.

End FetchIdentity.

(** C2, amended.  Idempotence, for every identity whose listings name
    their replays by strings and every remote that answers a request the
    same way each time.  When the first full fetch (Phase 1, then
    Phase 2 over the four game types) ends normally, a second one over
    the files it has left ends normally too, leaves every cache file as
    it is, and returns the fetched-count 0 for every game type.  What it
    sends is exactly what the first fetch saw refused (answered with
    another status than 200), sent again in the same order: detail
    requests only, no listing request, and no request at all when the
    first fetch met no refusal. *)
Theorem fetch_twice {codec : JsonCodec} {laws : JsonLaws codec}
    (self : BattleTag.t) (tag : string) (w w1 : world) (counts : list nat)
    (news1 : list (request * reply)) :
  BattleTag.battletag self = PyStr tag ->
  stateless w ->
  fetch_identity self w = (Ok counts, w1) ->
  sends w w1 news1 ->
  (forall game_type label,
     dict_get GAME_TYPES game_type = Some label ->
     lists_strings (fs w1) (split_hash_0 tag) game_type label) ->
  forall w2, fs w2 = fs w1 -> remote w2 = remote w ->
  exists w3,
    fetch_identity self w2 = (Ok [0; 0; 0; 0], w3)
    /\ (forall username game_type,
          fs w3 !! BattleTag.base_file_of username game_type
          = fs w1 !! BattleTag.base_file_of username game_type
          /\ fs w3 !! BattleTag.adv_file_of username game_type
             = fs w1 !! BattleTag.adv_file_of username game_type)
    /\ sends w2 w3 (List.filter refused news1)
    /\ forall rq rp, (rq, rp) ∈ List.filter refused news1 ->
         req_endpoint rq = "/Replay/Data".
Proof.
  intros Htag Hstateless Hrun Hs1 Hstrings w2 Hfs2 Hr2.
  rewrite (fetch_identity_run self tag w Htag) in Hrun.
  destruct (for_each _ _ w) as [[[]|e] wa] eqn:Hphase1; [|done].
  pose proof (fun g (Hg : g ∈ dict_keys GAME_TYPES) => Hg) as Hkeys.
  pose proof (base_rounds_ok _ _ _ _ _ _ Hphase1 Hkeys) as Hlistings.
  destruct (base_rounds_served _ _ _ _ _ _ Hphase1) as (newsA & HsA & HnA).
  destruct (advanced_rounds_frame _ _ _ _ _ _ _ Hrun)
    as (Hframe & newsB & HsB).
  assert (news1 = newsA ++ newsB) as ->.
  { destruct Hs1 as [Hs1 _], HsA as [HsA _], HsB as [HsB _].
    rewrite HsB, HsA, <- app_assoc in Hs1. by apply app_inv_head in Hs1. }
  assert (forall g, g ∈ dict_keys GAME_TYPES ->
            fs w1 !! BattleTag.base_file_of (split_hash_0 tag) g
            = fs wa !! BattleTag.base_file_of (split_hash_0 tag) g) as Hbase.
  { intros g Hg. apply Hframe. intros g' Hg'.
    apply base_adv_distinct; by apply game_type_no_slash. }
  rewrite (fetch_identity_run self tag w2 Htag).
  rewrite base_rounds_cached.
  2:{ intros g Hg. rewrite Hfs2, Hbase by done. by apply Hlistings. }
  assert (stateless wa) as Hstateless_a.
  { intros n m rq. destruct HsA as [_ ->]. apply Hstateless. }
  destruct (advanced_rounds_again self (BattleTag._params self)
              (split_hash_0 tag) (dict_keys GAME_TYPES) wa counts w1 newsB)
    with (w2 := w2) as (w3 & Hrun2 & Hfs3 & Hs3 & Hn3); try done.
  { apply (bool_decide_unpack _). vm_compute. reflexivity. }
  { intros g label Hg Hlabel.
    eapply lists_strings_transfer; [symmetry; by apply Hbase|].
    by apply Hstrings. }
  { destruct HsA as [_ ->]. done. }
  { intros g Hg. rewrite Hfs2. split; [done|]. by apply Hbase. }
  rewrite List.filter_app, HnA. cbn [app].
  exists w3. split; [done|].
  split; [intros username game_type; by rewrite Hfs3, Hfs2|].
  split; [done|].
  intros rq rp Hin%list_elem_of_In%List.filter_In.
  destruct Hin as [Hin%list_elem_of_In _]. eauto.
Qed.

Lemma run_ok_pair {A} (m : M A) (w : world) (a : A) :
  (m w).1 = Ok a -> m w = (Ok a, (m w).2).
Proof. destruct (m w) as [r w']. simpl. by intros ->. Qed.

Lemma fetch_twice_witness :
  exists w3,
    fetch_identity (codec := python_json) foo (restarted after_refused_fetch)
    = (Ok [0; 0; 0; 0], w3)
    /\ (forall username game_type,
          fs w3 !! BattleTag.base_file_of username game_type
          = fs after_refused_fetch !! BattleTag.base_file_of username game_type
          /\ fs w3 !! BattleTag.adv_file_of username game_type
             = fs after_refused_fetch
               !! BattleTag.adv_file_of username game_type)
    /\ sends (restarted after_refused_fetch) w3
         (List.filter refused (sent after_refused_fetch))
    /\ forall rq rp,
         (rq, rp) ∈ List.filter refused (sent after_refused_fetch) ->
         req_endpoint rq = "/Replay/Data".
Proof.
  apply (fetch_twice (codec := python_json) (laws := python_json_laws) foo
           "Foo#1234" (World ∅ remote_details_down [] []) after_refused_fetch
           [0; 0; 0; 0] (sent after_refused_fetch)).
  - reflexivity.
  - intros n m rq. reflexivity.
  - apply (run_ok_pair (fetch_identity (codec := python_json) foo)).
    vm_compute. reflexivity.
  - split; vm_compute; reflexivity.
  - intros game_type label Hlabel%GAME_TYPES_cases.
    apply strings_listed_spec. revert Hlabel. unfold GAME_TYPES.
    rewrite !elem_of_cons, elem_of_nil.
    intros [[= -> ->]|[[= -> ->]|[[= -> ->]|[[= -> ->]|[]]]]];
      vm_compute; reflexivity.
  - reflexivity.
  - vm_compute. reflexivity.
Defined.

(** C2 as stated fails.  When the detail endpoint refuses, the first
    fetch ends normally and the second one sends the refused detail
    requests again, one for each game type.  And when a listing names
    a replay by the number [0] and the detail is an array, the first
    fetch ends normally with one record a game type, written under the
    key ["0"]; the cache has no key [0] when it is loaded again, so the
    second fetch asks again, counts one record a game type and writes
    the key twice. *)
Lemma second_fetch_asks_again :
  let asks :=
    detail_request foo (PyStr "json") (PyStr "secret") (PyStr "r1") in
  let second :=
    fetch_identity (codec := python_json) foo (restarted after_refused_fetch)
  in
  let second_numbered :=
    fetch_identity (codec := python_json) foo (restarted after_numbered_fetch)
  in
  (stateless (World ∅ remote_details_down [] [])
   /\ (fetch_identity (codec := python_json) foo
         (World ∅ remote_details_down [] [])).1 = Ok [0; 0; 0; 0]
   /\ second.1 = Ok [0; 0; 0; 0]
   /\ fs second.2 = fs after_refused_fetch
   /\ (sent second.2).*1 = [asks; asks; asks; asks])
  /\ (stateless (World ∅ remote_numbered [] [])
      /\ (fetch_identity (codec := python_json) foo
            (World ∅ remote_numbered [] [])).1 = Ok [1; 1; 1; 1]
      /\ second_numbered.1 = Ok [1; 1; 1; 1]
      /\ length (sent second_numbered.2) = 4
      /\ fs second_numbered.2 !! "Foo/advanced/qm"
         <> fs after_numbered_fetch !! "Foo/advanced/qm").
Proof.
  cbv zeta. split.
  - split; [by intros n m rq|]. repeat split; vm_compute; reflexivity.
  - split; [by intros n m rq|].
    split; [vm_compute; reflexivity|]. split; [vm_compute; reflexivity|].
    split; [vm_compute; reflexivity|]. vm_compute. discriminate.
Qed.
(** ** The run, identity by identity *)

Section Run.
Context {codec : JsonCodec}.





End Run.




(** ** Setting up the identities *)

Section Setup.
Context {codec : JsonCodec}.

(** The attributes that hold the credential are set by the round of
    [api_token_path] only. *)
Lemma setattr_keeps_credential tag_obj ppty v :
  ppty ∈ ["base_url"; "mode"; "region"; "game_type"] ->
  BattleTag.api_token (BattleTag.setattr tag_obj ppty v)
  = BattleTag.api_token tag_obj
  /\ BattleTag.api_token_path (BattleTag.setattr tag_obj ppty v)
     = BattleTag.api_token_path tag_obj.
Proof.
  rewrite !elem_of_cons, elem_of_nil. destruct tag_obj.
  intros [->|[->|[->|[->|[]]]]]; done.
Qed.

Lemma set_from_general_inv config_content tag_obj ppty w tag_obj' w' :
  BattleTags.set_from_general config_content tag_obj ppty w
  = (Ok tag_obj', w') ->
  w' = w
  /\ (tag_obj' = tag_obj
      \/ exists v, general_value config_content ppty v
                   /\ tag_obj' = BattleTag.setattr tag_obj ppty v).
Proof.
  unfold BattleTags.set_from_general, general_value. unfold_run.
  destruct (py_get config_content "general" (PyList [])) as [general|];
    [|done].
  destruct (py_contains general (PyStr ppty)) as [[]|]; [| |done].
  - destruct (py_getitem config_content (PyStr "general")) as [section|];
      [|done].
    destruct (py_getitem section (PyStr ppty)) as [v|] eqn:Hv; [|done].
    intros [= <- <-]. split; [done|]. right. eauto.
  - intros [= <- <-]. auto.
Qed.

(** Nothing can be indexed by a list. *)
Lemma py_getitem_list_key container l :
  exists e, py_getitem container (PyList l) = Raise e.
Proof. destruct container; simpl; eauto. Qed.

(** The look-up under the entry never succeeds: when it ends normally,
    it has changed nothing. *)
Lemma set_from_tag_inv config_content tag tag_obj ppty w tag_obj' w' :
  BattleTags.set_from_tag config_content tag tag_obj ppty w
  = (Ok tag_obj', w') ->
  w' = w /\ tag_obj' = tag_obj.
Proof.
  unfold BattleTags.set_from_tag. unfold_run.
  destruct tag as [| | | |l| |]; cbn [BattleTag.is_list];
    try by intros [= <- <-].
  destruct (py_contains (PyList l) (PyStr ppty)) as [[]|]; [| |done].
  - destruct (py_getitem config_content (PyStr "battle_tags")) as [tags|];
      [|done].
    by destruct (py_getitem_list_key tags l) as [e ->].
  - by intros [= <- <-].
Qed.

Lemma read_api_token_inv tag_obj w tag_obj' w' :
  BattleTags.read_api_token tag_obj w = (Ok tag_obj', w') ->
  w' = w
  /\ exists path text,
       BattleTag.api_token_path tag_obj = PyStr path
       /\ fs w !! path = Some (NFile text)
       /\ tag_obj'
          = BattleTag.setattr tag_obj "api_token" (PyStr (strip text)).
Proof.
  unfold BattleTags.read_api_token. unfold_run.
  destruct (BattleTag.api_token_path tag_obj) as [| | |p| | |]; try done.
  cbn [os_path_isfile open_read_at]. unfold isfile, open_read.
  destruct (fs w !! p) as [[text|]|] eqn:Hf; simpl; rewrite ?Hf; try done.
  intros [= <- <-]. split; [done|]. by exists p, text.
Qed.

Lemma setup_property_credential config_content tag w tag_obj' w' :
  BattleTags.setup_property config_content tag (BattleTag.__init__ tag)
    "api_token_path" w = (Ok tag_obj', w') ->
  w' = w
  /\ BattleTag.battletag tag_obj' = tag
  /\ credential_read config_content w tag_obj'.
Proof.
  unfold BattleTags.setup_property. rewrite bind_run.
  destruct (BattleTags.set_from_general _ _ _ _) as [[t1|] w1] eqn:H1;
    [|done].
  apply set_from_general_inv in H1 as [-> H1]. rewrite bind_run.
  destruct (BattleTags.set_from_tag _ _ _ _ _) as [[t2|] w2] eqn:H2; [|done].
  apply set_from_tag_inv in H2 as [-> ->].
  cbn [String.eqb Ascii.eqb Bool.eqb].
  intros (-> & path & text & Hpath & Hf & ->)%read_api_token_inv.
  split; [done|].
  destruct H1 as [->|(v & Hv & ->)]; [done|].
  cbn in Hpath. subst v. split; [done|]. by exists path, text.
Qed.

Lemma setup_property_other config_content tag tag_obj ppty w tag_obj' w' :
  ppty ∈ ["base_url"; "mode"; "region"; "game_type"] ->
  BattleTags.setup_property config_content tag tag_obj ppty w
  = (Ok tag_obj', w') ->
  w' = w
  /\ BattleTag.battletag tag_obj' = BattleTag.battletag tag_obj
  /\ BattleTag.api_token tag_obj' = BattleTag.api_token tag_obj
  /\ BattleTag.api_token_path tag_obj' = BattleTag.api_token_path tag_obj.
Proof.
  intros Hppty. unfold BattleTags.setup_property. rewrite bind_run.
  destruct (BattleTags.set_from_general _ _ _ _) as [[t1|] w1] eqn:H1;
    [|done].
  apply set_from_general_inv in H1 as [-> H1]. rewrite bind_run.
  destruct (BattleTags.set_from_tag _ _ _ _ _) as [[t2|] w2] eqn:H2; [|done].
  apply set_from_tag_inv in H2 as [-> ->].
  assert (String.eqb ppty "api_token_path" = false) as ->.
  { revert Hppty. rewrite !elem_of_cons, elem_of_nil.
    intros [->|[->|[->|[->|[]]]]]; done. }
  intros [= <- <-]. split; [done|].
  destruct H1 as [->|(v & _ & ->)]; [done|].
  revert Hppty. rewrite !elem_of_cons, elem_of_nil. destruct tag_obj.
  intros [->|[->|[->|[->|[]]]]]; done.
Qed.

Lemma setup_properties_inv config_content tag w tag_obj' w' :
  BattleTags.setup_properties config_content tag (BattleTag.__init__ tag)
    ["api_token_path"; "base_url"; "mode"; "region"; "game_type"] w
  = (Ok tag_obj', w') ->
  w' = w
  /\ BattleTag.battletag tag_obj' = tag
  /\ credential_read config_content w tag_obj'.
Proof.
  cbn [BattleTags.setup_properties]. rewrite bind_run.
  destruct (BattleTags.setup_property _ _ _ "api_token_path" _)
    as [[t1|] w1] eqn:H1; [|done].
  apply setup_property_credential in H1
    as (-> & Hname & path & text & Hgeneral & Hpath & Hf & Htoken).
  rewrite bind_run.
  destruct (BattleTags.setup_property _ _ _ "base_url" _)
    as [[t2|] w2] eqn:H2; [|done].
  apply setup_property_other in H2 as (-> & Hn2 & Ht2 & Hp2);
    [|set_solver]. rewrite bind_run.
  destruct (BattleTags.setup_property _ _ _ "mode" _)
    as [[t3|] w3] eqn:H3; [|done].
  apply setup_property_other in H3 as (-> & Hn3 & Ht3 & Hp3);
    [|set_solver]. rewrite bind_run.
  destruct (BattleTags.setup_property _ _ _ "region" _)
    as [[t4|] w4] eqn:H4; [|done].
  apply setup_property_other in H4 as (-> & Hn4 & Ht4 & Hp4);
    [|set_solver]. rewrite bind_run.
  destruct (BattleTags.setup_property _ _ _ "game_type" _)
    as [[t5|] w5] eqn:H5; [|done].
  apply setup_property_other in H5 as (-> & Hn5 & Ht5 & Hp5);
    [|set_solver].
  intros [= <- <-]. split; [done|]. split; [congruence|].
  exists path, text. repeat split; congruence.
Qed.

(** The identities the loop over the tags appends, when it ends
    normally: one for each tag, each with its credential read. *)
Lemma setup_tags_inv config_content tags :
  forall battle_tags w battle_tags' w',
  BattleTags.setup_tags config_content tags battle_tags w
  = (Ok battle_tags', w') ->
  w' = w
  /\ exists news,
       battle_tags' = battle_tags ++ news
       /\ BattleTag.battletag <$> news = tags
       /\ Forall (credential_read config_content w) news.
Proof.
  induction tags as [|tag rest IH]; intros battle_tags w battle_tags' w'.
  - intros [= <- <-]. split; [done|]. exists []. by rewrite app_nil_r.
  - cbn [BattleTags.setup_tags]. rewrite bind_run.
    destruct (BattleTags.setup_properties _ _ _ _ _) as [[t|] w1] eqn:Ht;
      [|done].
    apply setup_properties_inv in Ht as (-> & Hname & Hcred).
    intros (-> & news & -> & Hnames & Hnews)%IH. split; [done|].
    exists (t :: news). rewrite <- app_assoc. split; [done|].
    split; [by rewrite fmap_cons, Hname, Hnames|]. by constructor.
Qed.

Lemma setup_battle_tags_from_config_inv config_content battle_tags w
    battle_tags' w' :
  BattleTags.setup_battle_tags_from_config config_content battle_tags w
  = (Ok battle_tags', w') ->
  w' = w
  /\ py_contains config_content (PyStr "general") = Ok true
  /\ exists listed tags news,
       py_get config_content "battle_tags" (PyList []) = Ok listed
       /\ py_iter listed = Ok tags
       /\ battle_tags' = battle_tags ++ news
       /\ BattleTag.battletag <$> news = tags
       /\ Forall (credential_read config_content w) news.
Proof.
  unfold BattleTags.setup_battle_tags_from_config. unfold_run.
  destruct (py_contains config_content (PyStr "general")) as [[]|]; try done.
  destruct (py_get config_content "battle_tags" (PyList [])) as [listed|]
    eqn:Hlisted; [|done].
  destruct (py_iter listed) as [tags|] eqn:Htags; [|done].
  intros (-> & news & -> & Hnames & Hnews)%setup_tags_inv.
  split; [done|]. split; [done|]. by exists listed, tags, news.
Qed.

End Setup.

(** C7.  Credential precedence does not hold in the code.  The branch
    that should apply the override of an identity never sets an
    attribute: whatever the configuration and the entry, it leaves the
    identity as it is or ends with an exception.  With [api_token_path]
    set to ["/a"] in the general section and to ["/b"] in the override
    block of the identity, the token is read from ["/a"], whether
    [battle_tags] is a mapping or a sequence of mappings; an identity
    written as a list that names the property ends the set-up with
    [TypeError]. *)
Theorem per_identity_override_not_applied :
  (forall config_content tag tag_obj ppty w,
     BattleTags.set_from_tag config_content tag tag_obj ppty w
     = (Ok tag_obj, w)
     \/ exists e,
          BattleTags.set_from_tag config_content tag tag_obj ppty w
          = (Raise e, w))
  /\ (BattleTags.setup_battle_tags_from_config
        config_override_mapping [] world_credentials).1
     = Ok [foo_from_general (PyStr "Foo#1234") (PyStr "token-a")]
  /\ (BattleTags.setup_battle_tags_from_config
        config_override_sequence [] world_credentials).1
     = Ok [foo_from_general
             (PyDict [("Foo#1234", PyDict [("api_token_path", PyStr "/b")])])
             (PyStr "token-a")]
  /\ (BattleTags.setup_battle_tags_from_config
        config_override_list [] world_credentials).1
     = Raise TypeError.
Proof.
  split; [|repeat split; vm_compute; reflexivity].
  intros config_content tag tag_obj ppty w.
  unfold BattleTags.set_from_tag. unfold_run.
  destruct tag as [| | | |l| |]; cbn [BattleTag.is_list]; auto.
  destruct (py_contains (PyList l) (PyStr ppty)) as [[]|e]; eauto.
  destruct (py_getitem config_content (PyStr "battle_tags")) as [tags|e];
    eauto.
  destruct (py_getitem_list_key tags l) as [e ->]. eauto.
Qed.

(** C8, amended.  A configuration without the general section is fatal at
    start-up: the run ends with an exception before anything is fetched.
    A configuration with the general section and without [battle_tags] is
    not: the run ends normally, with no identity and nothing done. *)
Theorem startup_on_incomplete_configuration {codec : JsonCodec}
    (w : world) :
  (forall config_content,
     py_contains config_content (PyStr "general") <> Ok true ->
     exists e,
       BattleTags.download_advanced_replays config_content w = (Raise e, w))
  /\ (forall cfg,
        dict_has cfg "general" = true ->
        dict_has cfg "battle_tags" = false ->
        BattleTags.setup_battle_tags_from_config (PyDict cfg) [] w
        = (Ok [], w)
        /\ BattleTags.download_advanced_replays (PyDict cfg) w = (Ok tt, w)).
Proof.
  split.
  - intros config_content Hgeneral.
    unfold BattleTags.download_advanced_replays,
      BattleTags.setup_battle_tags_from_config. unfold_run.
    destruct (py_contains config_content (PyStr "general")) as [[]|e];
      [done|by exists AssertionError|by exists e].
  - intros cfg Hgeneral Htags.
    assert (BattleTags.setup_battle_tags_from_config (PyDict cfg) [] w
            = (Ok [], w)) as Hsetup.
    { unfold BattleTags.setup_battle_tags_from_config. unfold_run.
      cbn [py_contains py_get]. rewrite Hgeneral.
      rewrite dict_has_get in Htags.
      destruct (dict_get cfg "battle_tags"); [done|]. reflexivity. }
    split; [done|].
    unfold BattleTags.download_advanced_replays. rewrite bind_run, Hsetup.
    reflexivity.
Qed.

Lemma startup_on_incomplete_configuration_witness :
  (exists e,
     BattleTags.download_advanced_replays (codec := python_json)
       (PyDict [("battle_tags", PyList [PyStr "Foo#1234"])]) world_credentials
     = (Raise e, world_credentials))
  /\ BattleTags.setup_battle_tags_from_config
       config_without_tags [] world_credentials
     = (Ok [], world_credentials)
  /\ BattleTags.download_advanced_replays (codec := python_json)
       config_without_tags world_credentials
     = (Ok tt, world_credentials).
Proof.
  destruct (startup_on_incomplete_configuration (codec := python_json)
              world_credentials) as [Hfatal Hnone].
  split.
  - apply Hfatal. discriminate.
  - apply Hnone; reflexivity.
Defined.

(** C8 as stated fails: without [battle_tags] the run is not fatal. *)
Lemma missing_battle_tags_is_not_fatal :
  py_contains config_without_tags (PyStr "battle_tags") = Ok false
  /\ BattleTags.download_advanced_replays (codec := python_json)
       config_without_tags world_credentials
     = (Ok tt, world_credentials).
Proof. split; reflexivity. Qed.

(** C9, amended.  For every identity a set-up that ends normally has
    made, the token is the trimmed text of the resolved credential file,
    the file at the [api_token_path] the identity has been given; the
    token may be empty. *)
Theorem credential_token_is_trimmed_file (config_content : value)
    (battle_tags battle_tags' : list BattleTag.t) (w w' : world) :
  BattleTags.setup_battle_tags_from_config config_content battle_tags w
  = (Ok battle_tags', w') ->
  exists news,
    battle_tags' = battle_tags ++ news
    /\ forall tag_obj, tag_obj ∈ news ->
         exists path text,
           BattleTag.api_token_path tag_obj = PyStr path
           /\ fs w !! path = Some (NFile text)
           /\ BattleTag.api_token tag_obj = PyStr (strip text).
Proof.
  intros (-> & _ & listed & tags & news & _ & _ & -> & _ & Hnews)
    %setup_battle_tags_from_config_inv.
  exists news. split; [done|]. intros tag_obj Hin.
  rewrite Forall_forall in Hnews.
  destruct (Hnews tag_obj Hin) as (path & text & _ & ? & ? & ?).
  by exists path, text.
Qed.

Lemma credential_token_is_trimmed_file_witness :
  exists news,
    [foo_from_general (PyStr "Foo#1234") (PyStr "token-a");
     foo_from_general (PyStr "Bar#5678") (PyStr "token-a")] = [] ++ news
    /\ forall tag_obj, tag_obj ∈ news ->
         exists path text,
           BattleTag.api_token_path tag_obj = PyStr path
           /\ fs world_credentials !! path = Some (NFile text)
           /\ BattleTag.api_token tag_obj = PyStr (strip text).
Proof.
  apply (credential_token_is_trimmed_file config_plain
           [] _ world_credentials world_credentials).
  vm_compute. reflexivity.
Defined.

(** C9 as stated fails: a credential file of blanks is accepted, and the
    token is empty. *)
Lemma blank_credential_gives_empty_token :
  BattleTags.setup_battle_tags_from_config
    config_plain [] world_blank_credential
  = (Ok [foo_from_general (PyStr "Foo#1234") (PyStr "");
         foo_from_general (PyStr "Bar#5678") (PyStr "")],
     world_blank_credential).
Proof. vm_compute. reflexivity. Qed.

(** ** The subset invariant *)

Section Invariant.
Context {codec : JsonCodec} {laws : JsonLaws codec}.

(** What a round of Phase 1 can do to the files: nothing, or, when the
    listing was missing, create it, empty or with a dumped value. *)
Lemma base_replays_of_cases self params username game_type w r w' :
  BattleTag.base_replays_of self params username game_type w = (r, w') ->
  let base_file := BattleTag.base_file_of username game_type in
  fs w' = fs w
  \/ (fs w !! base_file = None
      /\ (fs w' = <[base_file := NFile ""]> (fs w)
          \/ exists obj,
               well_keyed obj = true
               /\ fs w' = <[base_file := NFile (json_dumps obj)]> (fs w))).
Proof.
  intros Hrun base_file. subst base_file. revert Hrun.
  destruct (fs w !! BattleTag.base_file_of username game_type)
    as [[text|]|] eqn:Hf.
  - intros Hrun.
    destruct (base_replays_of_cached self params username game_type w text Hf)
      as (r0 & w0 & Hrun0 & Hfs & _).
    rewrite Hrun0 in Hrun. injection Hrun as <- <-. by left.
  - unfold BattleTag.base_replays_of. unfold_run.
    destruct (dict_get GAME_TYPES game_type) as [label|] eqn:Hl;
      rewrite !Hf; simpl; [|intros [= <- <-]; by left].
    destruct (remote w _ _) as [c b|] eqn:Hr; simpl;
      [destruct (c =? 200)%Z; simpl; rewrite ?Hf; simpl|];
      intros [= <- <-]; by left.
  - unfold BattleTag.base_replays_of. unfold_run.
    destruct (dict_get GAME_TYPES game_type) as [label|] eqn:Hl;
      rewrite !Hf; simpl; [|intros [= <- <-]; by left].
    destruct (remote w _ _) as [c b|] eqn:Hr; simpl;
      [|intros [= <- <-]; by left].
    destruct (c =? 200)%Z; simpl; rewrite ?Hf; simpl;
      [|intros [= <- <-]; by left].
    destruct (json_loads b) as [obj|] eqn:Hobj; simpl;
      rewrite ?lookup_insert_eq; simpl.
    + pose proof (json_loads_well_keyed _ _ Hobj) as Hwk.
      destruct (json_loads (json_dumps obj)); simpl; intros [= <- <-];
        right; (split; [done|]); right; exists obj; simpl;
        by rewrite insert_insert_eq.
    + intros [= <- <-]. right. split; [done|]. by left.
Qed.

(** The files of another identity or game type than the one written
    keep what they look like. *)
Lemma files_ok_transfer files files' username game_type label :
  files' !! BattleTag.base_file_of username game_type
  = files !! BattleTag.base_file_of username game_type ->
  files' !! BattleTag.adv_file_of username game_type
  = files !! BattleTag.adv_file_of username game_type ->
  base_ok files username game_type
  /\ (adv_ok files username game_type label
      \/ lists_other files username game_type label) ->
  base_ok files' username game_type
  /\ (adv_ok files' username game_type label
      \/ lists_other files' username game_type label).
Proof.
  unfold base_ok, adv_ok, lists_other. intros -> ->. done.
Qed.

(** What a listing that names something else than a string lists. *)
Lemma lists_other_listing files username game_type label base_json :
  lists_other files username game_type label ->
  well_keyed base_json = true ->
  files !! BattleTag.base_file_of username game_type
  = Some (NFile (json_dumps base_json)) ->
  exists listed replay_ids,
    py_getitem base_json (PyStr label) = Ok listed
    /\ py_iter listed = Ok replay_ids
    /\ forallb is_str replay_ids = false.
Proof.
  intros (bj & listed & replay_ids & Hbj & Hf & Hl & Hi & Hstr) Hwk Hf'.
  rewrite Hf in Hf'. injection Hf' as Heq.
  assert (bj = base_json) as <-.
  { pose proof (json_loads_dumps bj Hbj) as H1.
    rewrite Heq, json_loads_dumps in H1 by done. by injection H1. }
  by exists listed, replay_ids.
Qed.

(** The keys of an advanced file whose listing is missing or empty. *)
Lemma adv_ok_no_listing files username game_type label :
  adv_ok files username game_type label ->
  (files !! BattleTag.base_file_of username game_type = None
   \/ files !! BattleTag.base_file_of username game_type = Some (NFile "")) ->
  forall files',
  files' !! BattleTag.adv_file_of username game_type
  = files !! BattleTag.adv_file_of username game_type ->
  adv_ok files' username game_type label.
Proof.
  intros [Hadv|[Hadv|(d & Hwk & Hadv & Hkeys)]] Hbase files' Heq;
    unfold adv_ok; rewrite Heq; [by left|by right; left|].
  right. right. exists d. split; [done|]. split; [done|].
  intros k Hk. destruct (Hkeys k Hk) as (bj & Hbj & Hf & _).
  destruct Hbase as [Hb|Hb]; rewrite Hb in Hf; [done|].
  injection Hf as Hf. pose proof (json_dumps_not_empty bj Hbj) as Hne.
  rewrite <- Hf in Hne. done.
Qed.

Lemma base_replays_of_cache_ok self params username game_type w r w' :
  game_type ∈ dict_keys GAME_TYPES ->
  BattleTag.base_replays_of self params username game_type w = (r, w') ->
  cache_ok (fs w) -> cache_ok (fs w').
Proof.
  intros Hkey Hrun Hok.
  destruct (base_replays_of_cases _ _ _ _ _ _ _ Hrun)
    as [->|(Hnone & Hfs)]; [done|].
  assert (exists text,
            fs w' = <[BattleTag.base_file_of username game_type :=
                        NFile text]> (fs w)
            /\ (text = "" \/ exists obj, well_keyed obj = true
                                         /\ text = json_dumps obj))
    as (text & -> & Htext).
  { destruct Hfs as [->|(obj & Hwk & ->)]; eauto 6. }
  intros u g label Hlabel.
  pose proof (GAME_TYPES_key _ _ Hlabel) as Hg.
  destruct (Hok u g label Hlabel) as [Hbase Hadv].
  destruct (decide (BattleTag.base_file_of u g
                    = BattleTag.base_file_of username game_type))
    as [Heq|Hne].
  - apply base_file_of_inj in Heq as [-> ->];
      [|by apply game_type_no_slash..].
    split.
    + unfold base_ok. rewrite lookup_insert_eq.
      destruct Htext as [->|(obj & Hwk & ->)]; [by right; left|].
      right. right. by exists obj.
    + left. destruct Hadv as [Hadv|(bj & ? & ? & _ & Hf & _)];
        [|by rewrite Hnone in Hf].
      eapply adv_ok_no_listing; [done|by left|].
      apply lookup_insert_ne. by apply base_adv_distinct;
        apply game_type_no_slash.
  - apply (files_ok_transfer (fs w)); [| |by split].
    + by apply lookup_insert_ne.
    + apply lookup_insert_ne. by apply base_adv_distinct;
        apply game_type_no_slash.
Qed.

(** The dict the loop returns when the identifiers are strings: what
    it was given, and records under identifiers of the listing. *)
Lemma fetch_replays_keys self params username game_type replay_ids :
  forall d replays_cnt w adv_json' replays_cnt' w',
  forallb is_str replay_ids = true ->
  well_keyed (PyDict d) = true ->
  BattleTag.fetch_replays self params username game_type replay_ids
    (PyDict d) replays_cnt w = (Ok (adv_json', replays_cnt'), w') ->
  exists d',
    adv_json' = PyDict d'
    /\ well_keyed (PyDict d') = true
    /\ forall key, key ∈ dict_keys d' ->
         key ∈ dict_keys d \/ PyStr key ∈ replay_ids.
Proof.
  induction replay_ids as [|replay_id rest IH];
    intros d cnt w adv_json' cnt' w' Hstr Hwk.
  - intros [= <- <- <-]. exists d. auto.
  - cbn [forallb] in Hstr. apply andb_true_iff in Hstr as [Hid Hstr].
    destruct replay_id as [| | |key0| | |]; try done. clear Hid.
    rewrite fetch_replays_cons.
    assert (forall d0 : list (string * value),
              (exists d', adv_json' = PyDict d'
                 /\ well_keyed (PyDict d') = true
                 /\ forall key, key ∈ dict_keys d' ->
                      key ∈ dict_keys d0 \/ PyStr key ∈ rest) ->
              (forall key, key ∈ dict_keys d0 ->
                 key ∈ dict_keys d \/ key = key0) ->
              exists d', adv_json' = PyDict d'
                 /\ well_keyed (PyDict d') = true
                 /\ forall key, key ∈ dict_keys d' ->
                      key ∈ dict_keys d \/ PyStr key ∈ PyStr key0 :: rest)
      as Hweaken.
    { intros d0 (d' & -> & Hwk' & Hkeys) Hd0. exists d'.
      split; [done|]. split; [done|]. intros key Hkey.
      rewrite elem_of_cons.
      destruct (Hkeys key Hkey) as [Hin|Hin]; [|auto].
      destruct (Hd0 key Hin) as [?| ->]; auto. }
    destruct (py_contains (PyDict d) (PyStr key0)) as [[]|] eqn:Hin;
      [| |done].
    + intros Hrun. apply (Hweaken d); [by eapply IH|auto].
    + destruct (py_getitem (PyDict params) (PyStr "mode")) as [md|]; [|done].
      destruct (py_getitem (PyDict params) (PyStr "api_token")) as [token|];
        [|done].
      cbn zeta. destruct (remote w _ _) as [c b|]; [|done].
      destruct (c =? 200)%Z.
      * destruct (json_loads b) as [obj|] eqn:Hobj; [|done].
        destruct (py_getitem obj (PyStr key0)) as [v|] eqn:Hv; [|done].
        cbn [py_setitem].
        assert (well_keyed (PyDict (dict_set d key0 v)) = true) as Hwk1.
        { apply (well_keyed_setitem (PyDict d) key0 v); [exact Hwk| |done].
          eapply well_keyed_getitem; [|exact Hv].
          by eapply json_loads_well_keyed. }
        intros Hrun. apply (Hweaken (dict_set d key0 v)); [by eapply IH|].
        intros key. rewrite dict_keys_set.
        destruct (dict_has d key0); [auto|].
        intros [?| ->%list_elem_of_singleton]%elem_of_app; auto.
      * intros [= <- <- <-]. exists d. auto.
Qed.

(** What the cache of a round holds, in files the program has made. *)
Lemma cached_records_ok w username game_type label adv_json :
  adv_ok (fs w) username game_type label ->
  cached_records w (BattleTag.adv_file_of username game_type) = Some adv_json ->
  exists d,
    adv_json = PyDict d
    /\ well_keyed (PyDict d) = true
    /\ forall replay_id, replay_id ∈ dict_keys d ->
         exists base_json,
           well_keyed base_json = true
           /\ fs w !! BattleTag.base_file_of username game_type
              = Some (NFile (json_dumps base_json))
           /\ listed_in base_json label replay_id.
Proof.
  intros [Hadv|[Hadv|(d & Hwk & Hadv & Hkeys)]].
  - unfold cached_records. rewrite Hadv. intros [= <-]. exists [].
    split; [done|]. split; [done|]. by intros ? ?%elem_of_nil.
  - unfold cached_records. rewrite Hadv. simpl. intros [= <-]. exists [].
    split; [done|]. split; [done|]. by intros ? ?%elem_of_nil.
  - rewrite (cached_records_dumped _ _ _ Hadv Hwk). intros [= <-]. by exists d.
Qed.

(** Writing the advanced file of an identity and game type keeps the
    cache as the program makes it, when the text written is empty or a
    dumped dict with listed keys, or when the listing names something
    else than a string. *)
Lemma cache_ok_set_adv files username game_type label text :
  dict_get GAME_TYPES game_type = Some label ->
  cache_ok files ->
  (text = ""
   \/ (exists d,
         text = json_dumps (PyDict d)
         /\ well_keyed (PyDict d) = true
         /\ forall replay_id, replay_id ∈ dict_keys d ->
              exists base_json,
                well_keyed base_json = true
                /\ files !! BattleTag.base_file_of username game_type
                   = Some (NFile (json_dumps base_json))
                /\ listed_in base_json label replay_id)
   \/ lists_other files username game_type label) ->
  cache_ok (<[BattleTag.adv_file_of username game_type := NFile text]> files).
Proof.
  intros Hlabel Hok Htext u g label' Hlabel'.
  pose proof (GAME_TYPES_key _ _ Hlabel) as Hg.
  pose proof (GAME_TYPES_key _ _ Hlabel') as Hg'.
  destruct (Hok u g label' Hlabel') as [Hbase Hadv].
  assert (forall u0 g0, g0 ∈ dict_keys GAME_TYPES ->
            <[BattleTag.adv_file_of username game_type := NFile text]> files
              !! BattleTag.base_file_of u0 g0
            = files !! BattleTag.base_file_of u0 g0) as Hkeep.
  { intros u0 g0 Hg0. apply lookup_insert_ne. intros Heq. symmetry in Heq.
    revert Heq. by apply base_adv_distinct; apply game_type_no_slash. }
  destruct (decide (BattleTag.adv_file_of u g
                    = BattleTag.adv_file_of username game_type))
    as [Heq|Hne].
  - apply adv_file_of_inj in Heq as [-> ->];
      [|by apply game_type_no_slash..].
    assert (label' = label) as -> by congruence.
    split.
    + unfold base_ok. by rewrite Hkeep.
    + unfold adv_ok, lists_other. rewrite lookup_insert_eq, Hkeep by done.
      destruct Htext as [->|[(d & -> & Hwk & Hkeys)|Hother]];
        [by left; right; left| |by right].
      left. right. right. by exists d.
  - apply (files_ok_transfer files); [| |by split].
    + by apply Hkeep.
    + by apply lookup_insert_ne.
Qed.

Lemma advanced_replays_of_cache_ok self params username game_type w r w' :
  game_type ∈ dict_keys GAME_TYPES ->
  BattleTag.advanced_replays_of self params username game_type w = (r, w') ->
  cache_ok (fs w) -> cache_ok (fs w').
Proof.
  intros Hkey Hrun Hok.
  apply dict_has_keys in Hkey. rewrite dict_has_get in Hkey.
  destruct (dict_get GAME_TYPES game_type) as [label|] eqn:Hlabel; [|done].
  clear Hkey.
  pose proof (cache_ok_set_adv (fs w) username game_type label ""
                Hlabel Hok (or_introl eq_refl)) as Hemptied.
  assert (forall e w1,
            BattleTag.advanced_replays_of self params username game_type w
            = (Raise e, w1) ->
            fs w1 = fs w
            \/ fs w1 = <[BattleTag.adv_file_of username game_type :=
                           NFile ""]> (fs w) ->
            cache_ok (fs w')) as Hearly.
  { intros e w1 Hrun1 Hfs. rewrite Hrun1 in Hrun. injection Hrun as <- <-.
    by destruct Hfs as [->| ->]. }
  destruct (cached_records w (BattleTag.adv_file_of username game_type))
    as [adv_json|] eqn:Hadv.
  2:{ destruct (advanced_replays_of_early self params username game_type w)
        as (e & w1 & Hrun1 & _ & _ & Hfs); [by left|].
      apply (Hearly e w1 Hrun1). destruct Hfs as [?|[_ ?]]; auto. }
  destruct (fs w !! BattleTag.base_file_of username game_type)
    as [[base_text|]|] eqn:Hbase.
  2,3: destruct (advanced_replays_of_early self params username game_type w)
        as (e & w1 & Hrun1 & _ & _ & Hfs);
        [right; intros text; by rewrite Hbase|];
      apply (Hearly e w1 Hrun1); destruct Hfs as [?|[_ ?]]; auto.
  destruct (json_loads base_text) as [base_json|] eqn:Hjson.
  2:{ apply (Hearly JSONDecodeError _
               (advanced_replays_of_corrupt _ _ _ _ _ _ _ Hadv Hbase Hjson)).
      by right. }
  destruct (Hok username game_type label Hlabel) as [Hbase_ok Hadv_ok].
  assert (exists bj, well_keyed bj = true /\ base_text = json_dumps bj
                     /\ base_json = bj) as (bj & Hbj & -> & ->).
  { destruct Hbase_ok as [Hb|[Hb|(bj & Hbj & Hb)]]; rewrite Hbase in Hb;
      [done|injection Hb as ->; by rewrite json_loads_empty in Hjson|].
    injection Hb as ->. exists bj. rewrite json_loads_dumps in Hjson by done.
    by injection Hjson as ->. }
  rewrite (advanced_replays_of_run _ _ _ _ _ _ _ _ Hadv Hbase Hjson) in Hrun.
  rewrite Hlabel in Hrun.
  assert (forall text (w1 : world),
            fs w1 = <[BattleTag.adv_file_of username game_type :=
                        NFile ""]> (fs w) ->
            fs (holding w1 (BattleTag.adv_file_of username game_type) text)
            = <[BattleTag.adv_file_of username game_type := NFile text]>
                (fs w)) as Hwritten.
  { intros text w1 Hfs. cbn. by rewrite Hfs, insert_insert_eq. }
  destruct (negb (py_truthy bj)) eqn:Htruthy.
  { injection Hrun as <- <-. cbn [logging fs]. rewrite Hwritten by done.
    apply (cache_ok_set_adv _ _ _ label); [done..|]. right.
    destruct Hadv_ok as [Hadv_ok|Hother].
    - left. destruct (cached_records_ok _ _ _ _ _ Hadv_ok Hadv)
        as (d & -> & Hwk & Hkeys). by exists d.
    - by right. }
  destruct (py_getitem bj (PyStr label)) as [listed|] eqn:Hlisted;
    [|by injection Hrun as <- <-].
  destruct (py_iter listed) as [replay_ids|] eqn:Hiter;
    [|by injection Hrun as <- <-].
  destruct (BattleTag.fetch_replays _ _ _ _ _ _ _ _) as [r1 w1] eqn:Hloop.
  pose proof (fetch_replays_frame _ _ _ _ _ _ _ _ _ _ Hloop) as (Hfs & _).
  destruct r1 as [[adv_json' replays_cnt]|e]; injection Hrun as <- <-;
    [|by rewrite Hfs].
  cbn [logging fs]. rewrite Hwritten by done.
  apply (cache_ok_set_adv _ _ _ label); [done..|]. right.
  destruct (forallb is_str replay_ids) eqn:Hstr.
  2:{ right. by exists bj, listed, replay_ids. }
  destruct Hadv_ok as [Hadv_ok|Hother].
  2:{ destruct (lists_other_listing _ _ _ _ _ Hother Hbj Hbase)
        as (listed' & ids' & Hl' & Hi' & Hstr').
      congruence. }
  destruct (cached_records_ok _ _ _ _ _ Hadv_ok Hadv)
    as (d & -> & Hwk & Hkeys).
  destruct (fetch_replays_keys _ _ _ _ _ _ _ _ _ _ _ Hstr Hwk Hloop)
    as (d' & -> & Hwk' & Hkeys').
  left. exists d'.
  split; [done|]. split; [done|]. intros key Hkey.
  destruct (Hkeys' key Hkey) as [Hold|Hnew]; [by apply Hkeys|].
  exists bj. split; [done|]. split; [done|]. by exists listed, replay_ids.
Qed.

Lemma base_rounds_cache_ok self params username game_types :
  forall w r w',
  (forall g, g ∈ game_types -> g ∈ dict_keys GAME_TYPES) ->
  for_each (BattleTag.base_replays_of self params username) game_types w
  = (r, w') ->
  cache_ok (fs w) -> cache_ok (fs w').
Proof.
  induction game_types as [|g gs IH]; intros w r w' Hkeys.
  - by intros [= <- <-].
  - rewrite for_each_cons.
    destruct (BattleTag.base_replays_of self params username g w)
      as [r1 w1] eqn:Hround.
    intros Hrun Hok.
    assert (cache_ok (fs w1)) as Hok1.
    { eapply base_replays_of_cache_ok; [|exact Hround|exact Hok].
      apply Hkeys, list_elem_of_here. }
    destruct r1 as [[]|e]; [|by injection Hrun as <- <-].
    eapply IH; [|exact Hrun|exact Hok1].
    intros g0 Hg0. by apply Hkeys, list_elem_of_further.
Qed.

Lemma advanced_rounds_cache_ok self params username game_types :
  forall w r w',
  (forall g, g ∈ game_types -> g ∈ dict_keys GAME_TYPES) ->
  BattleTag.for_each_counting
    (BattleTag.advanced_replays_of self params username) game_types w
  = (r, w') ->
  cache_ok (fs w) -> cache_ok (fs w').
Proof.
  induction game_types as [|g gs IH]; intros w r w' Hkeys.
  - by intros [= <- <-].
  - rewrite for_each_counting_cons.
    destruct (BattleTag.advanced_replays_of self params username g w)
      as [r1 w1] eqn:Hround.
    intros Hrun Hok.
    assert (cache_ok (fs w1)) as Hok1.
    { eapply advanced_replays_of_cache_ok; [|exact Hround|exact Hok].
      apply Hkeys, list_elem_of_here. }
    destruct r1 as [n|e]; [|by injection Hrun as <- <-].
    destruct (BattleTag.for_each_counting _ gs w1) as [r2 w2] eqn:Hrest.
    assert (cache_ok (fs w2)) as Hok2.
    { eapply IH; [|exact Hrest|exact Hok1].
      intros g0 Hg0. by apply Hkeys, list_elem_of_further. }
    by destruct r2; injection Hrun as <- <-.
Qed.

(** The full fetch of one identity, however it ends. *)
Lemma fetch_identity_cache_ok battle_tag w r w' :
  fetch_identity battle_tag w = (r, w') ->
  cache_ok (fs w) -> cache_ok (fs w').
Proof.
  intros Hrun Hok.
  destruct (fetch_identity_handle _ _ _ _ Hrun) as [[tag Htag]|[_ ->]];
    [|done].
  rewrite (fetch_identity_run battle_tag tag w Htag) in Hrun.
  destruct (for_each _ _ w) as [r1 w1] eqn:Hphase1.
  assert (cache_ok (fs w1)) as Hok1.
  { eapply base_rounds_cache_ok; [|exact Hphase1|exact Hok]. done. }
  destruct r1 as [[]|e]; [|by injection Hrun as <- <-].
  eapply advanced_rounds_cache_ok; [|exact Hrun|exact Hok1]. done.
Qed.

End Invariant.

(** Setting up the identities reads the configuration and the credential
    files, and writes nothing. *)
Lemma reads_only_ret {A} (a : A) : reads_only (mret a).
Proof. by intros w r w' [= <- <-]. Qed.

Lemma reads_only_lift {A} (r : result A) : reads_only (lift r).
Proof. by intros w r' w' [= <- <-]. Qed.

Lemma reads_only_raise {A} (e : exn) : reads_only (raise (A := A) e).
Proof. by intros w r' w' [= <- <-]. Qed.

Lemma reads_only_bind {A B} (m : M A) (k : A -> M B) :
  reads_only m -> (forall a, reads_only (k a)) -> reads_only (m ≫= k).
Proof.
  intros Hm Hk w r w'. rewrite bind_run.
  destruct (m w) as [[a|e] w1] eqn:Hrun; apply Hm in Hrun as ->.
  - apply Hk.
  - by intros [= <- <-].
Qed.

Lemma reads_only_py_assert b : reads_only (py_assert b).
Proof. destruct b; [apply reads_only_ret|apply reads_only_raise]. Qed.

Lemma reads_only_os_path_isfile x : reads_only (os_path_isfile x).
Proof.
  destruct x; try apply reads_only_raise.
  intros w r w'. unfold os_path_isfile, isfile. by intros [= <- <-].
Qed.

Lemma reads_only_open_read_at x : reads_only (open_read_at x).
Proof.
  destruct x; try apply reads_only_raise.
  intros w r w'. unfold open_read_at, open_read.
  destruct (fs w !! _) as [[text|]|]; by intros [= <- <-].
Qed.

Create HintDb reads discriminated.

#[local] Hint Resolve reads_only_ret reads_only_lift reads_only_raise
  reads_only_py_assert reads_only_os_path_isfile reads_only_open_read_at
  : reads.

#[local] Hint Extern 2 (reads_only (_ ≫= _)) =>
  apply reads_only_bind; [|intros ?] : reads.

#[local] Hint Extern 3 (reads_only (if ?b then _ else _)) =>
  destruct b : reads.

Lemma reads_only_set_from_general config_content tag_obj ppty :
  reads_only (BattleTags.set_from_general config_content tag_obj ppty).
Proof. unfold BattleTags.set_from_general. auto 10 with reads. Qed.

Lemma reads_only_set_from_tag config_content tag tag_obj ppty :
  reads_only (BattleTags.set_from_tag config_content tag tag_obj ppty).
Proof. unfold BattleTags.set_from_tag. auto 10 with reads. Qed.

Lemma reads_only_read_api_token tag_obj :
  reads_only (BattleTags.read_api_token tag_obj).
Proof. unfold BattleTags.read_api_token. auto 10 with reads. Qed.

#[local] Hint Resolve reads_only_set_from_general reads_only_set_from_tag
  reads_only_read_api_token : reads.

Lemma reads_only_setup_property config_content tag tag_obj ppty :
  reads_only (BattleTags.setup_property config_content tag tag_obj ppty).
Proof. unfold BattleTags.setup_property. auto 10 with reads. Qed.

Lemma reads_only_setup_properties config_content tag ppties :
  forall tag_obj,
  reads_only (BattleTags.setup_properties config_content tag tag_obj ppties).
Proof.
  induction ppties as [|ppty rest IH]; intros tag_obj;
    cbn [BattleTags.setup_properties]; [apply reads_only_ret|].
  apply reads_only_bind; [apply reads_only_setup_property|done].
Qed.

Lemma reads_only_setup_tags config_content tags :
  forall battle_tags,
  reads_only (BattleTags.setup_tags config_content tags battle_tags).
Proof.
  induction tags as [|tag rest IH]; intros battle_tags;
    cbn [BattleTags.setup_tags]; [apply reads_only_ret|].
  apply reads_only_bind; [apply reads_only_setup_properties|done].
Qed.

Lemma reads_only_setup_battle_tags_from_config config_content battle_tags :
  reads_only
    (BattleTags.setup_battle_tags_from_config config_content battle_tags).
Proof.
  unfold BattleTags.setup_battle_tags_from_config.
  pose proof (reads_only_setup_tags config_content).
  auto 10 with reads.
Qed.
Section Reachable.
Context {codec : JsonCodec} {laws : JsonLaws codec}.

Lemma no_cache_ok files : no_cache files -> cache_ok files.
Proof.
  intros Hnone username game_type label Hlabel.
  destruct (Hnone username game_type (GAME_TYPES_key _ _ Hlabel)) as [Hb Ha].
  split; [by left|]. left. by left.
Qed.

Lemma reachable_cache_ok files : reachable files -> cache_ok files.
Proof.
  induction 1 as [files Hnone|w battle_tag r w' _ IH Hrun].
  - by apply no_cache_ok.
  - by apply (fetch_identity_cache_ok _ _ _ _ Hrun).
Qed.

(** The identities of a run are fetched one after the other. *)
Lemma identities_reachable battle_tags :
  forall w r w',
  for_each
    (fun battle_tag =>
       BattleTag.download_base_replays battle_tag;;
       BattleTag.download_advanced_replays battle_tag;;
       mret tt)
    battle_tags w = (r, w') ->
  reachable (fs w) -> reachable (fs w').
Proof.
  induction battle_tags as [|battle_tag rest IH]; intros w r w'.
  - by intros [= <- <-].
  - rewrite for_each_cons. intros Hrun Hreach.
    destruct (fetch_identity battle_tag w) as [r1 w1] eqn:Hone.
    pose proof (reachable_fetch _ _ _ _ Hreach Hone) as Hreach1.
    revert Hrun. unfold fetch_identity in Hone. rewrite bind_run in Hone.
    rewrite bind_run.
    destruct (BattleTag.download_base_replays battle_tag w) as [[[]|e] wa];
      [|injection Hone as <- <-; by intros [= <- <-]].
    rewrite bind_run, Hone.
    destruct r1 as [counts|e]; [|by intros [= <- <-]].
    intros Hrun. exact (IH w1 r w' Hrun Hreach1).
Qed.

(** A run of the program, whatever its configuration and however it
    ends, leaves files that are reachable. *)
Lemma run_reachable config_content w r w' :
  BattleTags.download_advanced_replays config_content w = (r, w') ->
  reachable (fs w) -> reachable (fs w').
Proof.
  unfold BattleTags.download_advanced_replays. rewrite bind_run.
  destruct (BattleTags.setup_battle_tags_from_config config_content [] w)
    as [r1 w1] eqn:Hsetup.
  apply reads_only_setup_battle_tags_from_config in Hsetup as ->.
  destruct r1 as [battle_tags|e]; [|by intros [= <- <-]].
  apply identities_reachable.
Qed.

Lemma cache_ok_subset_invariant files :
  cache_ok files -> subset_invariant_of_strings files.
Proof.
  intros Hok username game_type label text d replay_id Hlabel Hstrings Hfile
    Hload Hkey.
  destruct (Hok username game_type label Hlabel) as [_ [Hadv|Hother]].
  - destruct Hadv as [Hadv|[Hadv|(d0 & Hwk & Hadv & Hkeys)]];
      rewrite Hfile in Hadv; [done| |].
    + injection Hadv as ->. by rewrite json_loads_empty in Hload.
    + injection Hadv as ->. rewrite json_loads_dumps in Hload by done.
      injection Hload as ->.
      destruct (Hkeys replay_id Hkey) as (base_json & Hbj & Hbase & Hlisted).
      exists (json_dumps base_json), base_json.
      split; [done|]. split; [by apply json_loads_dumps|done].
  - destruct Hother as (bj & listed & replay_ids & Hbj & Hf & Hl & Hi & Hstr).
    rewrite (Hstrings _ _ _ _ Hf (json_loads_dumps bj Hbj) Hl Hi) in Hstr.
    done.
Qed.

End Reachable.

(** C3, amended.  The subset invariant, for the listings that name their
    replays by strings: in the files that any sequence of runs leaves,
    started without cache files, every key of a persisted Advanced Record
    Set is among the identifiers that the Base Listing file of the same
    identity and game type holds under the label of the game type.  The
    runs are any full fetches of any identities with any remote, however
    each of them ends. *)
Theorem subset_invariant_reachable {codec : JsonCodec}
    {laws : JsonLaws codec} (files : gmap string node) :
  reachable files -> subset_invariant_of_strings files.
Proof.
  intros Hreach. by apply cache_ok_subset_invariant, reachable_cache_ok.
Qed.

Lemma credentials_no_cache : no_cache (fs world_credentials).
Proof.
  intros username game_type Hg.
  pose proof (game_type_no_slash _ Hg) as Hslash.
  assert (forall p, basename p = game_type ->
            fs world_credentials !! p = None) as Hnone.
  { intros p Hp. cbn [fs world_credentials].
    rewrite lookup_insert_ne, lookup_singleton_ne; [done|..];
      intros <-; revert Hg; rewrite <- Hp;
      apply (bool_decide_eq_false_1 _); vm_compute; reflexivity. }
  split; apply Hnone.
  - rewrite base_file_of_split. by apply basename_append.
  - rewrite adv_file_of_split. by apply basename_append.
Qed.

Lemma subset_invariant_reachable_witness :
  subset_invariant_of_strings (codec := python_json) (fs after_partial_run).
Proof.
  apply (subset_invariant_reachable (codec := python_json)
           (laws := python_json_laws)).
  eapply (run_reachable (codec := python_json) config_plain
            (World (fs world_credentials)
               (remote_with (fun n => if (n <? 6)%nat then 200%Z else 500%Z))
               [] [])).
  - apply surjective_pairing.
  - apply reachable_start, credentials_no_cache.
Defined.

(** C3 as stated fails.  One run from a cache that is not there, for the
    two identities of [config_plain], with a remote whose listings name
    a replay by the number [0] and whose details are arrays: the run
    ends normally, each record is stored under [0] and written under the
    key ["0"], and the listing does not name ["0"]. *)
Lemma numbered_listing_breaks_subset_invariant :
  let w := World (fs world_credentials) remote_numbered [] [] in
  no_cache (fs w)
  /\ (BattleTags.download_advanced_replays (codec := python_json)
        config_plain w).1 = Ok tt
  /\ reachable (codec := python_json) (fs after_numbered_run)
  /\ ~ subset_invariant (codec := python_json) (fs after_numbered_run).
Proof.
  cbv zeta. split; [apply credentials_no_cache|].
  split; [vm_compute; reflexivity|]. split.
  - eapply (run_reachable (codec := python_json) config_plain
              (World (fs world_credentials) remote_numbered [] [])).
    + apply surjective_pairing.
    + apply reachable_start, credentials_no_cache.
  - intros Hsubset.
    destruct (Hsubset "Foo" "qm" "Quick Match"
                (json.dumps (PyKeyed [(KInt 0, PyStr "rec")]))
                [("0", PyStr "rec")] "0")
      as (base_text & base_json & Hbase & Hjson & listed & replay_ids
          & Hlisted & Hiter & Hin).
    + reflexivity.
    + vm_compute. reflexivity.
    + vm_compute. reflexivity.
    + apply list_elem_of_here.
    + vm_compute in Hbase. injection Hbase as <-.
      vm_compute in Hjson. injection Hjson as <-.
      vm_compute in Hlisted. injection Hlisted as <-.
      vm_compute in Hiter. injection Hiter as <-.
      apply list_elem_of_singleton in Hin. discriminate.
Qed.

(** ** The two phases stay within the development *)

Section Modelled.
Context {codec : JsonCodec}.

Lemma modelled_ret {A} (a : A) : modelled (mret a).
Proof. by intros w r w' [= <- <-]. Qed.

Lemma modelled_raise {A} (e : exn) :
  e <> Unmodelled -> modelled (raise (A := A) e).
Proof. intros He w r w' [= <- <-]. congruence. Qed.

Lemma modelled_lift {A} (r : result A) :
  r <> Raise Unmodelled -> modelled (lift r).
Proof. by intros Hr w r' w' [= <- <-]. Qed.

Lemma modelled_bind {A B} (m : M A) (k : A -> M B) :
  modelled m -> (forall a, modelled (k a)) -> modelled (m ≫= k).
Proof.
  intros Hm Hk w r w'. rewrite bind_run.
  destruct (m w) as [[a|e] w1] eqn:Hrun.
  - apply Hk.
  - intros [= <- <-]. pose proof (Hm _ _ _ Hrun). congruence.
Qed.

Lemma modelled_try_except {A} (m handler : M A) :
  modelled m -> modelled handler -> modelled (try_except m handler).
Proof.
  intros Hm Hh w r w'. unfold try_except.
  destruct (m w) as [[a|e] w1] eqn:Hrun.
  - intros [= <- <-]. done.
  - destruct (caught e) eqn:Hc; [apply Hh|].
    intros [= <- <-]. by eapply Hm.
Qed.

Lemma py_contains_modelled c x : py_contains c x <> Raise Unmodelled.
Proof.
  destruct c, x; simpl; try done; by destruct (key_of _).
Qed.

Lemma py_getitem_modelled c x : py_getitem c x <> Raise Unmodelled.
Proof.
  destruct c, x; simpl; try done;
    repeat (match goal with
            | |- context [match ?t with _ => _ end] => destruct t
            end; try done).
Qed.

Lemma py_setitem_modelled c x v : py_setitem c x v <> Raise Unmodelled.
Proof.
  destruct c, x; simpl; try done;
    repeat (match goal with
            | |- context [match ?t with _ => _ end] => destruct t
            end; try done).
Qed.

Lemma py_iter_modelled c : py_iter c <> Raise Unmodelled.
Proof. by destruct c. Qed.

Lemma modelled_step {A} (m : M A) :
  (forall w, (m w).1 <> Raise Unmodelled) -> modelled m.
Proof. intros Hm w r w' Hrun. specialize (Hm w). by rewrite Hrun in Hm. Qed.

Lemma modelled_logger line : modelled (logger line).
Proof. by apply modelled_step. Qed.

Lemma modelled_path_exists p : modelled (path_exists p).
Proof. by apply modelled_step. Qed.

Lemma modelled_isfile p : modelled (isfile p).
Proof. by apply modelled_step. Qed.

Lemma modelled_makedirs p : modelled (makedirs p).
Proof. by apply modelled_step. Qed.

Lemma modelled_write p text : modelled (write p text).
Proof. by apply modelled_step. Qed.

Lemma modelled_open_read p : modelled (open_read p).
Proof.
  apply modelled_step. intros w. unfold open_read.
  by destruct (fs w !! p) as [[text|]|].
Qed.

Lemma modelled_open_write p : modelled (open_write p).
Proof.
  apply modelled_step. intros w. unfold open_write.
  by destruct (fs w !! p) as [[text|]|].
Qed.

Lemma modelled_open_append_read p : modelled (open_append_read p).
Proof.
  apply modelled_step. intros w. unfold open_append_read.
  by destruct (fs w !! p) as [[text|]|].
Qed.

Lemma modelled_requests_get rq : modelled (requests_get rq).
Proof.
  apply modelled_step. intros w. unfold requests_get.
  by destruct (remote w _ rq).
Qed.

Lemma modelled_py_json_loads s : modelled (py_json_loads s).
Proof.
  unfold py_json_loads.
  destruct (json_loads s); [apply modelled_ret|by apply modelled_raise].
Qed.

Lemma modelled_py_assert b : modelled (py_assert b).
Proof. destruct b; [apply modelled_ret|by apply modelled_raise]. Qed.

Lemma modelled_GAME_TYPES_getitem game_type :
  modelled (GAME_TYPES_getitem game_type).
Proof.
  unfold GAME_TYPES_getitem.
  destruct (dict_get _ _); [apply modelled_ret|by apply modelled_raise].
Qed.

Lemma modelled_for_each {A} (body : A -> M unit) l :
  (forall x, modelled (body x)) -> modelled (for_each body l).
Proof.
  intros Hbody. induction l as [|x l IH]; [apply modelled_ret|].
  cbn [for_each]. apply modelled_bind; [apply Hbody|done].
Qed.

Lemma modelled_for_each_counting (body : string -> M nat) l :
  (forall x, modelled (body x)) ->
  modelled (BattleTag.for_each_counting body l).
Proof.
  intros Hbody. induction l as [|x l IH]; [apply modelled_ret|].
  cbn [BattleTag.for_each_counting].
  apply modelled_bind; [apply Hbody|]. intros n.
  apply modelled_bind; [done|]. intros ns. apply modelled_ret.
Qed.

Create HintDb modelled discriminated.

#[local] Hint Resolve modelled_ret modelled_logger modelled_path_exists
  modelled_isfile modelled_makedirs modelled_write modelled_open_read
  modelled_open_write modelled_open_append_read modelled_requests_get
  modelled_py_json_loads modelled_py_assert modelled_GAME_TYPES_getitem
  py_contains_modelled py_getitem_modelled py_setitem_modelled
  py_iter_modelled : modelled.

#[local] Hint Extern 1 (modelled (raise _)) =>
  apply modelled_raise; discriminate : modelled.

#[local] Hint Extern 1 (modelled (lift _)) =>
  apply modelled_lift : modelled.

#[local] Hint Extern 2 (modelled (_ ≫= _)) =>
  apply modelled_bind; [|intros ?] : modelled.

#[local] Hint Extern 2 (modelled (try_except _ _)) =>
  apply modelled_try_except : modelled.

#[local] Hint Extern 3 (modelled (if ?b then _ else _)) =>
  destruct b : modelled.

#[local] Hint Extern 3 (modelled (let '(_, _) := ?p in _)) =>
  destruct p : modelled.

Lemma modelled_base_replays_of self params username game_type :
  modelled (BattleTag.base_replays_of self params username game_type).
Proof. unfold BattleTag.base_replays_of. auto 20 with modelled. Qed.

Lemma modelled_fetch_replays self params username game_type replay_ids :
  forall adv_json replays_cnt,
  modelled
    (BattleTag.fetch_replays self params username game_type replay_ids
       adv_json replays_cnt).
Proof.
  induction replay_ids as [|replay_id rest IH]; intros adv_json cnt;
    cbn [BattleTag.fetch_replays]; auto 20 with modelled.
Qed.

Lemma modelled_advanced_replays_of self params username game_type :
  modelled (BattleTag.advanced_replays_of self params username game_type).
Proof.
  pose proof (modelled_fetch_replays self params username game_type).
  unfold BattleTag.advanced_replays_of. auto 30 with modelled.
Qed.

Lemma modelled_username_of self : modelled (BattleTag.username_of self).
Proof.
  unfold BattleTag.username_of.
  destruct (BattleTag.battletag self); auto with modelled.
Qed.

(** The full fetch of an identity never leaves what the development
    follows: whatever it is given, both phases are told to their end. *)
Lemma modelled_fetch_identity battle_tag : modelled (fetch_identity battle_tag).
Proof.
  unfold fetch_identity, BattleTag.download_base_replays,
    BattleTag.download_advanced_replays.
  apply modelled_bind; [|intros _].
  - apply modelled_bind; [apply modelled_username_of|intros username].
    apply modelled_bind; [apply modelled_makedirs|intros _].
    apply modelled_for_each. intros game_type.
    apply modelled_base_replays_of.
  - apply modelled_bind; [apply modelled_username_of|intros username].
    apply modelled_bind; [apply modelled_makedirs|intros _].
    apply modelled_for_each_counting. intros game_type.
    apply modelled_advanced_replays_of.
Qed.

End Modelled.

(** ** Phase 1, further *)

Section Phase1Further.
Context {codec : JsonCodec}.

(** A listing in the cache that does not parse: the error line is
    logged and the round ends with [sys.exit(1)]. *)
Lemma base_replays_of_unparsed self params username game_type w text :
  fs w !! BattleTag.base_file_of username game_type = Some (NFile text) ->
  json_loads text = None ->
  BattleTag.base_replays_of self params username game_type w
  = (Raise (SystemExit 1),
     logging w [ErrorNotJson (BattleTag.base_file_of username game_type)]).
Proof.
  intros Hf Hnone. unfold BattleTag.base_replays_of. unfold_run.
  rewrite !Hf. simpl. rewrite !Hf. simpl. by rewrite Hnone.
Qed.

(** A listing that is not in the cache and is answered with status 200
    and a body that does not parse: the file has been created by then,
    and stays empty. *)
Lemma base_replays_of_bad_body self params username game_type label w b :
  fs w !! BattleTag.base_file_of username game_type = None ->
  dict_get GAME_TYPES game_type = Some label ->
  remote w (length (sent w)) (listing_request self params label)
  = Response 200 b ->
  json_loads b = None ->
  BattleTag.base_replays_of self params username game_type w
  = (Raise JSONDecodeError,
     holding
       (answered (logging w [InfoDownloadingBase username game_type])
          (listing_request self params label))
       (BattleTag.base_file_of username game_type) "").
Proof.
  intros Hf Hlabel Hrp Hb. unfold BattleTag.base_replays_of.
  unfold_run. unfold answered, holding, logging. rewrite Hlabel, !Hf. simpl.
  fold (listing_request self params label). rewrite Hrp. simpl.
  rewrite Hf. simpl. by rewrite Hb.
Qed.

(** The rounds over game types whose listings are in the cache and
    parse change nothing. *)
Lemma base_rounds_skip self params username pre game_types w :
  (forall g, g ∈ pre ->
     exists text obj,
       fs w !! BattleTag.base_file_of username g = Some (NFile text)
       /\ json_loads text = Some obj) ->
  for_each (BattleTag.base_replays_of self params username)
    (pre ++ game_types) w
  = for_each (BattleTag.base_replays_of self params username) game_types w.
Proof.
  induction pre as [|g pre IH]; intros Hall; [done|].
  rewrite <- app_comm_cons, for_each_cons.
  destruct (Hall g) as (text & obj & Hf & Hobj); [apply list_elem_of_here|].
  rewrite (base_replays_of_cached_ok _ _ _ _ _ _ _ Hf Hobj).
  apply IH. intros. by apply Hall, list_elem_of_further.
Qed.

(** What one round sends: nothing, or the request for the listing of
    its game type, whose file was not there. *)
Lemma base_replays_of_requests self params username game_type w r w' :
  BattleTag.base_replays_of self params username game_type w = (r, w') ->
  sends w w' []
  \/ exists label rp,
       dict_get GAME_TYPES game_type = Some label
       /\ (forall text, fs w !! BattleTag.base_file_of username game_type
                        <> Some (NFile text))
       /\ sends w w' [(listing_request self params label, rp)].
Proof.
  destruct (fs w !! BattleTag.base_file_of username game_type)
    as [[text|]|] eqn:Hf.
  - intros Hrun.
    destruct (base_replays_of_cached self params username game_type w text Hf)
      as (r0 & w0 & Hrun0 & _ & Hs & _).
    rewrite Hrun0 in Hrun. injection Hrun as <- <-. by left.
  - unfold BattleTag.base_replays_of. unfold_run.
    destruct (dict_get GAME_TYPES game_type) as [label|] eqn:Hl;
      rewrite !Hf; simpl.
    2:{ intros Hrun; inversion Hrun; subst; simpl. left.
        split; simpl; rewrite ?app_nil_r; reflexivity. }
    fold (listing_request self params label).
    destruct (remote w _ _) as [c b|] eqn:Hr; simpl;
      [destruct (c =? 200)%Z; simpl; rewrite ?Hf; simpl|];
      intros Hrun; inversion Hrun; subst; right; eexists label, _;
      (split; [done|]); (split; [done|]); by split.
  - unfold BattleTag.base_replays_of. unfold_run.
    destruct (dict_get GAME_TYPES game_type) as [label|] eqn:Hl;
      rewrite !Hf; simpl.
    2:{ intros Hrun; inversion Hrun; subst; simpl. left.
        split; simpl; rewrite ?app_nil_r; reflexivity. }
    fold (listing_request self params label).
    destruct (remote w _ _) as [c b|] eqn:Hr; simpl;
      [destruct (c =? 200)%Z; simpl; rewrite ?Hf; simpl;
       [destruct (json_loads b) as [obj|]; simpl; rewrite ?lookup_insert_eq;
        simpl; [destruct (json_loads (json_dumps obj)); simpl|]|]|];
      intros Hrun; inversion Hrun; subst; right; eexists label, _;
      (split; [done|]); (split; [done|]); by split.
Qed.

(** What the rounds of Phase 1 send: one request for some of the game
    types, in their order, each for a listing that was not in the
    cache. *)
Lemma base_rounds_requests self params username game_types :
  forall w r w',
  NoDup game_types ->
  (forall g, g ∈ game_types -> g ∈ dict_keys GAME_TYPES) ->
  for_each (BattleTag.base_replays_of self params username) game_types w
  = (r, w') ->
  exists asked news,
    sends w w' news
    /\ sublist asked game_types
    /\ Forall2
         (fun g rq =>
            exists label,
              dict_get GAME_TYPES g = Some label
              /\ rq = listing_request self params label
              /\ forall text,
                   fs w !! BattleTag.base_file_of username g
                   <> Some (NFile text))
         asked news.*1.
Proof.
  induction game_types as [|g gs IH]; intros w r w' Hnodup Hkeys.
  - intros [= <- <-]. exists [], []. split; [apply sends_refl|].
    split; [done|constructor].
  - apply NoDup_cons in Hnodup as [Hg Hnodup].
    rewrite for_each_cons.
    destruct (BattleTag.base_replays_of self params username g w)
      as [r1 w1] eqn:Hround.
    pose proof (base_replays_of_requests _ _ _ _ _ _ _ Hround) as Hone.
    destruct (base_replays_of_frame _ _ _ _ _ _ _ Hround) as (Hframe & _).
    assert (forall g0, g0 ∈ gs ->
              fs w1 !! BattleTag.base_file_of username g0
              = fs w !! BattleTag.base_file_of username g0) as Hkeep.
    { intros g0 Hg0. apply Hframe. intros Heq.
      apply base_file_of_inj in Heq as [_ ->]; [done| |].
      - by apply game_type_no_slash, Hkeys, list_elem_of_further.
      - apply game_type_no_slash, Hkeys, list_elem_of_here. }
    assert (forall rz wz,
              for_each (BattleTag.base_replays_of self params username) gs w1
              = (rz, wz) ->
              exists asked news,
                sends w1 wz news /\ sublist asked gs
                /\ Forall2
                     (fun g rq =>
                        exists label,
                          dict_get GAME_TYPES g = Some label
                          /\ rq = listing_request self params label
                          /\ forall text,
                               fs w !! BattleTag.base_file_of username g
                               <> Some (NFile text))
                     asked news.*1) as Hrest.
    { intros rz wz Hrun.
      destruct (IH w1 rz wz Hnodup) as (asked & news & Hs & Hsub & Hall);
        [intros; by apply Hkeys, list_elem_of_further|done|].
      exists asked, news. split; [done|]. split; [done|].
      assert (forall g0, g0 ∈ asked -> g0 ∈ gs) as Hin.
      { intros g0 Hg0. by eapply elem_of_sublist. }
      clear Hs Hsub. revert Hin.
      induction Hall as [|g0 rq asked' rqs Hhead _ IHall];
        intros Hin; constructor.
      - destruct Hhead as (label & ? & ? & Hno). exists label. split; [done|]. split; [done|]. intros text.
        rewrite <- Hkeep by apply Hin, list_elem_of_here. apply Hno.
      - apply IHall. intros. by apply Hin, list_elem_of_further. }
    destruct Hone as [Hs1|(label & rp & Hlabel & Hno & Hs1)].
    + destruct r1 as [[]|e].
      * intros (asked & news & Hs & Hsub & Hall)%Hrest.
        exists asked, news. split; [exact (sends_trans w w1 w' [] news Hs1 Hs)|].
        split; [by apply sublist_cons|done].
      * intros [= <- <-]. exists [], []. split; [done|].
        split; [apply sublist_nil_l|constructor].
    + destruct r1 as [[]|e].
      * intros (asked & news & Hs & Hsub & Hall)%Hrest.
        exists (g :: asked), ((listing_request self params label, rp) :: news).
        split; [exact (sends_trans w w1 w' [_] news Hs1 Hs)|].
        split; [by apply sublist_skip|]. constructor; [|done].
        by exists label.
      * intros [= <- <-].
        exists [g], [(listing_request self params label, rp)].
        split; [done|]. split; [apply sublist_skip, sublist_nil_l|].
        constructor; [by exists label|constructor].
Qed.

End Phase1Further.

(** X2.  A listing body that is not JSON poisons the cache.  When the
    listing file is missing and the request is answered with status 200
    and a body that does not parse, the round ends with
    [JSONDecodeError] and leaves the file created and empty.  From then
    on, for any identity with this user name and any remote, Phase 1
    stops at this game type with [sys.exit(1)], having logged the error
    line and sent no request: the listing is never asked for again. *)
Theorem listing_body_not_json_poisons_cache {codec : JsonCodec}
    {laws : JsonLaws codec} (self : BattleTag.t)
    (params : list (string * value)) (username game_type label : string)
    (rest : list string) (w : world) (b : string) :
  let base_file := BattleTag.base_file_of username game_type in
  dict_get GAME_TYPES game_type = Some label ->
  fs w !! base_file = None ->
  remote w (length (sent w)) (listing_request self params label)
  = Response 200 b ->
  json_loads b = None ->
  exists w1,
    BattleTag.base_replays_of self params username game_type w
    = (Raise JSONDecodeError, w1)
    /\ fs w1 = <[base_file := NFile ""]> (fs w)
    /\ forall self2 params2 w2,
         fs w2 !! base_file = fs w1 !! base_file ->
         for_each (BattleTag.base_replays_of self2 params2 username)
           (game_type :: rest) w2
         = (Raise (SystemExit 1), logging w2 [ErrorNotJson base_file]).
Proof.
  intros base_file Hlabel Hf Hrp Hb.
  rewrite (base_replays_of_bad_body _ _ _ _ _ _ _ Hf Hlabel Hrp Hb).
  eexists. split; [reflexivity|]. split; [reflexivity|].
  intros self2 params2 w2 Hf2. cbn in Hf2.
  rewrite lookup_insert_eq in Hf2.
  rewrite for_each_cons.
  by rewrite (base_replays_of_unparsed _ _ _ _ _ _ Hf2 json_loads_empty).
Qed.

Lemma listing_body_not_json_poisons_cache_witness :
  let base_file := "Foo/base/qm" in
  exists w1,
    BattleTag.base_replays_of (codec := python_json) foo
      (BattleTag._params foo) "Foo" "qm" world_html_answers
    = (Raise JSONDecodeError, w1)
    /\ fs w1 = <[base_file := NFile ""]> (fs world_html_answers)
    /\ forall self2 params2 w2,
         fs w2 !! base_file = fs w1 !! base_file ->
         for_each
           (BattleTag.base_replays_of (codec := python_json) self2 params2
              "Foo")
           ("qm" :: ["sl"; "ud"; "aram"]) w2
         = (Raise (SystemExit 1), logging w2 [ErrorNotJson base_file]).
Proof.
  apply (listing_body_not_json_poisons_cache (codec := python_json)
           (laws := python_json_laws) foo (BattleTag._params foo) "Foo" "qm"
           "Quick Match" ["sl"; "ud"; "aram"] world_html_answers "<html>");
    reflexivity.
Defined.

(** X3.  Phase 1 checks every listing file it passes.  When the
    listings of the first game types are in the cache and parse, and
    the file of the next game type holds a text that does not parse,
    [download_base_replays] logs the error line for that file and ends
    with [sys.exit(1)]: it sends no request, changes no file, and does
    not look at the game types after it. *)
Theorem unparsed_listing_exits {codec : JsonCodec} (self : BattleTag.t)
    (tag : string) (pre : list string) (game_type : string)
    (rest : list string) (w : world) (text : string) :
  let username := split_hash_0 tag in
  BattleTag.battletag self = PyStr tag ->
  dict_keys GAME_TYPES = pre ++ game_type :: rest ->
  (forall g, g ∈ pre ->
     exists text obj,
       fs w !! BattleTag.base_file_of username g = Some (NFile text)
       /\ json_loads text = Some obj) ->
  fs w !! BattleTag.base_file_of username game_type = Some (NFile text) ->
  json_loads text = None ->
  BattleTag.download_base_replays self w
  = (Raise (SystemExit 1),
     logging w [ErrorNotJson (BattleTag.base_file_of username game_type)]).
Proof.
  intros username Htag Hkeys Hpre Hf Hnone.
  rewrite (download_base_replays_run self tag w Htag), Hkeys.
  rewrite base_rounds_skip by done. rewrite for_each_cons.
  fold username. by rewrite (base_replays_of_unparsed _ _ _ _ _ _ Hf Hnone).
Qed.

Lemma unparsed_listing_exits_witness :
  BattleTag.download_base_replays (codec := python_json) foo
    world_unparsed_listing
  = (Raise (SystemExit 1),
     logging world_unparsed_listing [ErrorNotJson "Foo/base/sl"]).
Proof.
  apply (unparsed_listing_exits (codec := python_json) foo "Foo#1234"
           ["qm"] "sl" ["ud"; "aram"] world_unparsed_listing "oops").
  - reflexivity.
  - reflexivity.
  - intros g ->%list_elem_of_singleton.
    eexists _, _. split; vm_compute; reflexivity.
  - reflexivity.
  - reflexivity.
Defined.

(** X4.  The footprint of Phase 1.  However [download_base_replays]
    ends, it keeps the remote, sends at most one request for each game
    type, in the order of [GAME_TYPES], and only for game types whose
    listing was not a regular file when it started; each request is the
    listing request of the identity, with the label of the game type in
    place of [game_type]; and the advanced cache files of the user name
    are left as they were. *)
Theorem base_phase_footprint {codec : JsonCodec} (self : BattleTag.t)
    (tag : string) (w : world) (r : result unit) (w' : world) :
  let username := split_hash_0 tag in
  BattleTag.battletag self = PyStr tag ->
  BattleTag.download_base_replays self w = (r, w') ->
  (exists asked news,
     sends w w' news
     /\ sublist asked (dict_keys GAME_TYPES)
     /\ Forall2
          (fun g rq =>
             exists label,
               dict_get GAME_TYPES g = Some label
               /\ rq = listing_request self (BattleTag._params self) label
               /\ forall text,
                    fs w !! BattleTag.base_file_of username g
                    <> Some (NFile text))
          asked news.*1)
  /\ forall g, g ∈ dict_keys GAME_TYPES ->
       fs w' !! BattleTag.adv_file_of username g
       = fs w !! BattleTag.adv_file_of username g.
Proof.
  intros username Htag. rewrite (download_base_replays_run self tag w Htag).
  intros Hrun. split.
  - eapply base_rounds_requests; [|done|exact Hrun].
    apply (bool_decide_unpack _). vm_compute. reflexivity.
  - destruct (base_rounds_frame _ _ _ _ _ _ _ Hrun) as [Hframe _].
    intros g Hg. apply Hframe. intros g' Hg' Heq. symmetry in Heq.
    revert Heq. by apply base_adv_distinct; apply game_type_no_slash.
Qed.

Lemma base_phase_footprint_witness :
  let run :=
    BattleTag.download_base_replays (codec := python_json) foo
      world_records_without_listing in
  (exists asked news,
     sends world_records_without_listing run.2 news
     /\ sublist asked (dict_keys GAME_TYPES)
     /\ Forall2
          (fun g rq =>
             exists label,
               dict_get GAME_TYPES g = Some label
               /\ rq = listing_request foo (BattleTag._params foo) label
               /\ forall text,
                    fs world_records_without_listing
                      !! BattleTag.base_file_of "Foo" g
                    <> Some (NFile text))
          asked news.*1)
  /\ forall g, g ∈ dict_keys GAME_TYPES ->
       fs run.2 !! BattleTag.adv_file_of "Foo" g
       = fs world_records_without_listing !! BattleTag.adv_file_of "Foo" g.
Proof.
  cbv zeta.
  apply (base_phase_footprint (codec := python_json) foo "Foo#1234"
           world_records_without_listing
           (BattleTag.download_base_replays (codec := python_json) foo
              world_records_without_listing).1).
  - reflexivity.
  - apply surjective_pairing.
Defined.

(** ** Phase 2, further *)

Section Phase2Further.
Context {codec : JsonCodec}.

(** A round whose cache loads and whose listing is missing: opening the
    listing fails before the advanced file is emptied. *)
Lemma advanced_replays_of_no_listing self params username game_type w
    adv_json :
  cached_records w (BattleTag.adv_file_of username game_type) = Some adv_json ->
  fs w !! BattleTag.base_file_of username game_type = None ->
  BattleTag.advanced_replays_of self params username game_type w
  = (Raise FileNotFoundError,
     match fs w !! BattleTag.adv_file_of username game_type with
     | None =>
         holding (logging w [InfoDownloadingAdvanced username game_type])
           (BattleTag.adv_file_of username game_type) ""
     | Some _ => logging w [InfoDownloadingAdvanced username game_type]
     end).
Proof.
  intros Hadv Hbase.
  pose proof (base_adv_same_user username game_type) as Hne.
  unfold BattleTag.advanced_replays_of, cached_records in *.
  unfold_run. unfold holding, logging.
  destruct (fs w !! BattleTag.adv_file_of username game_type)
    as [[text|]|] eqn:Hf; [|done|];
    [destruct (String.eqb text "") eqn:Htext;
     [|destruct (json_loads text) as [x|] eqn:Hx; [|done]]|];
    repeat (rewrite ?Hbase, ?Hf, ?Hx, ?Htext, ?String.eqb_refl,
              ?lookup_insert_eq, ?lookup_insert_ne by done;
            cbn [fs remote sent logged]);
    reflexivity.
Qed.

(** A round whose advanced file holds a text that does not parse ends
    before anything is written or sent. *)
Lemma advanced_replays_of_unparsed self params username game_type w text :
  fs w !! BattleTag.adv_file_of username game_type = Some (NFile text) ->
  String.eqb text "" = false ->
  json_loads text = None ->
  BattleTag.advanced_replays_of self params username game_type w
  = (Raise JSONDecodeError,
     logging w [InfoDownloadingAdvanced username game_type]).
Proof.
  intros Hf Htext Hnone.
  unfold BattleTag.advanced_replays_of. unfold_run. unfold logging.
  cbn [fs remote sent logged]. by rewrite Hf, Htext, Hnone.
Qed.

(** The loop appends, when the identifiers are strings: it returns the
    dict it was given with the records it has fetched after it, each
    under an identifier of the listing that the dict did not have and
    with the value the remote served under that identifier; the counter
    grows by their number; and it sends one request for each of them,
    and at most one more. *)
Lemma fetch_replays_appends self params username game_type replay_ids :
  forall d replays_cnt w adv_json' replays_cnt' w',
  forallb is_str replay_ids = true ->
  BattleTag.fetch_replays self params username game_type replay_ids
    (PyDict d) replays_cnt w = (Ok (adv_json', replays_cnt'), w') ->
  exists added news,
    adv_json' = PyDict (d ++ added)
    /\ replays_cnt' = replays_cnt + length added
    /\ NoDup (dict_keys added)
    /\ (forall k, k ∈ dict_keys added ->
          dict_has d k = false /\ PyStr k ∈ replay_ids)
    /\ sends w w' news
    /\ (length news = length added \/ length news = S (length added))
    /\ forall k v, (k, v) ∈ added ->
         exists rq b obj,
           (rq, Response 200 b) ∈ news
           /\ dict_get (req_params rq) "replayID" = Some (PyStr k)
           /\ json_loads b = Some obj
           /\ py_getitem obj (PyStr k) = Ok v.
Proof.
  induction replay_ids as [|replay_id rest IH];
    intros d cnt w adv_json' cnt' w' Hstr.
  - intros [= <- <- <-]. exists [], []. rewrite app_nil_r, Nat.add_0_r.
    split; [done|]. split; [done|]. split; [constructor|].
    split; [by intros ? ?%elem_of_nil|]. split; [apply sends_refl|].
    split; [by left|]. by intros ?? ?%elem_of_nil.
  - cbn [forallb] in Hstr. apply andb_true_iff in Hstr as [Hid Hstr].
    destruct replay_id as [| | |key0| | |]; try done. clear Hid.
    set (replay_id := PyStr key0).
    rewrite fetch_replays_cons.
    destruct (py_contains (PyDict d) replay_id) as [[]|] eqn:Hin; [| |done].
    + intros (added & news & -> & -> & Hnodup & Hkeys & Hs & Hlen & Hrec)%IH;
        [|done].
      exists added, news. repeat (split; [done|]). split; [|done].
      intros k Hk. destruct (Hkeys k Hk). split; [done|].
      by apply list_elem_of_further.
    + destruct (py_getitem (PyDict params) (PyStr "mode")) as [md|]; [|done].
      destruct (py_getitem (PyDict params) (PyStr "api_token")) as [token|];
        [|done].
      cbn zeta. set (rq := detail_request self md token replay_id).
      destruct (remote w _ _) as [c b|] eqn:Hrp; [|done].
      destruct (c =? 200)%Z eqn:Hc.
      * apply Z.eqb_eq in Hc as ->.
        destruct (json_loads b) as [obj|] eqn:Hobj; [|done].
        destruct (py_getitem obj replay_id) as [v|] eqn:Hv; [|done].
        subst replay_id.
        cbn [py_setitem]. cbn [py_contains] in Hin. injection Hin as Hin.
        rewrite (dict_set_fresh d key0 v Hin).
        intros (added & news & -> & -> & Hnodup & Hkeys & Hs & Hlen & Hrec)%IH;
          [|done].
        exists ((key0, v) :: added), ((rq, Response 200 b) :: news).
        split; [by rewrite <- app_assoc|].
        split; [simpl; lia|]. split.
        { rewrite dict_keys_cons. apply NoDup_cons. split; [|done].
          intros Hk. destruct (Hkeys key0 Hk) as [Hfresh _].
          rewrite dict_has_app in Hfresh. simpl in Hfresh.
          rewrite String.eqb_refl in Hfresh.
          by rewrite orb_true_r in Hfresh. }
        split.
        { intros k. rewrite dict_keys_cons.
          intros [->|Hk]%elem_of_cons;
            [split; [done|apply list_elem_of_here]|].
          destruct (Hkeys k Hk) as [Hfresh ?].
          rewrite dict_has_app in Hfresh.
          apply orb_false_elim in Hfresh as [? _].
          split; [done|]. by apply list_elem_of_further. }
        split.
        { apply (sends_trans w (answered w rq) w' [(rq, Response 200 b)] news);
            [|done].
          split; [|done]. cbn. by rewrite Hrp. }
        split; [simpl; lia|].
        intros k v0 [[= -> ->]|Hkv]%elem_of_cons.
        -- exists rq, b, obj. split; [apply list_elem_of_here|]. done.
        -- destruct (Hrec k v0 Hkv) as (rq0 & b0 & obj0 & ? & ?).
           exists rq0, b0, obj0. split; [by apply list_elem_of_further|done].
      * intros [= <- <- <-]. exists [], [(rq, Response c b)].
        rewrite app_nil_r, Nat.add_0_r.
        split; [done|]. split; [done|]. split; [constructor|].
        split; [by intros ? ?%elem_of_nil|]. split.
        { split; [|done]. cbn. by rewrite Hrp. }
        split; [by right|]. by intros ?? ?%elem_of_nil.
Qed.

(** The requests of the loop are detail requests of the identity, with
    the mode and the token of the parameters. *)
Lemma fetch_replays_shape self params username game_type replay_ids :
  forall adv_json replays_cnt w r w',
  BattleTag.fetch_replays self params username game_type replay_ids
    adv_json replays_cnt w = (r, w') ->
  exists news,
    sends w w' news
    /\ forall rq rp, (rq, rp) ∈ news ->
         exists md token replay_id,
           dict_get params "mode" = Some md
           /\ dict_get params "api_token" = Some token
           /\ replay_id ∈ replay_ids
           /\ rq = detail_request self md token replay_id.
Proof.
  induction replay_ids as [|replay_id rest IH]; intros adv_json cnt w r w'.
  - intros [= <- <-]. exists []. split; [apply sends_refl|].
    by intros ?? ?%elem_of_nil.
  - rewrite fetch_replays_cons.
    assert (forall w1 : world, sends w w1 [] ->
              exists news, sends w w1 news
                /\ forall rq rp, (rq, rp) ∈ news ->
                     exists md token x,
                       dict_get params "mode" = Some md
                       /\ dict_get params "api_token" = Some token
                       /\ x ∈ replay_id :: rest
                       /\ rq = detail_request self md token x) as Hnone.
    { intros w1 Hs. exists []. split; [done|]. by intros ?? ?%elem_of_nil. }
    destruct (py_contains adv_json replay_id) as [[]|] eqn:Hin.
    + intros (news & Hs & Hn)%IH. exists news. split; [done|].
      intros rq rp (md & token & x & ? & ? & ? & ?)%Hn.
      exists md, token, x. repeat (split; [done|]).
      split; [by apply list_elem_of_further|done].
    + cbn [py_getitem].
      destruct (dict_get params "mode") as [md|] eqn:Hmd;
        [|intros [= <- <-]; apply Hnone, sends_refl].
      destruct (dict_get params "api_token") as [token|] eqn:Htoken;
        [|intros [= <- <-]; apply Hnone, sends_refl].
      cbn zeta. set (rq := detail_request self md token replay_id).
      assert (forall w1 : world, sent w1 = sent (answered w rq) ->
                remote w1 = remote w ->
                exists news, sends w w1 news
                  /\ forall rq' rp, (rq', rp) ∈ news ->
                       exists md' token' x,
                         Some md = Some md' /\ Some token = Some token'
                         /\ x ∈ replay_id :: rest
                         /\ rq' = detail_request self md' token' x) as Hone.
      { intros w1 Hs1 Hr1. eexists [_].
        split; [split; [rewrite Hs1; reflexivity|done]|].
        intros ?? [= -> ->]%list_elem_of_singleton.
        exists md, token, replay_id. repeat (split; [done|]).
        split; [apply list_elem_of_here|done]. }
      destruct (remote w _ _) as [c b|] eqn:Hrp;
        [|intros [= <- <-]; by apply Hone].
      destruct (c =? 200)%Z; [|intros [= <- <-]; by apply Hone].
      destruct (json_loads b) as [obj|]; [|intros [= <- <-]; by apply Hone].
      destruct (py_getitem obj replay_id) as [v|];
        [|intros [= <- <-]; by apply Hone].
      destruct (py_setitem adv_json replay_id v) as [adv_json1|];
        [|intros [= <- <-]; by apply Hone].
      intros (news & Hs & Hn)%IH.
      destruct (Hone (answered w rq)) as (news1 & Hs1 & Hn1); [done..|].
      exists (news1 ++ news). split; [by eapply sends_trans|].
      intros rq' rp [?|Hin']%elem_of_app; [eauto|].
      destruct (Hn _ _ Hin') as (md' & token' & x & ? & ? & ? & ?).
      exists md', token', x. repeat (split; [done|]).
      split; [by apply list_elem_of_further|done].
    + intros [= <- <-]. apply Hnone, sends_refl.
Qed.

End Phase2Further.

Section Phase2Shape.
Context {codec : JsonCodec}.

(** The requests of a round, however it ends. *)
Lemma advanced_replays_of_shape self params username game_type w r w' :
  BattleTag.advanced_replays_of self params username game_type w = (r, w') ->
  exists news,
    sends w w' news
    /\ forall rq rp, (rq, rp) ∈ news ->
         exists md token replay_id,
           dict_get params "mode" = Some md
           /\ dict_get params "api_token" = Some token
           /\ rq = detail_request self md token replay_id.
Proof.
  intros Hrun.
  assert (forall w1 : world, sent w1 = sent w -> remote w1 = remote w ->
            exists news, sends w w1 news
              /\ forall rq rp, (rq, rp) ∈ news ->
                   exists md token replay_id,
                     dict_get params "mode" = Some md
                     /\ dict_get params "api_token" = Some token
                     /\ rq = detail_request self md token replay_id)
    as Hnone.
  { intros w1 Hs Hr. exists []. split; [split; [by rewrite app_nil_r|done]|].
    by intros ?? ?%elem_of_nil. }
  destruct (cached_records w (BattleTag.adv_file_of username game_type))
    as [adv_json|] eqn:Hadv.
  2:{ destruct (advanced_replays_of_early self params username game_type w)
        as (e & w1 & Hrun1 & Hs & Hr & _); [by left|].
      rewrite Hrun1 in Hrun. injection Hrun as <- <-. by apply Hnone. }
  destruct (fs w !! BattleTag.base_file_of username game_type)
    as [[base_text|]|] eqn:Hbase.
  2,3: destruct (advanced_replays_of_early self params username game_type w)
        as (e & w1 & Hrun1 & Hs & Hr & _);
        [right; intros text; by rewrite Hbase|];
      rewrite Hrun1 in Hrun; injection Hrun as <- <-; by apply Hnone.
  destruct (json_loads base_text) as [base_json|] eqn:Hjson.
  2:{ rewrite (advanced_replays_of_corrupt _ _ _ _ _ _ _ Hadv Hbase Hjson)
        in Hrun. injection Hrun as <- <-. by apply Hnone. }
  rewrite (advanced_replays_of_run _ _ _ _ _ _ _ _ Hadv Hbase Hjson) in Hrun.
  destruct (negb (py_truthy base_json));
    [injection Hrun as <- <-; by apply Hnone|].
  destruct (dict_get GAME_TYPES game_type) as [label|];
    [|injection Hrun as <- <-; by apply Hnone].
  destruct (py_getitem base_json (PyStr label)) as [listed|];
    [|injection Hrun as <- <-; by apply Hnone].
  destruct (py_iter listed) as [replay_ids|];
    [|injection Hrun as <- <-; by apply Hnone].
  destruct (BattleTag.fetch_replays _ _ _ _ _ _ _ _) as [r1 w1] eqn:Hloop.
  apply fetch_replays_shape in Hloop as (news & [Hs Hr] & Hn).
  exists news. split.
  - destruct r1 as [[adv_json' replays_cnt]|e]; injection Hrun as <- <-;
      by split.
  - intros rq rp (md & token & x & ? & ? & _ & ?)%Hn. by exists md, token, x.
Qed.

Lemma advanced_rounds_shape self params username game_types :
  forall w r w',
  BattleTag.for_each_counting
    (BattleTag.advanced_replays_of self params username) game_types w
  = (r, w') ->
  exists news,
    sends w w' news
    /\ forall rq rp, (rq, rp) ∈ news ->
         exists md token replay_id,
           dict_get params "mode" = Some md
           /\ dict_get params "api_token" = Some token
           /\ rq = detail_request self md token replay_id.
Proof.
  induction game_types as [|g gs IH]; intros w r w'.
  - intros [= <- <-]. exists []. split; [apply sends_refl|].
    by intros ?? ?%elem_of_nil.
  - rewrite for_each_counting_cons.
    destruct (BattleTag.advanced_replays_of self params username g w)
      as [r1 w1] eqn:Hround.
    destruct (advanced_replays_of_shape _ _ _ _ _ _ _ Hround)
      as (news1 & Hs1 & Hn1).
    destruct r1 as [n|e]; [|intros [= <- <-]; by exists news1].
    destruct (BattleTag.for_each_counting _ gs w1) as [r2 w2] eqn:Hrest.
    destruct (IH _ _ _ Hrest) as (news & Hs & Hn).
    intros Hrun. assert (w' = w2) as -> by (destruct r2; by injection Hrun).
    exists (news1 ++ news). split; [by eapply sends_trans|].
    intros rq rp [?|?]%elem_of_app; eauto.
Qed.

End Phase2Shape.

(** X5.  Errors met before the advanced file is opened for writing keep
    its records.  A round whose advanced file holds a text that does not
    parse ends with [JSONDecodeError], and a round whose cache loads and
    whose listing file is missing ends with [FileNotFoundError]; in both
    cases no request is sent and the advanced file keeps its text (a
    missing advanced file has been created, empty, in the second). *)
Theorem early_errors_keep_advanced_cache {codec : JsonCodec}
    (self : BattleTag.t) (params : list (string * value))
    (username game_type : string) (w : world) :
  let adv_file := BattleTag.adv_file_of username game_type in
  let round := BattleTag.advanced_replays_of self params username game_type in
  let begun := logging w [InfoDownloadingAdvanced username game_type] in
  (forall text,
     fs w !! adv_file = Some (NFile text) ->
     text <> "" -> json_loads text = None ->
     round w = (Raise JSONDecodeError, begun))
  /\ (forall adv_json,
        cached_records w adv_file = Some adv_json ->
        fs w !! BattleTag.base_file_of username game_type = None ->
        exists w1,
          round w = (Raise FileNotFoundError, w1)
          /\ sent w1 = sent w
          /\ (forall text, fs w !! adv_file = Some (NFile text) -> w1 = begun)
          /\ (fs w !! adv_file = None -> w1 = holding begun adv_file "")).
Proof.
  intros adv_file round begun. split.
  - intros text Hf Htext Hnone.
    apply advanced_replays_of_unparsed with (text := text); [done| |done].
    by apply String.eqb_neq.
  - intros adv_json Hadv Hbase. subst round.
    rewrite (advanced_replays_of_no_listing _ _ _ _ _ _ Hadv Hbase).
    eexists. split; [reflexivity|]. fold adv_file.
    destruct (fs w !! adv_file) as [n|]; (split; [done|]); split; done.
Qed.

Lemma early_errors_keep_advanced_cache_witness :
  let round :=
    BattleTag.advanced_replays_of (codec := python_json) foo
      (BattleTag._params foo) "Foo" "qm" in
  round world_unparsed_records
  = (Raise JSONDecodeError,
     logging world_unparsed_records [InfoDownloadingAdvanced "Foo" "qm"])
  /\ exists w1,
       round world_records_without_listing = (Raise FileNotFoundError, w1)
       /\ sent w1 = sent world_records_without_listing
       /\ (forall text,
             fs world_records_without_listing !! "Foo/advanced/qm"
             = Some (NFile text) ->
             w1 = logging world_records_without_listing
                    [InfoDownloadingAdvanced "Foo" "qm"])
       /\ (fs world_records_without_listing !! "Foo/advanced/qm" = None ->
           w1 = holding
                  (logging world_records_without_listing
                     [InfoDownloadingAdvanced "Foo" "qm"])
                  "Foo/advanced/qm" "").
Proof.
  cbv zeta. split.
  - apply (proj1 (early_errors_keep_advanced_cache (codec := python_json) foo
                    (BattleTag._params foo) "Foo" "qm" world_unparsed_records)
             "oops"); [reflexivity|discriminate|reflexivity].
  - apply (proj2 (early_errors_keep_advanced_cache (codec := python_json) foo
                    (BattleTag._params foo) "Foo" "qm"
                    world_records_without_listing)
             (PyDict [("r1", record_of "r1")])); vm_compute; reflexivity.
Defined.

(** X6.  What a round that ends normally has done, when the cache it
    loaded is a dict and the listing names its replays by strings.  The
    advanced file holds the dict it held with the fetched records after
    it; their number is the count the round returns; their keys are
    distinct and were not in the cache; each record is the value a
    request of this round was served, with status 200, under its
    identifier; and the round has sent one request for each of them and
    at most one more (the refused one). *)
Theorem fetched_count_is_records_added {codec : JsonCodec}
    (self : BattleTag.t) (params : list (string * value))
    (username game_type : string) (w w' : world)
    (d : list (string * value)) (replays_cnt : nat) :
  let adv_file := BattleTag.adv_file_of username game_type in
  cached_records w adv_file = Some (PyDict d) ->
  (forall label, dict_get GAME_TYPES game_type = Some label ->
     lists_strings (fs w) username game_type label) ->
  BattleTag.advanced_replays_of self params username game_type w
  = (Ok replays_cnt, w') ->
  exists added news,
    fs w' !! adv_file = Some (NFile (json_dumps (PyDict (d ++ added))))
    /\ length added = replays_cnt
    /\ NoDup (dict_keys added)
    /\ (forall k, k ∈ dict_keys added -> dict_has d k = false)
    /\ sends w w' news
    /\ (length news = replays_cnt \/ length news = S replays_cnt)
    /\ forall k v, (k, v) ∈ added ->
         exists rq b obj,
           (rq, Response 200 b) ∈ news
           /\ dict_get (req_params rq) "replayID" = Some (PyStr k)
           /\ json_loads b = Some obj
           /\ py_getitem obj (PyStr k) = Ok v.
Proof.
  intros adv_file Hadv Hstrings Hrun.
  destruct (advanced_replays_of_ok_inv _ _ _ _ _ _ _ Hrun)
    as (adv_json & base_text & base_json & Hadv' & Hbase & Hjson).
  fold adv_file in Hadv'. rewrite Hadv in Hadv'. injection Hadv' as <-.
  rewrite (advanced_replays_of_run _ _ _ _ _ _ _ _ Hadv Hbase Hjson) in Hrun.
  fold adv_file in Hrun.
  assert (forall w1 : world,
            fs w1 !! adv_file = Some (NFile (json_dumps (PyDict d))) ->
            sent w1 = sent w -> remote w1 = remote w ->
            exists added news,
              fs w1 !! adv_file
              = Some (NFile (json_dumps (PyDict (d ++ added))))
              /\ length added = 0
              /\ NoDup (dict_keys added)
              /\ (forall k, k ∈ dict_keys added -> dict_has d k = false)
              /\ sends w w1 news
              /\ (length news = 0 \/ length news = 1)
              /\ forall k v, (k, v) ∈ added ->
                   exists rq b obj,
                     (rq, Response 200 b) ∈ news
                     /\ dict_get (req_params rq) "replayID" = Some (PyStr k)
                     /\ json_loads b = Some obj
                     /\ py_getitem obj (PyStr k) = Ok v) as Hnone.
  { intros w1 Hfs Hs Hr. exists [], []. rewrite app_nil_r.
    split; [done|]. split; [done|]. split; [constructor|].
    split; [by intros ? ?%elem_of_nil|].
    split; [split; [by rewrite app_nil_r|done]|].
    split; [by left|]. by intros ?? ?%elem_of_nil. }
  destruct (negb (py_truthy base_json)).
  { injection Hrun as <- <-. apply Hnone; cbn; [|done..].
    by rewrite lookup_insert_eq. }
  destruct (dict_get GAME_TYPES game_type) as [label|]; [|done].
  destruct (py_getitem base_json (PyStr label)) as [listed|] eqn:Hlisted;
    [|done].
  destruct (py_iter listed) as [replay_ids|] eqn:Hiter; [|done].
  pose proof (Hstrings label eq_refl _ _ _ _ Hbase Hjson Hlisted Hiter)
    as Hstr.
  destruct (BattleTag.fetch_replays _ _ _ _ _ _ _ _) as [r1 w1] eqn:Hloop.
  destruct r1 as [[adv_json' cnt]|e]; [|done]. injection Hrun as <- <-.
  apply fetch_replays_appends in Hloop
    as (added & news & -> & -> & Hnodup & Hkeys & [Hs Hr] & Hlen & Hrec);
    [|done].
  exists added, news. split.
  { cbn. by rewrite lookup_insert_eq. }
  split; [done|]. split; [done|].
  split; [intros k Hk; by destruct (Hkeys k Hk)|].
  split; [by split|]. split; [done|]. done.
Qed.

Lemma fetched_count_is_records_added_witness :
  let w := world_one_then_down 200 in
  let run :=
    BattleTag.advanced_replays_of (codec := python_json) foo
      (BattleTag._params foo) "Foo" "qm" w in
  exists added news,
    fs run.2 !! "Foo/advanced/qm"
    = Some (NFile (json.dumps (PyDict ([] ++ added))))
    /\ length added = 1
    /\ NoDup (dict_keys added)
    /\ (forall k, k ∈ dict_keys added ->
          dict_has (V := value) [] k = false)
    /\ sends w run.2 news
    /\ (length news = 1 \/ length news = 2)
    /\ forall k v, (k, v) ∈ added ->
         exists rq b obj,
           (rq, Response 200 b) ∈ news
           /\ dict_get (req_params rq) "replayID" = Some (PyStr k)
           /\ json.loads b = Some obj
           /\ py_getitem obj (PyStr k) = Ok v.
Proof.
  cbv zeta.
  apply (fetched_count_is_records_added (codec := python_json) foo
           (BattleTag._params foo) "Foo" "qm" (world_one_then_down 200)).
  - reflexivity.
  - intros label [= <-]. apply strings_listed_spec. vm_compute. reflexivity.
  - apply (run_ok_pair
             (BattleTag.advanced_replays_of (codec := python_json) foo
                (BattleTag._params foo) "Foo" "qm")).
    vm_compute. reflexivity.
Defined.

(** X7.  The footprint of Phase 2.  However
    [download_advanced_replays] ends, it keeps the remote; every request
    it sends is a detail request to the [base_url] of the identity, with
    the parameters [mode], [api_token] and [replayID] only, the first two
    being the attributes of the identity; and the listing files of the
    user name are left as they were. *)
Theorem advanced_phase_footprint {codec : JsonCodec} (self : BattleTag.t)
    (tag : string) (w : world) (r : result (list nat)) (w' : world) :
  let username := split_hash_0 tag in
  BattleTag.battletag self = PyStr tag ->
  BattleTag.download_advanced_replays self w = (r, w') ->
  (exists news,
     sends w w' news
     /\ forall rq rp, (rq, rp) ∈ news ->
          exists replay_id,
            rq = Request (BattleTag.base_url self) "/Replay/Data"
                   [("mode", BattleTag.mode self);
                    ("api_token", BattleTag.api_token self);
                    ("replayID", replay_id)])
  /\ forall g, g ∈ dict_keys GAME_TYPES ->
       fs w' !! BattleTag.base_file_of username g
       = fs w !! BattleTag.base_file_of username g.
Proof.
  intros username Htag.
  rewrite (download_advanced_replays_run self tag w Htag). intros Hrun.
  destruct (advanced_rounds_frame _ _ _ _ _ _ _ Hrun) as [Hframe _].
  split.
  - destruct (advanced_rounds_shape _ _ _ _ _ _ _ Hrun) as (news & Hs & Hn).
    exists news. split; [done|].
    intros rq rp (md & token & x & Hmd & Htoken & ->)%Hn.
    rewrite params_mode in Hmd. rewrite params_api_token in Htoken.
    injection Hmd as <-. injection Htoken as <-. by exists x.
  - intros g Hg. apply Hframe. intros g' Hg'.
    apply base_adv_distinct; by apply game_type_no_slash.
Qed.

Lemma advanced_phase_footprint_witness :
  let w := world_one_then_down 200 in
  let run := BattleTag.download_advanced_replays (codec := python_json) foo w in
  (exists news,
     sends w run.2 news
     /\ forall rq rp, (rq, rp) ∈ news ->
          exists replay_id,
            rq = Request (BattleTag.base_url foo) "/Replay/Data"
                   [("mode", BattleTag.mode foo);
                    ("api_token", BattleTag.api_token foo);
                    ("replayID", replay_id)])
  /\ forall g, g ∈ dict_keys GAME_TYPES ->
       fs run.2 !! BattleTag.base_file_of "Foo" g
       = fs w !! BattleTag.base_file_of "Foo" g.
Proof.
  cbv zeta.
  apply (advanced_phase_footprint (codec := python_json) foo "Foo#1234"
           (world_one_then_down 200)
           (BattleTag.download_advanced_replays (codec := python_json) foo
              (world_one_then_down 200)).1).
  - reflexivity.
  - apply surjective_pairing.
Defined.

(** ** Setting up the identities, further *)

Section SetupFurther.

(** [in], [get] and indexing under a string agree. *)
Lemma py_getitem_str_contains c k v :
  py_getitem c (PyStr k) = Ok v -> py_contains c (PyStr k) = Ok true.
Proof.
  destruct c as [| | | | |d|items]; simpl; try done.
  - rewrite dict_has_get. by destruct (dict_get d k).
  - rewrite keyed_has_get. by destruct (keyed_get items (KStr k)).
Qed.

Lemma py_contains_false_getitem c k :
  py_contains c (PyStr k) = Ok false ->
  exists e, py_getitem c (PyStr k) = Raise e.
Proof.
  destruct c as [| | | | |d|items]; simpl; try done; eauto.
  - rewrite dict_has_get. destruct (dict_get d k); [done|eauto].
  - rewrite keyed_has_get. destruct (keyed_get items (KStr k)); [done|eauto].
Qed.

Lemma py_contains_str_raise c k e :
  py_contains c (PyStr k) = Raise e -> e = TypeError.
Proof. destruct c; simpl; try done; by intros [= <-]. Qed.

Lemma py_contains_true_getitem_raise c k e :
  py_contains c (PyStr k) = Ok true ->
  py_getitem c (PyStr k) = Raise e ->
  e = TypeError.
Proof.
  destruct c as [| | | | |d|items]; simpl; try done;
    try (by intros _ [= <-]).
  - rewrite dict_has_get. by destruct (dict_get d k).
  - rewrite keyed_has_get. by destruct (keyed_get items (KStr k)).
Qed.

Lemma py_get_getitem c k default x section :
  py_get c k default = Ok x ->
  py_getitem c (PyStr k) = Ok section ->
  section = x.
Proof.
  destruct c as [| | | | |d|items]; simpl; try done.
  - destruct (dict_get d k); [|done]. by intros [= <-] [= <-].
  - destruct (keyed_get items (KStr k)); [|done]. by intros [= <-] [= <-].
Qed.

Lemma py_get_contains c k default x :
  py_get c k default = Ok x ->
  py_contains c (PyStr k) = Ok true ->
  py_getitem c (PyStr k) = Ok x.
Proof.
  destruct c as [| | | | |d|items]; simpl; try done.
  - rewrite dict_has_get. destruct (dict_get d k); [|done]. by intros [= <-].
  - rewrite keyed_has_get. destruct (keyed_get items (KStr k)); [|done].
    by intros [= <-].
Qed.

(** The first [if] of a round, when it ends normally: the attribute is
    set exactly when the general section holds the property. *)
Lemma set_from_general_exact config_content tag_obj ppty w tag_obj' w' :
  BattleTags.set_from_general config_content tag_obj ppty w
  = (Ok tag_obj', w') ->
  w' = w
  /\ tag_obj'
     = match general_lookup config_content ppty with
       | Some v => BattleTag.setattr tag_obj ppty v
       | None => tag_obj
       end.
Proof.
  unfold BattleTags.set_from_general, general_lookup. unfold_run.
  destruct (py_get config_content "general" (PyList [])) as [general|]
    eqn:Hget; [|done].
  destruct (py_contains general (PyStr ppty)) as [[]|] eqn:Hin; [| |done].
  - destruct (py_getitem config_content (PyStr "general")) as [section|];
      [|done].
    destruct (py_getitem section (PyStr ppty)) as [v|]; [|done].
    by intros [= <- <-].
  - intros [= <- <-]. split; [done|].
    destruct (py_getitem config_content (PyStr "general")) as [section|]
      eqn:Hsection; [|done].
    rewrite (py_get_getitem _ _ _ _ _ Hget Hsection).
    by destruct (py_contains_false_getitem _ _ Hin) as [e ->].
Qed.

(** A round of the loop over the properties, when it ends normally. *)
Lemma setup_property_exact config_content tag tag_obj ppty w tag_obj' w' :
  BattleTags.setup_property config_content tag tag_obj ppty w
  = (Ok tag_obj', w') ->
  let given :=
    match general_lookup config_content ppty with
    | Some v => BattleTag.setattr tag_obj ppty v
    | None => tag_obj
    end in
  w' = w
  /\ if String.eqb ppty "api_token_path" then
       exists path text,
         BattleTag.api_token_path given = PyStr path
         /\ fs w !! path = Some (NFile text)
         /\ tag_obj' = BattleTag.setattr given "api_token" (PyStr (strip text))
     else tag_obj' = given.
Proof.
  unfold BattleTags.setup_property. rewrite bind_run.
  destruct (BattleTags.set_from_general _ _ _ _) as [[t1|] w1] eqn:H1;
    [|done].
  apply set_from_general_exact in H1 as [-> ->]. rewrite bind_run.
  destruct (BattleTags.set_from_tag _ _ _ _ _) as [[t2|] w2] eqn:H2; [|done].
  apply set_from_tag_inv in H2 as [-> ->]. cbv zeta.
  destruct (String.eqb ppty "api_token_path").
  - intros (-> & path & text & Hpath & Hf & ->)%read_api_token_inv.
    split; [done|]. by exists path, text.
  - by intros [= <- <-].
Qed.

(** The identity the loop over the properties makes of an entry, when
    it ends normally. *)
Lemma setup_properties_exact config_content tag w tag_obj' w' :
  BattleTags.setup_properties config_content tag (BattleTag.__init__ tag)
    ["api_token_path"; "base_url"; "mode"; "region"; "game_type"] w
  = (Ok tag_obj', w') ->
  w' = w
  /\ exists path text,
       general_lookup config_content "api_token_path" = Some (PyStr path)
       /\ fs w !! path = Some (NFile text)
       /\ tag_obj'
          = resolved config_content (PyStr (strip text)) (PyStr path) tag.
Proof.
  cbn [BattleTags.setup_properties]. rewrite bind_run.
  destruct (BattleTags.setup_property _ _ _ "api_token_path" _)
    as [[t1|] w1] eqn:H1; [|done].
  apply setup_property_exact in H1 as (-> & path & text & Hpath & Hf & ->).
  rewrite bind_run.
  destruct (BattleTags.setup_property _ _ _ "base_url" _)
    as [[t2|] w2] eqn:H2; [|done].
  apply setup_property_exact in H2 as (-> & ->). rewrite bind_run.
  destruct (BattleTags.setup_property _ _ _ "mode" _)
    as [[t3|] w3] eqn:H3; [|done].
  apply setup_property_exact in H3 as (-> & ->). rewrite bind_run.
  destruct (BattleTags.setup_property _ _ _ "region" _)
    as [[t4|] w4] eqn:H4; [|done].
  apply setup_property_exact in H4 as (-> & ->). rewrite bind_run.
  destruct (BattleTags.setup_property _ _ _ "game_type" _)
    as [[t5|] w5] eqn:H5; [|done].
  apply setup_property_exact in H5 as (-> & ->).
  intros [= <- <-]. split; [done|].
  unfold resolved, general_option.
  destruct (general_lookup config_content "api_token_path") as [v|];
    [|done].
  cbn in Hpath. subst v. exists path, text. split; [done|]. split; [done|].
  by destruct (general_lookup config_content "base_url"),
    (general_lookup config_content "mode"),
    (general_lookup config_content "region"),
    (general_lookup config_content "game_type").
Qed.

(** The loop over the entries appends to the list it is given what it
    appends to the empty list. *)
Lemma setup_tags_shift config_content tags :
  forall battle_tags w,
  BattleTags.setup_tags config_content tags battle_tags w
  = match BattleTags.setup_tags config_content tags [] w with
    | (Ok news, w1) => (Ok (battle_tags ++ news), w1)
    | (Raise e, w1) => (Raise e, w1)
    end.
Proof.
  induction tags as [|tag rest IH]; intros battle_tags w.
  - cbn. by rewrite app_nil_r.
  - cbn [BattleTags.setup_tags]. rewrite !bind_run.
    destruct (BattleTags.setup_properties _ _ _ _ _) as [[t|e] w1]; [|done].
    rewrite (IH (battle_tags ++ [t])), (IH ([] ++ [t])).
    destruct (BattleTags.setup_tags config_content rest [] w1)
      as [[news|e] w2]; [|done].
    by rewrite <- app_assoc.
Qed.

(** The identities the loop over the entries makes, when it ends
    normally. *)
Lemma setup_tags_exact config_content tags :
  forall battle_tags w battle_tags' w',
  BattleTags.setup_tags config_content tags battle_tags w
  = (Ok battle_tags', w') ->
  w' = w
  /\ ((tags = [] /\ battle_tags' = battle_tags)
      \/ exists path text,
           general_lookup config_content "api_token_path"
           = Some (PyStr path)
           /\ fs w !! path = Some (NFile text)
           /\ battle_tags'
              = battle_tags
                ++ (resolved config_content (PyStr (strip text)) (PyStr path)
                      <$> tags)).
Proof.
  induction tags as [|tag rest IH]; intros battle_tags w battle_tags' w'.
  - intros [= <- <-]. split; [done|]. by left.
  - cbn [BattleTags.setup_tags]. rewrite bind_run.
    destruct (BattleTags.setup_properties _ _ _ _ _) as [[t|] w1] eqn:Ht;
      [|done].
    apply setup_properties_exact in Ht as (-> & path & text & Hpath & Hf & ->).
    intros (-> & Hrest)%IH. split; [done|]. right. exists path, text.
    split; [done|]. split; [done|].
    destruct Hrest as [[-> ->]|(path' & text' & Hpath' & Hf' & ->)]; [done|].
    rewrite Hpath in Hpath'. injection Hpath' as <-.
    rewrite Hf in Hf'. injection Hf' as <-.
    by rewrite <- app_assoc.
Qed.

End SetupFurther.

(** X8.  Set-up reads and never writes: however
    [setup_battle_tags_from_config] ends, with the identities or with an
    exception, the files, the requests sent and the log are as they
    were. *)
Theorem setup_changes_nothing (config_content : value)
    (battle_tags : list BattleTag.t) (w : world) :
  (BattleTags.setup_battle_tags_from_config config_content battle_tags w).2
  = w.
Proof.
  destruct (BattleTags.setup_battle_tags_from_config _ _ _) as [r w'] eqn:Hrun.
  by apply reads_only_setup_battle_tags_from_config in Hrun.
Qed.

(** X9.  The identities of a set-up that ends normally differ in their
    handle only.  There is one for each entry of [battle_tags], in
    order, after the identities that were there; each has the entry as
    its handle, the options [base_url], [mode], [region] and [game_type]
    of the general section ([None] for an option it does not give), the
    [api_token_path] of the general section, and as token the trimmed
    text of that one file. *)
Theorem setup_identities_share_options (config_content : value)
    (battle_tags battle_tags' : list BattleTag.t) (w w' : world) :
  BattleTags.setup_battle_tags_from_config config_content battle_tags w
  = (Ok battle_tags', w') ->
  exists listed tags,
    py_get config_content "battle_tags" (PyList []) = Ok listed
    /\ py_iter listed = Ok tags
    /\ ((tags = [] /\ battle_tags' = battle_tags)
        \/ exists path text,
             general_lookup config_content "api_token_path"
             = Some (PyStr path)
             /\ fs w !! path = Some (NFile text)
             /\ battle_tags'
                = battle_tags
                  ++ (resolved config_content (PyStr (strip text))
                        (PyStr path) <$> tags)).
Proof.
  unfold BattleTags.setup_battle_tags_from_config. unfold_run.
  destruct (py_contains config_content (PyStr "general")) as [[]|]; try done.
  destruct (py_get config_content "battle_tags" (PyList [])) as [listed|];
    [|done].
  destruct (py_iter listed) as [tags|] eqn:Htags; [|done].
  intros (-> & Hshape)%setup_tags_exact. by exists listed, tags.
Qed.

Lemma setup_identities_share_options_witness :
  exists listed tags,
    py_get config_plain "battle_tags" (PyList []) = Ok listed
    /\ py_iter listed = Ok tags
    /\ ((tags = []
         /\ [foo_from_general (PyStr "Foo#1234") (PyStr "token-a");
             foo_from_general (PyStr "Bar#5678") (PyStr "token-a")] = [])
        \/ exists path text,
             general_lookup config_plain "api_token_path" = Some (PyStr path)
             /\ fs world_credentials !! path = Some (NFile text)
             /\ [foo_from_general (PyStr "Foo#1234") (PyStr "token-a");
                 foo_from_general (PyStr "Bar#5678") (PyStr "token-a")]
                = []
                  ++ (resolved config_plain (PyStr (strip text)) (PyStr path)
                        <$> tags)).
Proof.
  apply (setup_identities_share_options config_plain [] _ world_credentials
           world_credentials).
  vm_compute. reflexivity.
Defined.

(** X10.  Set-up appends and never resets: when it has ended normally,
    having appended the identities [news], running it again in the same
    world, on any list, ends normally and appends [news] once more; run
    again on its own result it leaves every identity twice. *)
Theorem setup_again_appends_again (config_content : value)
    (battle_tags battle_tags' : list BattleTag.t) (w w' : world) :
  BattleTags.setup_battle_tags_from_config config_content battle_tags w
  = (Ok battle_tags', w') ->
  exists news,
    battle_tags' = battle_tags ++ news
    /\ (forall others,
          BattleTags.setup_battle_tags_from_config config_content others w'
          = (Ok (others ++ news), w'))
    /\ BattleTags.setup_battle_tags_from_config config_content battle_tags' w'
       = (Ok (battle_tags ++ news ++ news), w').
Proof.
  intros Hrun.
  pose proof (reads_only_setup_battle_tags_from_config _ _ _ _ _ Hrun) as ->.
  revert Hrun.
  unfold BattleTags.setup_battle_tags_from_config. unfold_run.
  destruct (py_contains config_content (PyStr "general")) as [[]|]; try done.
  destruct (py_get config_content "battle_tags" (PyList [])) as [listed|];
    [|done].
  destruct (py_iter listed) as [tags|]; [|done].
  rewrite setup_tags_shift.
  destruct (BattleTags.setup_tags config_content tags [] w)
    as [[news|e] w1] eqn:Hnews; [|done].
  pose proof (reads_only_setup_tags _ _ _ _ _ _ Hnews) as ->.
  intros [= <-]. exists news. split; [done|].
  assert (forall others,
            BattleTags.setup_tags config_content tags others w
            = (Ok (others ++ news), w)) as Hagain.
  { intros others. by rewrite setup_tags_shift, Hnews. }
  split; [done|]. by rewrite Hagain, <- app_assoc.
Qed.

Lemma setup_again_appends_again_witness :
  let made :=
    [foo_from_general (PyStr "Foo#1234") (PyStr "token-a");
     foo_from_general (PyStr "Bar#5678") (PyStr "token-a")] in
  exists news,
    made = [] ++ news
    /\ (forall others,
          BattleTags.setup_battle_tags_from_config config_plain others
            world_credentials
          = (Ok (others ++ news), world_credentials))
    /\ BattleTags.setup_battle_tags_from_config config_plain made
         world_credentials
       = (Ok ([] ++ news ++ news), world_credentials).
Proof.
  cbv zeta.
  apply (setup_again_appends_again config_plain [] _ world_credentials
           world_credentials).
  vm_compute. reflexivity.
Defined.

(** X11.  The credential file is checked at the first entry.  With a
    general section and a first entry of [battle_tags] that is not a
    list, set-up ends with [TypeError] when the general section gives no
    [api_token_path] (the path is then [None], or the section is not a
    mapping), and with [AssertionError] when the path it gives is not a
    regular file; in both cases no identity is returned. *)
Theorem setup_credential_errors (config_content listed tag : value)
    (rest : list value) (battle_tags : list BattleTag.t) (w : world) :
  py_contains config_content (PyStr "general") = Ok true ->
  py_get config_content "battle_tags" (PyList []) = Ok listed ->
  py_iter listed = Ok (tag :: rest) ->
  BattleTag.is_list tag = false ->
  (general_lookup config_content "api_token_path" = None ->
   BattleTags.setup_battle_tags_from_config config_content battle_tags w
   = (Raise TypeError, w))
  /\ (forall path,
        general_lookup config_content "api_token_path" = Some (PyStr path) ->
        (forall text, fs w !! path <> Some (NFile text)) ->
        BattleTags.setup_battle_tags_from_config config_content battle_tags w
        = (Raise AssertionError, w)).
Proof.
  intros Hgeneral Hlisted Htags Hlist.
  assert (exists general,
            py_get config_content "general" (PyList []) = Ok general
            /\ py_getitem config_content (PyStr "general") = Ok general)
    as (general & Hget & Hsection).
  { destruct (py_get config_content "general" (PyList [])) as [general|]
      eqn:Hget; [|by destruct config_content].
    exists general. split; [done|]. by eapply py_get_contains. }
  unfold BattleTags.setup_battle_tags_from_config. unfold_run.
  rewrite Hgeneral, Hlisted, Htags. cbn [BattleTags.setup_tags].
  cbn [BattleTags.setup_properties]. unfold BattleTags.setup_property.
  unfold BattleTags.set_from_general, BattleTags.set_from_tag,
    BattleTags.read_api_token, general_lookup.
  unfold_run. rewrite Hlist, Hget, Hsection.
  destruct (py_getitem general (PyStr "api_token_path")) as [v|e] eqn:Hpath.
  - rewrite (py_getitem_str_contains _ _ _ Hpath). split; [done|].
    intros path [= ->] Hno. cbn. unfold isfile.
    destruct (fs w !! path) as [[text|]|] eqn:Hf; [|done..].
    by destruct (Hno text).
  - split; [|done]. intros _.
    destruct (py_contains general (PyStr "api_token_path")) as [[]|e']
      eqn:Hin.
    + by rewrite (py_contains_true_getitem_raise _ _ _ Hin Hpath).
    + done.
    + by rewrite (py_contains_str_raise _ _ _ Hin).
Qed.

Lemma setup_credential_errors_witness :
  BattleTags.setup_battle_tags_from_config config_without_credential []
    world_credentials
  = (Raise TypeError, world_credentials)
  /\ BattleTags.setup_battle_tags_from_config config_plain []
       (World ∅ remote_down [] [])
     = (Raise AssertionError, World ∅ remote_down [] []).
Proof.
  split.
  - apply (proj1 (setup_credential_errors config_without_credential
                    (PyList [PyStr "Foo#1234"]) (PyStr "Foo#1234") [] []
                    world_credentials eq_refl eq_refl eq_refl eq_refl)).
    reflexivity.
  - apply (proj2 (setup_credential_errors config_plain
                    (PyList [PyStr "Foo#1234"; PyStr "Bar#5678"])
                    (PyStr "Foo#1234") [PyStr "Bar#5678"] []
                    (World ∅ remote_down [] [])
                    eq_refl eq_refl eq_refl eq_refl) "/a").
    + reflexivity.
    + intros text. cbn [fs]. by rewrite lookup_empty.
Defined.

(** ** The whole fetch, further *)

Section Complete.
Context {codec : JsonCodec} {laws : JsonLaws codec}.

(** A round over a complete cache returns 0, sends nothing and leaves
    the files as they are. *)
Lemma advanced_replays_of_complete self params username game_type label w :
  dict_get GAME_TYPES game_type = Some label ->
  complete (fs w) username ->
  exists w',
    BattleTag.advanced_replays_of self params username game_type w
    = (Ok 0, w')
    /\ fs w' = fs w /\ sent w' = sent w.
Proof.
  intros Hlabel Hcomplete.
  destruct (Hcomplete game_type label Hlabel)
    as (base_text & base_json & d & Hbase & Hjson & Hadv & Hwk & Hall).
  pose proof (cached_records_dumped _ _ _ Hadv Hwk) as Hcached.
  rewrite (advanced_replays_of_run _ _ _ _ _ _ _ _ Hcached Hbase Hjson).
  assert (<[BattleTag.adv_file_of username game_type :=
              NFile (json_dumps (PyDict d))]>
            (<[BattleTag.adv_file_of username game_type := NFile ""]> (fs w))
          = fs w) as Hsame.
  { rewrite insert_insert_eq. by apply insert_id. }
  destruct Hall as [Hfalse|(listed & replay_ids & Hlisted & Hiter & Hall)].
  - rewrite Hfalse. eexists. split; [reflexivity|]. by cbn.
  - rewrite (py_getitem_truthy _ _ _ Hlisted), Hlabel, Hlisted, Hiter.
    cbn [negb]. rewrite <- (app_nil_r replay_ids).
    rewrite fetch_replays_skip by done.
    eexists. split; [reflexivity|]. by cbn.
Qed.

Lemma advanced_rounds_complete self params username game_types :
  forall w,
  (forall g, g ∈ game_types -> g ∈ dict_keys GAME_TYPES) ->
  complete (fs w) username ->
  exists w',
    BattleTag.for_each_counting
      (BattleTag.advanced_replays_of self params username) game_types w
    = (Ok (replicate (length game_types) 0), w')
    /\ fs w' = fs w /\ sent w' = sent w.
Proof.
  induction game_types as [|g gs IH]; intros w Hkeys Hcomplete.
  - by exists w.
  - rewrite for_each_counting_cons.
    assert (exists label, dict_get GAME_TYPES g = Some label) as [label Hl].
    { pose proof (Hkeys g (list_elem_of_here _ _)) as Hg.
      apply dict_has_keys in Hg. rewrite dict_has_get in Hg.
      destruct (dict_get GAME_TYPES g); [eauto|done]. }
    destruct (advanced_replays_of_complete self params username g label w
                Hl Hcomplete) as (w1 & -> & Hfs1 & Hs1).
    destruct (IH w1) as (w' & -> & Hfs & Hs).
    + intros. by apply Hkeys, list_elem_of_further.
    + by rewrite Hfs1.
    + exists w'. split; [done|]. split; congruence.
Qed.

End Complete.

(** X12.  A complete cache needs no network, and it is shared by every
    handle with the same name before the ['#'].  The cache of a user
    name is complete when, for every game type, the listing file parses,
    the advanced file is there and holds the dump of a dict, and the
    listing is empty or every identifier it names is a key of that
    dict.  Then the full fetch of any identity with that user name
    (whatever its token, its address and the remote) ends normally with
    the count 0 for each game type, sends no request, and leaves the
    listing and advanced files of the user name holding what they
    held. *)
Theorem complete_cache_needs_no_network {codec : JsonCodec}
    {laws : JsonLaws codec} (self : BattleTag.t) (tag : string) (w : world) :
  let username := split_hash_0 tag in
  BattleTag.battletag self = PyStr tag ->
  complete (fs w) username ->
  exists w',
    fetch_identity self w = (Ok [0; 0; 0; 0], w')
    /\ sent w' = sent w
    /\ forall g, g ∈ dict_keys GAME_TYPES ->
         fs w' !! BattleTag.base_file_of username g
         = fs w !! BattleTag.base_file_of username g
         /\ fs w' !! BattleTag.adv_file_of username g
            = fs w !! BattleTag.adv_file_of username g.
Proof.
  intros username Htag Hcomplete.
  rewrite (fetch_identity_run self tag w Htag).
  rewrite base_rounds_cached.
  - destruct (advanced_rounds_complete self (BattleTag._params self)
                (split_hash_0 tag) (dict_keys GAME_TYPES) w)
      as (w' & Hrun & Hfs & Hsent); [done..|].
    exists w'. split; [done|]. split; [done|]. intros g _. by rewrite Hfs.
  - intros g Hg. apply dict_has_keys in Hg. rewrite dict_has_get in Hg.
    destruct (dict_get GAME_TYPES g) as [label|] eqn:Hl; [|done].
    destruct (Hcomplete g label Hl) as (text & obj & _ & ? & ? & _).
    by exists text, obj.
Qed.

Lemma first_fetch_is_complete :
  complete (codec := python_json) (fs after_first_fetch) "Foo".
Proof.
  intros game_type label Hlabel%GAME_TYPES_cases.
  assert (forall x,
            x ∈ [PyStr "r1"; PyStr "r2"; PyStr "r3"] ->
            py_contains
              (PyDict [("r1", record_of "r1"); ("r2", record_of "r2");
                       ("r3", record_of "r3")]) x = Ok true) as Hall.
  { intros x. rewrite !elem_of_cons, elem_of_nil.
    intros [->|[->|[->|[]]]]; reflexivity. }
  revert Hlabel. unfold GAME_TYPES. rewrite !elem_of_cons, elem_of_nil.
  intros [[= -> ->]|[[= -> ->]|[[= -> ->]|[[= -> ->]|[]]]]];
    eexists _, (listing_of _ ["r1"; "r2"; "r3"]),
      [("r1", record_of "r1"); ("r2", record_of "r2"); ("r3", record_of "r3")];
    (split; [vm_compute; reflexivity|]);
    (split; [vm_compute; reflexivity|]);
    (split; [vm_compute; reflexivity|]);
    (split; [reflexivity|]);
    right; eexists _, _; (split; [reflexivity|]); (split; [reflexivity|]);
    exact Hall.
Qed.

Lemma complete_cache_needs_no_network_witness :
  let w := World (fs after_first_fetch) remote_down [] [] in
  exists w',
    fetch_identity (codec := python_json) foo_namesake w
    = (Ok [0; 0; 0; 0], w')
    /\ sent w' = sent w
    /\ forall g, g ∈ dict_keys GAME_TYPES ->
         fs w' !! BattleTag.base_file_of "Foo" g
         = fs w !! BattleTag.base_file_of "Foo" g
         /\ fs w' !! BattleTag.adv_file_of "Foo" g
            = fs w !! BattleTag.adv_file_of "Foo" g.
Proof.
  cbv zeta.
  apply (complete_cache_needs_no_network (codec := python_json)
           (laws := python_json_laws) foo_namesake "Foo#9999"
           (World (fs after_first_fetch) remote_down [] [])).
  - reflexivity.
  - exact first_fetch_is_complete.
Defined.

(** X14.  What Phase 1 leaves when it ends normally: for every game
    type the listing file of the user name is a regular file whose text
    parses, and a listing that was in the cache before holds the text it
    held. *)
Theorem base_phase_leaves_parsed_listings {codec : JsonCodec}
    (self : BattleTag.t) (tag : string) (w w' : world) :
  let username := split_hash_0 tag in
  BattleTag.battletag self = PyStr tag ->
  BattleTag.download_base_replays self w = (Ok tt, w') ->
  forall g, g ∈ dict_keys GAME_TYPES ->
    exists text obj,
      fs w' !! BattleTag.base_file_of username g = Some (NFile text)
      /\ json_loads text = Some obj
      /\ forall text0,
           fs w !! BattleTag.base_file_of username g = Some (NFile text0) ->
           text0 = text.
Proof.
  intros username Htag. rewrite (download_base_replays_run self tag w Htag).
  intros Hrun g Hg.
  destruct (base_rounds_ok _ _ _ _ _ _ Hrun (fun g Hg => Hg) g Hg)
    as (text & obj & Hf & Hobj).
  exists text, obj. split; [done|]. split; [done|]. intros text0 Hf0.
  pose proof Hg as Hlabel. apply dict_has_keys in Hlabel.
  rewrite dict_has_get in Hlabel.
  destruct (dict_get GAME_TYPES g) as [label|] eqn:Hl; [|done].
  destruct (base_rounds_fetch_once _ _ _ _ _ _ _ _ _ _ Hrun
              (fun g Hg => Hg) Hl Hf0) as [Hkept _].
  subst username. rewrite Hf in Hkept. by injection Hkept.
Qed.

Lemma base_phase_leaves_parsed_listings_witness :
  let run :=
    BattleTag.download_base_replays (codec := python_json) foo
      world_one_listing in
  exists text obj,
    fs run.2 !! BattleTag.base_file_of "Foo" "qm" = Some (NFile text)
    /\ json.loads text = Some obj
    /\ forall text0,
         fs world_one_listing !! BattleTag.base_file_of "Foo" "qm"
         = Some (NFile text0) ->
         text0 = text.
Proof.
  cbv zeta.
  apply (base_phase_leaves_parsed_listings (codec := python_json) foo
           "Foo#1234" world_one_listing).
  - reflexivity.
  - apply (run_ok_pair
             (BattleTag.download_base_replays (codec := python_json) foo)).
    vm_compute. reflexivity.
  - apply (bool_decide_unpack _). vm_compute. reflexivity.
Defined.

(** X15.  A round of Phase 2 that ends normally, over a listing that
    names its replays by strings, loses nothing and leaves a cache the
    next run can load: the advanced file holds the dump of a value that
    the next round loads back as it is, and everything the cache had
    before the round is in it. *)
Theorem normal_round_keeps_cache_loadable {codec : JsonCodec}
    {laws : JsonLaws codec} (self : BattleTag.t)
    (params : list (string * value)) (username game_type : string)
    (w w' : world) (adv_json : value) (replays_cnt : nat) :
  let adv_file := BattleTag.adv_file_of username game_type in
  cached_records w adv_file = Some adv_json ->
  (forall label, dict_get GAME_TYPES game_type = Some label ->
     lists_strings (fs w) username game_type label) ->
  BattleTag.advanced_replays_of self params username game_type w
  = (Ok replays_cnt, w') ->
  exists adv_json',
    fs w' !! adv_file = Some (NFile (json_dumps adv_json'))
    /\ cached_records w' adv_file = Some adv_json'
    /\ forall x, py_contains adv_json x = Ok true ->
                 py_contains adv_json' x = Ok true.
Proof.
  intros adv_file Hadv Hstrings Hrun.
  pose proof (cached_records_well_keyed _ _ _ Hadv) as Hwk.
  destruct (advanced_replays_of_ok_inv _ _ _ _ _ _ _ Hrun)
    as (adv_json0 & base_text & base_json & Hadv' & Hbase & Hjson).
  fold adv_file in Hadv'. rewrite Hadv in Hadv'. injection Hadv' as <-.
  rewrite (advanced_replays_of_run _ _ _ _ _ _ _ _ Hadv Hbase Hjson) in Hrun.
  fold adv_file in Hrun.
  assert (forall (w1 : world) x,
            well_keyed x = true ->
            fs w1 !! adv_file = Some (NFile (json_dumps x)) ->
            fs w1 !! adv_file = Some (NFile (json_dumps x))
            /\ cached_records w1 adv_file = Some x) as Hloads.
  { intros w1 x Hx Hf. split; [done|]. by apply cached_records_dumped. }
  destruct (negb (py_truthy base_json)).
  { injection Hrun as <- <-. exists adv_json.
    destruct (Hloads
                (logging
                   (holding
                      (holding
                         (logging w
                            [InfoDownloadingAdvanced username game_type])
                         adv_file "") adv_file (json_dumps adv_json))
                   [InfoNoReplays username game_type]) adv_json Hwk)
      as [? ?]; [cbn; by rewrite lookup_insert_eq|done]. }
  destruct (dict_get GAME_TYPES game_type) as [label|]; [|done].
  destruct (py_getitem base_json (PyStr label)) as [listed|] eqn:Hlisted;
    [|done].
  destruct (py_iter listed) as [replay_ids|] eqn:Hiter; [|done].
  pose proof (Hstrings label eq_refl _ _ _ _ Hbase Hjson Hlisted Hiter)
    as Hstr.
  destruct (BattleTag.fetch_replays _ _ _ _ _ _ _ _) as [r1 w1] eqn:Hloop.
  destruct r1 as [[adv_json' cnt]|e]; [|done]. injection Hrun as <- <-.
  apply fetch_replays_grows in Hloop as [Hgrow Hwk']; [|done].
  exists adv_json'.
  destruct (Hloads
              (logging (holding w1 adv_file (json_dumps adv_json'))
                 [if (cnt =? 0)%nat
                  then InfoAllDownloaded username game_type
                  else InfoDownloaded cnt]) adv_json' (Hwk' Hwk))
    as [? ?]; [cbn; by rewrite lookup_insert_eq|done].
Qed.

Lemma normal_round_keeps_cache_loadable_witness :
  let w := world_without_record 201 in
  let run :=
    BattleTag.advanced_replays_of (codec := python_json) foo
      (BattleTag._params foo) "Foo" "qm" w in
  exists adv_json',
    fs run.2 !! "Foo/advanced/qm" = Some (NFile (json.dumps adv_json'))
    /\ cached_records (codec := python_json) run.2 "Foo/advanced/qm"
       = Some adv_json'
    /\ forall x,
         py_contains (PyDict [("r1", record_of "r1")]) x = Ok true ->
         py_contains adv_json' x = Ok true.
Proof.
  cbv zeta.
  apply (normal_round_keeps_cache_loadable (codec := python_json)
           (laws := python_json_laws) foo (BattleTag._params foo) "Foo" "qm"
           (world_without_record 201) _ (PyDict [("r1", record_of "r1")]) 0).
  - vm_compute. reflexivity.
  - intros label [= <-]. apply strings_listed_spec. vm_compute. reflexivity.
  - apply (run_ok_pair
             (BattleTag.advanced_replays_of (codec := python_json) foo
                (BattleTag._params foo) "Foo" "qm")).
    vm_compute. reflexivity.
Defined.

(** X16.  In the full fetch of an identity the listings come first.
    However it ends, what it sends is at most four listing requests
    followed by detail requests only; and when Phase 1 ends with an
    exception, no detail request is sent at all. *)
Theorem listings_precede_details {codec : JsonCodec} (self : BattleTag.t)
    (w : world) (r : result (list nat)) (w' : world) :
  fetch_identity self w = (r, w') ->
  exists listings details,
    sends w w' (listings ++ details)
    /\ length listings <= 4
    /\ (forall rq rp, (rq, rp) ∈ listings ->
          req_endpoint rq = "/Player/Replays")
    /\ (forall rq rp, (rq, rp) ∈ details -> req_endpoint rq = "/Replay/Data")
    /\ forall e w1,
         BattleTag.download_base_replays self w = (Raise e, w1) ->
         details = [] /\ r = Raise e.
Proof.
  intros Hrun.
  assert ((exists tag, BattleTag.battletag self = PyStr tag)
          \/ (BattleTag.download_base_replays self w
              = (Raise AttributeError, w)
              /\ r = Raise AttributeError /\ w' = w)) as [[tag Htag]|Hno].
  { revert Hrun. unfold fetch_identity, BattleTag.download_base_replays,
      BattleTag.username_of.
    destruct (BattleTag.battletag self); eauto;
      intros [= <- <-]; by right. }
  2:{ destruct Hno as (Hbase & -> & ->). exists [], [].
      split; [apply sends_refl|]. split; [simpl; lia|].
      split; [by intros ?? ?%elem_of_nil|].
      split; [by intros ?? ?%elem_of_nil|].
      intros e w1. rewrite Hbase. by intros [= <- <-]. }
  rewrite (fetch_identity_run self tag w Htag) in Hrun.
  rewrite (download_base_replays_run self tag w Htag).
  destruct (for_each _ _ w) as [r1 w1] eqn:Hphase1.
  assert (NoDup (dict_keys GAME_TYPES)) as Hnodup.
  { apply (bool_decide_unpack _). vm_compute. reflexivity. }
  destruct (base_rounds_requests _ _ _ _ _ _ _ Hnodup (fun g Hg => Hg)
              Hphase1) as (asked & listings & Hs1 & Hsub & Hall).
  assert (length listings <= 4) as Hlen.
  { apply sublist_length in Hsub. apply Forall2_length in Hall.
    rewrite length_fmap in Hall. rewrite <- Hall.
    etrans; [exact Hsub|]. reflexivity. }
  assert (forall rq rp, (rq, rp) ∈ listings ->
            req_endpoint rq = "/Player/Replays") as Hlistings.
  { intros rq rp Hin.
    assert (rq ∈ listings.*1) as Hrq.
    { apply list_elem_of_fmap. by exists (rq, rp). }
    clear Hin Hs1 Hlen Hsub. revert Hrq.
    induction Hall as [|g rq0 asked' rqs Hhead _ IH];
      [by intros ?%elem_of_nil|].
    intros [->|?]%elem_of_cons; [|by apply IH].
    by destruct Hhead as (label & _ & -> & _). }
  destruct r1 as [[]|e].
  - destruct (advanced_rounds_shape _ _ _ _ _ _ _ Hrun)
      as (details & Hs2 & Hn).
    exists listings, details. split; [by eapply sends_trans|].
    split; [done|]. split; [done|]. split; [|done].
    intros rq rp (md & token & x & _ & _ & ->)%Hn. done.
  - injection Hrun as <- <-. exists listings, [].
    rewrite app_nil_r. split; [done|]. split; [done|]. split; [done|].
    split; [by intros ?? ?%elem_of_nil|]. by intros e0 w2 [= <- <-].
Qed.

Lemma listings_precede_details_witness :
  let run := fetch_identity (codec := python_json) foo (world_fresh 200) in
  exists listings details,
    sends (world_fresh 200) run.2 (listings ++ details)
    /\ length listings <= 4
    /\ (forall rq rp, (rq, rp) ∈ listings ->
          req_endpoint rq = "/Player/Replays")
    /\ (forall rq rp, (rq, rp) ∈ details -> req_endpoint rq = "/Replay/Data")
    /\ forall e w1,
         BattleTag.download_base_replays (codec := python_json) foo
           (world_fresh 200) = (Raise e, w1) ->
         details = [] /\ run.1 = Raise e.
Proof.
  cbv zeta.
  apply (listings_precede_details (codec := python_json) foo
           (world_fresh 200)).
  apply surjective_pairing.
Defined.
